(** * Terrace detection pipeline (master_terrasses.py): slope, break mask,
    tile vectorisation, global merge, export and terrace / wall classifier.

    Numbers are IEEE-754 binary64 values, as Python's [float] and numpy's
    [float64] are: the kernel's primitive floats with their operations.
    Library calls whose code is not part of the repository (shapely, rasterio,
    scipy, libm) are methods of interface classes: every theorem holds for
    every implementation of them. An exception is the value [None]. *)

From Stdlib Require Import ZArith Lia Floats.
From stdpp Require Import base option list gmap strings sorting.

Local Open Scope Z_scope.

(* ====================================================================== *)
(** ** Python floats *)

Module PyFloat.

(** [x > y], [x < y] and [x == y] on Python floats. *)
Definition gt (x y : float) : bool := PrimFloat.ltb y x.
Definition lt (x y : float) : bool := PrimFloat.ltb x y.
Definition ge (x y : float) : bool := PrimFloat.leb y x.
Definition le (x y : float) : bool := PrimFloat.leb x y.
Definition eq (x y : float) : bool := PrimFloat.eqb x y.

(** [x / y] on Python floats: ZeroDivisionError ([None]) when [y == 0]. (The
    division of numpy float64 values never raises.) *)
Definition div (x y : float) : option float :=
  if PrimFloat.eqb y 0%float then None else Some (x / y)%float.

(** [np.pi]. *)
Definition np_pi : float := 0x1.921fb54442d18p+1%float.

(** A float that is a number: it equals itself. *)
Definition is_number (x : float) : Prop := PrimFloat.eqb x x = true.

End PyFloat.

(* ====================================================================== *)
(** ** Two-dimensional arrays (numpy) *)

(** A 2-D array is its shape [(rows, columns)] and its cells. *)
Record ndarray (A : Type) := NdArray {
  nrows : nat;
  ncols : nat;
  cell : nat -> nat -> A
}.
Arguments NdArray {A} _ _ _.
Arguments nrows {A} _.
Arguments ncols {A} _.
Arguments cell {A} _ _ _.

Module Np.

Definition shape {A} (a : ndarray A) : nat * nat := (nrows a, ncols a).

(** [np.zeros((h, w))], for the sample type's zero. *)
Definition full {A} (v : A) (h w : nat) : ndarray A := NdArray h w (fun _ _ => v).

(** Element-wise application: [np.where(cond, 1, 0)], [astype]. *)
Definition map {A B} (f : A -> B) (a : ndarray A) : ndarray B :=
  NdArray (nrows a) (ncols a) (fun i j => f (cell a i j)).

(** Element-wise binary operation on arrays of one shape; numpy raises
    when the shapes cannot be combined ([None]). *)
Definition map2 {A B C} (f : A -> B -> C) (a : ndarray A) (b : ndarray B)
  : option (ndarray C) :=
  if decide (shape a = shape b)
  then Some (NdArray (nrows a) (ncols a) (fun i j => f (cell a i j) (cell b i j)))
  else None.

(** [a[r0 : r0 + h, c0 : c0 + w]] for non-negative bounds: a slice is
    clipped to the array, never an error. *)
Definition slice {A} (a : ndarray A) (r0 h c0 w : nat) : ndarray A :=
  NdArray (Nat.min h (nrows a - r0)) (Nat.min w (ncols a - c0))
          (fun i j => cell a (r0 + i) (c0 + j)).

(** [np.any(a == v)] *)
Definition any {A} (p : A -> bool) (a : ndarray A) : bool :=
  existsb (fun i => existsb (fun j => p (cell a i j)) (seq 0 (ncols a)))
          (seq 0 (nrows a)).

End Np.

(** A raster window: pixel offsets and size. *)
Record Window := MkWindow {
  col_off : Z;
  row_off : Z;
  width : nat;
  height : nat
}.

(** [windows.Window(w.col_off - pad, w.row_off - pad, w.width + 2*pad,
    w.height + 2*pad)] *)
Definition padded (pad : nat) (w : Window) : Window :=
  MkWindow (col_off w - Z.of_nat pad) (row_off w - Z.of_nat pad)
           (width w + 2 * pad) (height w + 2 * pad).

(* ====================================================================== *)
(** ** Configuration *)

Definition SEUIL_PENTE : float := 15%float.
Definition SIMPLIFY_TOL : float := 2%float.
Definition MIN_AREA : float := 20%float.
Definition MAX_AREA : float := 10000%float.
Definition PAD_CALC : nat := 8.
Definition SEUIL_ASYM : float := 0x1.6666666666666p-1%float. (* 0.7 *)
Definition DIST_SONDAGE : float := 5%float.

(* ====================================================================== *)
(** ** Step 2: break mask (etape_ruptures) *)

Module BreakMask.

(** [np.where(data > seuil, 1, 0).astype(np.uint8)], one pixel. *)
Definition mask_pixel (seuil : float) (v : float) : Z :=
  if PyFloat.gt v seuil then 1 else 0.

Definition mask_block (seuil : float) (data : ndarray float) : ndarray Z :=
  Np.map (mask_pixel seuil) data.

(** The loop over [src.block_windows(1)]: each block is read at its
    window, thresholded, and written at the same window. *)
Definition etape_ruptures_with (seuil : float) (read : Window -> ndarray float)
           (windows_list : list Window) : list (Window * ndarray Z) :=
  List.map (fun window => (window, mask_block seuil (read window))) windows_list.

Definition etape_ruptures := etape_ruptures_with SEUIL_PENTE.

End BreakMask.

(* ====================================================================== *)
(** ** Step 1: slope (etape_pente) *)

(** The sample type of the elevation and slope grids (float32) with the
    library operations applied to it: [np.zeros], [ndimage.sobel(data, axis)]
    and [np.hypot]. *)
Class SlopeLib (px : Type) := {
  px_zero : px;
  sobel : ndarray px -> nat -> ndarray px;
  hypot : px -> px -> px
}.

Module SlopeComputer.
Section Slope.
Context {px : Type} `{SlopeLib px}.

(** [dst.write(arr, 1, window=window)]: the written block is recorded with
    its window; rasterio raises when the array does not have the window's
    shape. *)
Definition write (dst : list (Window * ndarray px)) (arr : ndarray px)
           (window : Window) : option (list (Window * ndarray px)) :=
  if decide (Np.shape arr = (height window, width window))
  then Some (dst ++ [(window, arr)])
  else None.

(** The gradient magnitude of the padded block [data]. *)
Definition slope_of (data : ndarray px) : option (ndarray px) :=
  let sy := sobel data 0 in
  let sx := sobel data 1 in
  Np.map2 hypot sx sy.

(** The body of the loop from [slope = ...] to [slope_clean]. *)
Definition slope_block (data : ndarray px) (window : Window) : option (ndarray px) :=
  slope ← slope_of data;
  let h_target := height window in
  let w_target := width window in
  let slope_clean := Np.slice slope PAD_CALC h_target PAD_CALC w_target in
  Some (if decide (Np.shape slope_clean ≠ (h_target, w_target))
        then Np.full px_zero h_target w_target
        else slope_clean).

(** The loop of [etape_pente] over [windows_list]; [read] is
    [src.read(1, window=..., boundless=True)]. [None] is an exception that
    nothing catches. *)
Fixpoint etape_pente_blocks (read : Window -> ndarray px) (windows_list : list Window)
         (dst : list (Window * ndarray px)) : option (list (Window * ndarray px)) :=
  match windows_list with
  | [] => Some dst
  | window :: rest =>
      let read_window := padded PAD_CALC window in
      let data := read read_window in
      slope_clean ← slope_block data window;
      dst' ← write dst slope_clean window;
      etape_pente_blocks read rest dst'
  end.

(** What the loop writes for one block, in terms of the gradient magnitude
    [slope] of the padded read. *)
Definition written_block (slope : ndarray px) (window : Window) (block : ndarray px) : Prop :=
  let cropped := Np.slice slope PAD_CALC (height window) PAD_CALC (width window) in
  (Np.shape cropped = (height window, width window) -> block = cropped)
  /\ (Np.shape cropped <> (height window, width window) ->
      block = Np.full px_zero (height window) (width window))
  /\ Np.shape block = (height window, width window).

End Slope.
End SlopeComputer.

(* ====================================================================== *)
(** ** Python values, features and files *)

(** Library arithmetic: [x ** y] on floats (libm's pow; [None] when Python
    raises OverflowError), [round(x, n)] on a Python float and on a numpy
    float64. *)
Class PyNum := {
  float_pow : float -> float -> option float;
  py_round : float -> nat -> float;
  np_round : float -> nat -> float
}.

(** [int(x)]: truncation toward zero; raises on NaN and on infinities. *)
Definition py_int (x : float) : option Z :=
  match Prim2SF x with
  | S754_zero _ => Some 0
  | S754_finite s m e => Some (SpecFloat.cond_Zopp s (Z.shiftl (Zpos m) e))
  | _ => None
  end.

(** The values stored under a feature's properties. *)
Inductive pyval :=
| VInt (n : Z)
| VFloat (x : float)
| VStr (s : string).

(** GeoJSON coordinates: a number, or a list of coordinates. *)
#[warnings="-register-all"]
Inductive coords :=
| Coord (x : float)
| CoordList (l : list coords).

(** A feature: its [properties] dict and its [geometry] mapping. *)
Record Feature (J : Type) := MkFeature {
  properties : gmap string pyval;
  geometry : J
}.
Arguments MkFeature {J} _ _.
Arguments properties {J} _.
Arguments geometry {J} _.

Record FeatureCollection (J : Type) := MkFeatureCollection {
  fc_name : string;
  fc_crs : string;
  features : list (Feature J)
}.
Arguments MkFeatureCollection {J} _ _ _.
Arguments fc_name {J} _.
Arguments fc_crs {J} _.
Arguments features {J} _.

Definition FILE_MNT : string := "MNT_PNR_fusionne.tif".
Definition FILE_PENTE : string := "pente.tif".
Definition FILE_RUPTURES : string := "ruptures_pente.tif".
Definition FILE_GEOJSON : string := "terrasses.geojson".
Definition FILE_DASHBOARD : string := "terrasses_enriched.json".

(** [round_coords]: every number of a nested coordinate list rounded to 6
    decimals. *)
Fixpoint round_coords `{PyNum} (c : coords) : coords :=
  match c with
  | Coord x => Coord (py_round x 6)
  | CoordList l => CoordList (List.map round_coords l)
  end.

(* ====================================================================== *)
(** ** Geometry (shapely) *)

(** What the pipeline reads off a geometry: [g.is_empty], [g.is_valid],
    [g.area] and [g.length]. *)
Class Measured (Geom : Type) := {
  is_empty : Geom -> bool;
  is_valid : Geom -> bool;
  geom_area : Geom -> float;
  geom_length : Geom -> float
}.

(** [shape(mapping)]: [None] when it raises. *)
Class Decoder (J Geom : Type) := {
  shape : J -> option Geom
}.

(** [g.simplify(tolerance)] and [g.buffer(distance, join_style=1)] (round
    joins, which is also the default style of [buffer(0)]). *)
Class Smoother (Geom : Type) := {
  simplify : Geom -> float -> Geom;
  buffer : Geom -> float -> Geom
}.

(** [unary_union(list)] ([None] when it raises) and the parts of a
    multi-part geometry ([None] when the object has no attribute [geoms]). *)
Class Overlay (Geom : Type) := {
  unary_union : list Geom -> option Geom;
  geoms : Geom -> option (list Geom)
}.

(** Reprojection to WGS84 ([None] when it raises), the GeoJSON mapping of a
    geometry and the [coordinates] entry of a mapping: [mapping['coordinates']]
    is a KeyError ([None]) when the mapping has no such key, as the mapping
    of a geometry collection, which has [geometries] instead. *)
Class Projector (J Geom : Type) := {
  transform : Geom -> option Geom;
  mapping : Geom -> J;
  coordinates : J -> option coords;
  set_coordinates : J -> coords -> J
}.

(** [g.minimum_rotated_rectangle.exterior.coords] as a list; [None] when the
    rectangle degenerates to a geometry without an exterior ring and the
    attribute access raises. *)
Class Oriented (Geom : Type) := {
  minimum_rotated_rectangle_coords : Geom -> option (list (float * float))
}.

(** [features.shapes(mask, mask=mask, transform=win_transform)]: the traced
    regions of a mask read at a window, each with its pixel value. *)
Class Tracer (J : Type) := {
  shapes : ndarray Z -> Window -> list (J * Z)
}.

(** The Gravelius compactness [perim / (2 * np.sqrt(np.pi * area)) if area > 0
    else 1.0], written out in the exporter and in the classifier. *)
Definition gravelius (perim area : float) : float :=
  if PyFloat.gt area 0
  then (perim / (2 * PrimFloat.sqrt (PyFloat.np_pi * area)))%float
  else 1%float.

(** [round(gc, 2)]: the computed score is a numpy float64, the constant 1.0 a
    Python float. *)
Definition round_gravelius `{PyNum} (perim area : float) : float :=
  if PyFloat.gt area 0
  then np_round (perim / (2 * PrimFloat.sqrt (PyFloat.np_pi * area)))%float 2
  else py_round 1%float 2.

(** [range(0, stop, step)] for a positive step. *)
Definition py_range (stop step : nat) : list nat :=
  List.map (fun k => (k * step)%nat) (seq 0 (Nat.div (stop + (step - 1)) step)).

(** [[l[i:i + n] for i in range(0, len(l), n)]] *)
Definition chunks {A} (n : nat) (l : list A) : list (list A) :=
  List.map (fun i => take n (drop i l)) (py_range (length l) n).

(* ====================================================================== *)
(** ** Step 3, worker: tile vectorisation (process_window_batch) *)

Module TileVectorizer.
Section Worker.
Context {J Geom : Type}.
Context `{Measured Geom, Decoder J Geom, Smoother Geom, Tracer J}.

(** The body of [if val == 1:] for one traced region: [Some] is the polygon
    appended to [polys]; [None] is a [continue] or an exception swallowed by
    the inner [except Exception: pass]. *)
Definition smooth_and_filter (min_area simplify_tol : float) (geom : J) : option Geom :=
  s_geom ← shape geom;
  let s_geom := simplify s_geom simplify_tol in
  if is_empty s_geom then None else
  let smoothed_geom := buffer (buffer s_geom 3%float) (-3)%float in
  if is_empty smoothed_geom then None else
  let smoothed_geom :=
    if negb (is_valid smoothed_geom) then buffer smoothed_geom 0%float
    else smoothed_geom in
  let areal := geom_area smoothed_geom in
  if PyFloat.lt areal min_area then None else
  if PyFloat.gt areal 10000%float then None else
  Some smoothed_geom.

(** [for geom, val in shapes_gen: ...] *)
Definition collect_shapes (min_area simplify_tol : float)
           (shapes_gen : list (J * Z)) (polys : list Geom) : list Geom :=
  fold_left
    (fun polys gv =>
       if snd gv =? 1
       then match smooth_and_filter min_area simplify_tol (fst gv) with
            | Some smoothed_geom => polys ++ [smoothed_geom]
            | None => polys
            end
       else polys)
    shapes_gen polys.

(** One window of the batch. [read] is [src.read(1, window=..., boundless=True)]
    on the mask grid; [None] is an exception, which leaves through the outer
    [except]. *)
Definition process_window (read : Window -> option (ndarray Z))
           (min_area : float) (pad : nat) (simplify_tol : float)
           (polys : list Geom) (window : Window) : option (list Geom) :=
  let read_win := padded pad window in
  data ← read read_win;
  if negb (Np.any (Z.eqb 1) data) then Some polys else
  let mask := Np.map (fun v => if v =? 1 then 1 else 0) data in
  let shapes_gen := shapes mask read_win in
  Some (collect_shapes min_area simplify_tol shapes_gen polys).

Fixpoint process_windows (read : Window -> option (ndarray Z))
         (min_area : float) (pad : nat) (simplify_tol : float)
         (windows_batch : list Window) (polys : list Geom) : option (list Geom) :=
  match windows_batch with
  | [] => Some polys
  | window :: rest =>
      polys' ← process_window read min_area pad simplify_tol polys window;
      process_windows read min_area pad simplify_tol rest polys'
  end.

(** [process_window_batch((windows_batch, file_path, min_area, pad,
    simplify_tol))]; [src] is [rasterio.open(file_path)], [None] when it
    cannot be opened. Any exception of the batch returns the empty list. *)
Definition process_window_batch (src : option (Window -> option (ndarray Z)))
           (windows_batch : list Window) (min_area : float) (pad : nat)
           (simplify_tol : float) : list Geom :=
  match src with
  | None => []
  | Some read =>
      match process_windows read min_area pad simplify_tol windows_batch [] with
      | Some polys => polys
      | None => []
      end
  end.

End Worker.
End TileVectorizer.

(* ====================================================================== *)
(** ** Step 3, driver: global merge and export (etape_vectorisation) *)

(** What a path of the output directory holds. *)
Inductive file (J : Type) :=
| GeoJSONFile (fc : FeatureCollection J)
| RasterFile
| JsonFile.
Arguments GeoJSONFile {J} _.
Arguments RasterFile {J}.
Arguments JsonFile {J}.

(** [ask_skip(filepath, step_name)]: [False] when the file exists. *)
Definition ask_skip {J} (disk : gmap string (file J)) (filepath : string) : bool :=
  match disk !! filepath with
  | Some _ => false
  | None => true
  end.

Definition BATCH_SIZE : nat := 50.
Definition PAD_VECT : nat := 2.

Module GlobalMerger.
Section Merge.
Context {Geom : Type} `{Overlay Geom}.

(** [for chunk in chunks: partial_unions.append(unary_union(chunk))], with
    the arguments of the calls made; the loop stops at the first call that
    raises. *)
Fixpoint partial_unions (chunks : list (list Geom)) (acc : list Geom)
         (calls : list (list Geom)) : option (list Geom) * list (list Geom) :=
  match chunks with
  | [] => (Some acc, calls)
  | chunk :: rest =>
      match unary_union chunk with
      | Some u => partial_unions rest (acc ++ [u]) (calls ++ [chunk])
      | None => (None, calls ++ [chunk])
      end
  end.

(** The [try: ... except Exception: ...] around the bulk union: the merged
    geometry ([None] when the fallback raises too) and, in order, the
    arguments of every [unary_union] call. *)
Definition global_merge_calls (all_polygons : list Geom)
  : option Geom * list (list Geom) :=
  match unary_union all_polygons with
  | Some merged_geom => (Some merged_geom, [all_polygons])
  | None =>
      let chunks := chunks 1000 all_polygons in
      match partial_unions chunks [] [all_polygons] with
      | (Some partials, calls) => (unary_union partials, calls ++ [partials])
      | (None, calls) => (None, calls)
      end
  end.

Definition global_merge (all_polygons : list Geom) : option Geom :=
  fst (global_merge_calls all_polygons).

(** [list(merged_geom.geoms) if hasattr(merged_geom, 'geoms') else [merged_geom]] *)
Definition final_geoms_of (merged_geom : Geom) : list Geom :=
  match geoms merged_geom with
  | Some parts => parts
  | None => [merged_geom]
  end.

(** The fallback as the specification words it: the bulk union may raise,
    a merged geometry is still produced. *)
Definition still_produces_geometry (all_polygons : list Geom) : Prop :=
  is_Some (global_merge all_polygons).

End Merge.
End GlobalMerger.

Module Exporter.
Section ExportLoop.
Context {J Geom : Type}.
Context `{Measured Geom, Smoother Geom, Projector J Geom, PyNum}.

(** The body of the export loop for one merged polygon: [Some] is the
    feature written to the file; [None] is a [continue] or an exception
    swallowed by [except Exception: pass]. *)
Definition export_feature (poly : Geom) : option (Feature J) :=
  let final_poly := simplify poly 0.5%float in
  let area := geom_area final_poly in
  if PyFloat.lt area MIN_AREA then None else
  if PyFloat.gt area MAX_AREA then None else
  let perim := geom_length final_poly in
  wgs84_poly ← transform final_poly;
  let final_geom_mapping := mapping wgs84_poly in
  rounded ← round_coords <$> coordinates final_geom_mapping;
  let final_geom_mapping := set_coordinates final_geom_mapping rounded in
  let gc := round_gravelius perim area in
  a ← py_int area;
  p ← py_int perim;
  let props : gmap string pyval :=
    <["gc" := VFloat gc]> (<["p" := VInt p]> (<["a" := VInt a]> (<["t" := VInt 1]> ∅))) in
  Some (MkFeature props final_geom_mapping).

(** The whole [with open(FILE_GEOJSON, 'w')] block: the collection written
    and [count_saved]. *)
Definition export (final_geoms : list Geom) : FeatureCollection J * nat :=
  let written := omap export_feature final_geoms in
  (MkFeatureCollection "Terrasses V15 Opti" "urn:ogc:def:crs:OGC:1.3:CRS84" written,
   length written).

End ExportLoop.
End Exporter.

Module Vectorisation.
Section Driver.
Context {J Geom : Type}.
Context `{Measured Geom, Decoder J Geom, Smoother Geom, Tracer J,
          Overlay Geom, Projector J Geom, PyNum}.

(** [all_polygons] after the worker pool: the batches of [BATCH_SIZE]
    windows, one [process_window_batch] call per batch ([executor.map]
    keeps the order of the batches), the results flattened. *)
Definition collect_polygons (src : option (Window -> option (ndarray Z)))
           (windows_list : list Window) : list Geom :=
  let batches := chunks BATCH_SIZE windows_list in
  let results :=
    List.map (fun batch =>
                TileVectorizer.process_window_batch src batch MIN_AREA PAD_VECT 0.5%float)
             batches in
  concat results.

(** [etape_vectorisation()]: the value returned and the files afterwards;
    [None] is an exception that nothing catches. *)
Definition etape_vectorisation (disk : gmap string (file J))
           (src : option (Window -> option (ndarray Z)))
           (windows_list : list Window) : option (nat * gmap string (file J)) :=
  if negb (ask_skip disk FILE_GEOJSON) then Some (0%nat, disk) else
  let all_polygons := collect_polygons src windows_list in
  match all_polygons with
  | [] => Some (0%nat, disk)
  | _ :: _ =>
      merged_geom ← GlobalMerger.global_merge all_polygons;
      let final_geoms := GlobalMerger.final_geoms_of merged_geom in
      let '(fc, count_saved) := Exporter.export final_geoms in
      Some (count_saved, <[FILE_GEOJSON := GeoJSONFile fc]> disk)
  end.

(** The empty-input scenario as the specification words it: the stage
    completes and the feature collection it leaves has no feature. *)
Definition writes_empty_collection (outcome : option (nat * gmap string (file J))) : Prop :=
  exists count disk' fc,
    outcome = Some (count, disk')
    /\ disk' !! FILE_GEOJSON = Some (GeoJSONFile fc)
    /\ features fc = [].

End Driver.
End Vectorisation.

(* ====================================================================== *)
(** ** Step 3b: terrace / wall classification (etape_classification_mnt) *)

Record Bounds := MkBounds {
  bounds_left : float;
  bounds_bottom : float;
  bounds_right : float;
  bounds_top : float
}.

(** The opened elevation grid: [mnt_src.nodata], [.width], [.height],
    [.bounds], [mnt_src.index(x, y)] (a row and a column) and the sample read
    at a column and a row, [float(mnt_src.read(1, window=Window(col, row, 1,
    1))[0, 0])]. *)
Record MNT := MkMNT {
  mnt_nodata : option float;
  mnt_width : Z;
  mnt_height : Z;
  mnt_bounds : Bounds;
  mnt_index : float -> float -> Z * Z;
  mnt_read : Z -> Z -> float
}.

Record Counters := MkCounters {
  count_terrasse : nat;
  count_mur : nat;
  count_err : nat;
  count_sliver : nat
}.

Module Classifier.

(** [read_elev(x, y)] *)
Definition read_elev (mnt : MNT) (x y : float) : option float :=
  if PyFloat.lt x (bounds_left (mnt_bounds mnt))
     || PyFloat.gt x (bounds_right (mnt_bounds mnt))
     || PyFloat.lt y (bounds_bottom (mnt_bounds mnt))
     || PyFloat.gt y (bounds_top (mnt_bounds mnt))
  then None
  else
    let '(row, col) := mnt_index mnt x y in
    if (0 <=? row) && (row <? mnt_height mnt) && (0 <=? col) && (col <? mnt_width mnt)
    then
      let elev := mnt_read mnt col row in
      if match mnt_nodata mnt with
         | Some nodata => PyFloat.eq elev nodata
         | None => false
         end
      then None
      else if PyFloat.lt elev (-100)%float || PyFloat.gt elev 5000%float
      then None
      else Some elev
    else None.

(** The body of [for frac in [0.25, 0.5, 0.75]:], with the points handed
    to [read_elev] recorded in call order. *)
Fixpoint multi_sondage (mnt : MNT) (ax_start ax_end : float * float)
         (perp_x perp_y : float) (fracs : list float)
         (deltas : list float) (probes : list (float * float))
  : list float * list (float * float) :=
  match fracs with
  | [] => (deltas, probes)
  | frac :: rest =>
      let sx := (fst ax_start + (fst ax_end - fst ax_start) * frac)%float in
      let sy := (snd ax_start + (snd ax_end - snd ax_start) * frac)%float in
      let px_a := (sx + perp_x * DIST_SONDAGE)%float in
      let py_a := (sy + perp_y * DIST_SONDAGE)%float in
      let px_b := (sx - perp_x * DIST_SONDAGE)%float in
      let py_b := (sy - perp_y * DIST_SONDAGE)%float in
      let elev_a := read_elev mnt px_a py_a in
      let elev_b := read_elev mnt px_b py_b in
      let deltas' :=
        match elev_a, elev_b with
        | Some a, Some b => deltas ++ [PrimFloat.abs (a - b)%float]
        | _, _ => deltas
        end in
      multi_sondage mnt ax_start ax_end perp_x perp_y rest deltas'
                    (probes ++ [(px_a, py_a); (px_b, py_b)])
  end.

Definition FRACS : list float := [0.25%float; 0.5%float; 0.75%float].

(** [deltas.sort()]: on a list this short Python's sort is an insertion
    sort; each new element moves left past the elements it is [<] than.
    The sorted prefix is kept in reverse. *)
Fixpoint sort_insert (x : float) (rev_sorted : list float) : list float :=
  match rev_sorted with
  | [] => [x]
  | y :: rest => if PyFloat.lt x y then y :: sort_insert x rest else x :: rev_sorted
  end.

Definition list_sort (l : list float) : list float :=
  rev (fold_left (fun rev_sorted x => sort_insert x rev_sorted) l []).

(** Descending order, the order of the reversed prefix. *)
Definition descending (a b : float) : Prop := PrimFloat.leb b a = true.

(** [delta = 0; if deltas: deltas.sort(); delta = deltas[len(deltas) // 2]]
    followed by [round(delta, 2)]: the integer 0 stays an integer. *)
Definition delta_value `{PyNum} (deltas : list float) : pyval :=
  match deltas with
  | [] => VInt 0
  | _ :: _ =>
      let sorted := list_sort deltas in
      match sorted !! (length sorted / 2)%nat with
      | Some delta => VFloat (py_round delta 2)
      | None => VInt 0
      end
  end.

Definition set_prop {J} (key : string) (v : pyval) (feat : Feature J) : Feature J :=
  MkFeature (<[key := v]> (properties feat)) (geometry feat).

Section Classify.
Context {J Geom : Type}.
Context `{Measured Geom, Decoder J Geom, Oriented Geom, PyNum}.

(** The outcome of one iteration: the feature, the counters and the points
    sampled by [read_elev]. *)
Definition step : Type := Feature J * Counters * list (float * float).

(** [(x ** 2 + y ** 2) ** 0.5] *)
Definition norm (x y : float) : option float :=
  x2 ← float_pow x 2%float;
  y2 ← float_pow y 2%float;
  float_pow (x2 + y2)%float 0.5%float.

(** The sliver test: [if area > 0: sliver_ratio = perim / (area ** 0.5);
    if sliver_ratio > 20: ...]. *)
Definition sliver_test (geom : Geom) : option bool :=
  let area := geom_area geom in
  let perim := geom_length geom in
  if PyFloat.gt area 0%float
  then root ← float_pow area 0.5%float;
       sliver_ratio ← PyFloat.div perim root;
       Some (PyFloat.gt sliver_ratio 20%float)
  else Some false.

(** The principal axis of a polygon: the longer edge of its minimum
    rotated rectangle. *)
Record Axis := MkAxis {
  ax_dx : float;
  ax_dy : float;
  ax_start : float * float;
  ax_end : float * float;
  ax_length : float
}.

(** From [mrr = geom.minimum_rotated_rectangle] to [length = (dx**2 +
    dy**2)**0.5]. (The centroid computed just before is not used.) *)
Definition principal_axis (geom : Geom) : option Axis :=
  coords_mrr ← minimum_rotated_rectangle_coords geom;
  c0 ← coords_mrr !! 0%nat;
  c1 ← coords_mrr !! 1%nat;
  c2 ← coords_mrr !! 2%nat;
  edge1_len ← norm (fst c1 - fst c0)%float (snd c1 - snd c0)%float;
  edge2_len ← norm (fst c2 - fst c1)%float (snd c2 - snd c1)%float;
  let '(dx, dy, ax_start, ax_end) :=
    if PyFloat.ge edge1_len edge2_len
    then ((fst c1 - fst c0)%float, (snd c1 - snd c0)%float, c0, c1)
    else ((fst c2 - fst c1)%float, (snd c2 - snd c1)%float, c1, c2) in
  length ← norm dx dy;
  Some (MkAxis dx dy ax_start ax_end length).

(** The [try] block of the loop; [None] is an exception, raised before any
    property is written. *)
Definition classify_try (mnt : MNT) (feat : Feature J) (cnt : Counters) : option step :=
  geom ← shape (geometry feat);
  if is_empty geom || negb (is_valid geom) then
    Some (set_prop "de" (VInt 0) (set_prop "c" (VStr "m") feat),
          MkCounters (count_terrasse cnt) (count_mur cnt) (S (count_err cnt))
                     (count_sliver cnt),
          [])
  else
  let area := geom_area geom in
  let perim := geom_length geom in
  is_sliver ← sliver_test geom;
  if is_sliver : bool then
    Some (set_prop "de" (VInt 0) (set_prop "c" (VStr "m") feat),
          MkCounters (count_terrasse cnt) (S (count_mur cnt)) (count_err cnt)
                     (S (count_sliver cnt)),
          [])
  else
  axis ← principal_axis geom;
  let length := ax_length axis in
  if PyFloat.eq length 0%float then
    Some (set_prop "de" (VInt 0) (set_prop "c" (VStr "m") feat),
          MkCounters (count_terrasse cnt) (S (count_mur cnt)) (count_err cnt)
                     (count_sliver cnt),
          [])
  else
  perp_x ← PyFloat.div (- ax_dy axis)%float length;
  perp_y ← PyFloat.div (ax_dx axis) length;
  let '(deltas, probes) :=
    multi_sondage mnt (ax_start axis) (ax_end axis) perp_x perp_y FRACS [] [] in
  let gc_score := gravelius perim area in
  let feat := set_prop "gc" (VFloat (round_gravelius perim area)) feat in
  let feat := set_prop "de" (delta_value deltas) feat in
  if PyFloat.gt gc_score 5%float
  then Some (set_prop "t" (VInt 1) (set_prop "c" (VStr "t") feat),
             MkCounters (S (count_terrasse cnt)) (count_mur cnt) (count_err cnt)
                        (count_sliver cnt),
             probes)
  else Some (set_prop "t" (VInt 0) (set_prop "c" (VStr "m") feat),
             MkCounters (count_terrasse cnt) (S (count_mur cnt)) (count_err cnt)
                        (count_sliver cnt),
             probes).

(** One iteration of the loop, with its [except Exception] handler. *)
Definition classify_feature (mnt : MNT) (feat : Feature J) (cnt : Counters) : step :=
  match classify_try mnt feat cnt with
  | Some r => r
  | None =>
      (set_prop "de" (VInt 0) (set_prop "t" (VInt 0) (set_prop "c" (VStr "m") feat)),
       MkCounters (count_terrasse cnt) (count_mur cnt) (S (count_err cnt))
                  (count_sliver cnt),
       [])
  end.

(** The loop over [features_list]. *)
Fixpoint classify_all (mnt : MNT) (features_list : list (Feature J)) (cnt : Counters)
  : list (Feature J) * Counters :=
  match features_list with
  | [] => ([], cnt)
  | feat :: rest =>
      let '(feat', cnt', _) := classify_feature mnt feat cnt in
      let '(rest', cnt'') := classify_all mnt rest cnt' in
      (feat' :: rest', cnt'')
  end.

(** [etape_classification_mnt()]: the files afterwards and the counters
    reported; [mnt] is what [rasterio.open(FILE_MNT)] gives. The stage
    returns at once when one of its two inputs is missing. *)
Definition etape_classification_mnt (disk : gmap string (file J)) (mnt : MNT)
  : option (gmap string (file J) * Counters) :=
  let zero := MkCounters 0 0 0 0 in
  match disk !! FILE_GEOJSON with
  | None => Some (disk, zero)
  | Some f =>
      match disk !! FILE_MNT with
      | None => Some (disk, zero)
      | Some _ =>
          match f with
          | GeoJSONFile geojson_data =>
              let '(classified, cnt) := classify_all mnt (features geojson_data) zero in
              let geojson_data' :=
                MkFeatureCollection (fc_name geojson_data) (fc_crs geojson_data)
                                    classified in
              Some (<[FILE_DASHBOARD := JsonFile]>
                      (<[FILE_GEOJSON := GeoJSONFile geojson_data']> disk),
                    cnt)
          | _ => None
          end
      end
  end.

End Classify.

(** *** The probe, station by station *)

(** The unit perpendicular of an axis. *)
Definition perp (axis : Axis) : float * float :=
  ((- ax_dy axis / ax_length axis)%float, (ax_dx axis / ax_length axis)%float).

(** The two points sampled at the fraction [frac] of the axis: the station
    moved by [DIST_SONDAGE] along the perpendicular, to either side. *)
Definition station (axis : Axis) (frac : float) : (float * float) * (float * float) :=
  let sx := (fst (ax_start axis) + (fst (ax_end axis) - fst (ax_start axis)) * frac)%float in
  let sy := (snd (ax_start axis) + (snd (ax_end axis) - snd (ax_start axis)) * frac)%float in
  (((sx + fst (perp axis) * DIST_SONDAGE)%float, (sy + snd (perp axis) * DIST_SONDAGE)%float),
   ((sx - fst (perp axis) * DIST_SONDAGE)%float, (sy - snd (perp axis) * DIST_SONDAGE)%float)).

Definition station_points (axis : Axis) : list (float * float) :=
  flat_map (fun frac => [fst (station axis frac); snd (station axis frac)]) FRACS.

(** The absolute elevation difference of a station whose two samples are
    both valid. *)
Definition station_delta (mnt : MNT) (axis : Axis) (frac : float) : option float :=
  let a := fst (station axis frac) in
  let b := snd (station axis frac) in
  elev_a ← read_elev mnt (fst a) (snd a);
  elev_b ← read_elev mnt (fst b) (snd b);
  Some (PrimFloat.abs (elev_a - elev_b)%float).

Definition station_deltas (mnt : MNT) (axis : Axis) : list float :=
  omap (station_delta mnt axis) FRACS.

(** The median as the specification has it: the middle value of the sorted
    differences, the mean of the two middle ones when their number is even;
    and the delta field it asks for, 0 when there is no difference. *)
Definition median (l : list float) : option float :=
  let sorted := list_sort l in
  let n := length sorted in
  if Nat.even n
  then a ← sorted !! (n / 2 - 1)%nat;
       b ← sorted !! (n / 2)%nat;
       Some ((a + b) / 2)%float
  else sorted !! (n / 2)%nat.

Definition median_delta (deltas : list float) : pyval :=
  match median deltas with
  | Some m => VFloat m
  | None => VInt 0
  end.

(** The probe as the specification states it, for a polygon of principal
    axis [axis]: the six station points are sampled and the delta field holds
    the median of the valid differences. *)
Definition records_median {J Geom : Type} `{Measured Geom, Decoder J Geom, Oriented Geom, PyNum}
           (mnt : MNT) (feat : Feature J) (cnt : Counters) (axis : Axis) : Prop :=
  snd (classify_feature mnt feat cnt) = station_points axis
  /\ properties (fst (fst (classify_feature mnt feat cnt))) !! "de"
     = Some (median_delta (station_deltas mnt axis)).


End Classifier.

(* ====================================================================== *)
(** ** Reference implementations of the library calls

    Executable stand-ins used to run the pipeline on concrete inputs. The
    theorems below hold for every implementation of the interfaces. *)

Module Reference.

Definition float_of_Z (z : Z) : float :=
  if z <? 0 then (- PrimFloat.of_uint63 (Uint63.of_Z (- z)))%float
  else PrimFloat.of_uint63 (Uint63.of_Z z).

(** [num / den] rounded to the nearest integer, ties to even ([den > 0]). *)
Definition round_half_even (num den : Z) : Z :=
  let q := num / den in
  let r := num mod den in
  if 2 * r <? den then q
  else if den <? 2 * r then q + 1
  else if Z.even q then q else q + 1.

(** [round(x, n)] of a Python float: the decimal with [n] digits nearest to the
    exact value of [x] (ties to even), then the float nearest to that
    decimal. *)
Definition py_round_ref (x : float) (n : nat) : float :=
  match Prim2SF x with
  | S754_finite s m e =>
      if 0 <=? e then x else
      let k := round_half_even (Zpos m * 10 ^ Z.of_nat n) (2 ^ (- e)) in
      if 2 ^ 53 <=? k then x else
      let r := (float_of_Z k / float_of_Z (10 ^ Z.of_nat n))%float in
      if s then (- r)%float else r
  | _ => x
  end.

(** [np.rint] *)
Definition rint (x : float) : float :=
  match Prim2SF x with
  | S754_finite s m e =>
      if 0 <=? e then x else
      let r := float_of_Z (round_half_even (Zpos m) (2 ^ (- e))) in
      if s then (- r)%float else r
  | _ => x
  end.

(** [round(x, n)] of a numpy float64: [rint(x * 10**n) / 10**n]. *)
Definition np_round_ref (x : float) (n : nat) : float :=
  (rint (x * float_of_Z (10 ^ Z.of_nat n)) / float_of_Z (10 ^ Z.of_nat n))%float.

(** [x ** y] for the two exponents the pipeline uses: a square root, and a
    square that raises OverflowError when a finite operand overflows. *)
Definition float_pow_ref (x y : float) : option float :=
  if PrimFloat.eqb y 0.5%float then Some (PrimFloat.sqrt x)
  else if PrimFloat.eqb y 2%float then
    let r := (x * x)%float in
    if PrimFloat.is_infinity r && negb (PrimFloat.is_infinity x) then None else Some r
  else None.

#[export] Instance ref_pynum : PyNum :=
  {| float_pow := float_pow_ref; py_round := py_round_ref; np_round := np_round_ref |}.

(** [ndimage.sobel(a, axis)] on float64 samples, borders reflected. *)
Definition reflect (n : nat) (i : Z) : nat :=
  Z.to_nat (if i <? 0 then - i - 1
            else if Z.of_nat n <=? i then 2 * Z.of_nat n - i - 1
            else i).

Definition sobel_ref (a : ndarray float) (axis : nat) : ndarray float :=
  NdArray (nrows a) (ncols a)
    (fun i j =>
       let at_ (di dj : Z) :=
         cell a (reflect (nrows a) (Z.of_nat i + di)) (reflect (ncols a) (Z.of_nat j + dj)) in
       let nw := at_ (-1) (-1) in let n := at_ (-1) 0 in let ne := at_ (-1) 1 in
       let w := at_ 0 (-1) in let e := at_ 0 1 in
       let sw := at_ 1 (-1) in let s := at_ 1 0 in let se := at_ 1 1 in
       match axis with
       | O => ((sw - nw) + 2 * (s - n) + (se - ne))%float
       | _ => ((ne - nw) + 2 * (e - w) + (se - sw))%float
       end).

Definition hypot_ref (x y : float) : float := PrimFloat.sqrt (x * x + y * y)%float.

#[export] Instance ref_slopelib : SlopeLib float :=
  {| px_zero := 0%float; sobel := sobel_ref; hypot := hypot_ref |}.

End Reference.

(** *** Surveyed parcels: geometries given by their measurements *)

Module Parcels.

Record Parcel := MkParcel {
  parcel_empty : bool;
  parcel_valid : bool;
  parcel_area : float;
  parcel_perimeter : float;
  parcel_mrr : option (list (float * float))
}.

#[export] Instance parcel_measured : Measured Parcel :=
  {| is_empty := parcel_empty; is_valid := parcel_valid;
     geom_area := parcel_area; geom_length := parcel_perimeter |}.

#[export] Instance parcel_decoder : Decoder Parcel Parcel := {| shape := Some |}.

#[export] Instance parcel_oriented : Oriented Parcel :=
  {| minimum_rotated_rectangle_coords := parcel_mrr |}.

(** An elevation grid of 3 columns by 2 rows with square pixels of 10 units,
    covering x in [0, 30] and y in [-10, 10]; row 0 is the northern one. *)
Definition grid_index (x y : float) : Z * Z :=
  (if PyFloat.lt y 0%float then 1 else 0,
   if PyFloat.lt x 10%float then 0 else if PyFloat.lt x 20%float then 1 else 2).

Definition grid (nodata : option float) (samples : Z -> Z -> float) : MNT :=
  MkMNT nodata 3 2 (MkBounds 0%float (-10)%float 30%float 10%float) grid_index samples.

End Parcels.

(** *** A one-row raster world: geometries are finite sets of unit cells
    on a line, cell [x] covering one square unit between [x] and [x + 1] *)

Module Strip.

(** Every cell within [r] of a cell of [s]. *)
Definition dilate (r : Z) (s : gset Z) : gset Z :=
  set_bind (fun x => list_to_set (seqZ (x - r) (2 * r + 1)) : gset Z) s.

(** The cells of [s] whose whole neighbourhood of radius [r] is in [s]. *)
Definition erode (r : Z) (s : gset Z) : gset Z :=
  filter (fun x => forallb (fun d => bool_decide (x + d ∈ s)) (seqZ (- r) (2 * r + 1)) = true) s.

(** The first cell of each maximal run of consecutive cells. *)
Definition run_starts (s : gset Z) : gset Z :=
  filter (fun x => x - 1 ∉ s) s.

(** The run of consecutive cells of [s] that starts at [x]. *)
Definition run_of (s : gset Z) (x : Z) : gset Z :=
  filter (fun y => x <= y /\ forallb (fun z => bool_decide (z ∈ s)) (seqZ x (y - x)) = true) s.

Definition runs (s : gset Z) : list (gset Z) :=
  List.map (run_of s) (merge_sort Z.le (elements (run_starts s))).

#[export] Instance strip_measured : Measured (gset Z) :=
  {| is_empty := fun s => bool_decide (s = ∅);
     is_valid := fun _ => true;
     geom_area := fun s => Reference.float_of_Z (Z.of_nat (size s));
     geom_length := fun s =>
       Reference.float_of_Z (2 * Z.of_nat (size s) + 2 * Z.of_nat (size (run_starts s))) |}.

#[export] Instance strip_decoder : Decoder (gset Z) (gset Z) := {| shape := Some |}.

(** Buffering by [d] dilates by [d] cells when [d] is positive and erodes by
    [-d] cells when it is negative; nothing is simplified away. *)
#[export] Instance strip_smoother : Smoother (gset Z) :=
  {| simplify := fun s _ => s;
     buffer := fun s d =>
       match py_int d with
       | Some r => if 0 <? r then dilate r s else if r <? 0 then erode (- r) s else s
       | None => s
       end |}.

#[export] Instance strip_overlay : Overlay (gset Z) :=
  {| unary_union := fun l => Some (⋃ l);
     geoms := fun s => if (size (run_starts s) <=? 1)%nat then None else Some (runs s) |}.

(** The columns of a mask read at a window that hold a positive cell, run by
    run. *)
#[export] Instance strip_tracer : Tracer (gset Z) :=
  {| shapes := fun mask win =>
       let s : gset Z :=
         list_to_set
           (omap (fun j => if existsb (fun i => cell mask i j =? 1) (seq 0 (nrows mask))
                           then Some (col_off win + Z.of_nat j) else None)
                 (seq 0 (ncols mask))) in
       List.map (fun r => (r, 1)) (runs s) |}.

#[export] Instance strip_projector : Projector (gset Z) (gset Z) :=
  {| transform := Some;
     mapping := fun s => s;
     coordinates := fun s =>
       Some (CoordList (List.map (fun x => Coord (Reference.float_of_Z x))
                                 (merge_sort Z.le (elements s))));
     set_coordinates := fun j _ => j |}.

(** A mask grid of one row: [ones] lists the columns that hold 1. *)
Definition row_mask (ncols : nat) (ones : list Z) (w : Window) : option (ndarray Z) :=
  Some (NdArray (height w) (width w)
          (fun i j =>
             let col := col_off w + Z.of_nat j in
             let row := row_off w + Z.of_nat i in
             if (row =? 0) && (0 <=? col) && (col <? Z.of_nat ncols)
                && bool_decide (col ∈ ones)
             then 1 else 0)).

End Strip.

(* ====================================================================== *)
(** ** Concrete inputs *)

Module Scenarios.
Import Reference.

(** An elevation ramp, read boundless at any window, and a 2 x 3 grid cut
    into two blocks. *)
Definition ramp (w : Window) : ndarray float :=
  NdArray (height w) (width w)
    (fun i j => float_of_Z (row_off w + Z.of_nat i + 2 * (col_off w + Z.of_nat j))).

Definition ramp_blocks : list Window := [MkWindow 0 0 2 2; MkWindow 2 0 1 2].

(** The ramp read in full for the first block, and cut to its first 9 rows
    for the second: too few for a crop of 2 rows below the 8 of padding. *)
Definition patchy_ramp (w : Window) : ndarray float :=
  if col_off w <? -7 then ramp w else NdArray 9 (width w) (cell (ramp w)).

(** A block of slopes: 10, 17, 24 on each of its two rows. *)
Definition slopes : ndarray float :=
  NdArray 2 3 (fun _ j => float_of_Z (10 + 7 * Z.of_nat j)).

(** One tile of 40 columns of the one-row world, and two fragments of 15
    cells each, 5 cells apart. *)
Definition tile : Window := MkWindow 0 0 40 1.
Definition fragment_a : gset Z := list_to_set (seqZ 0 15).
Definition fragment_b : gset Z := list_to_set (seqZ 20 15).
Definition two_fragments : Window -> option (ndarray Z) :=
  Strip.row_mask 40 (seqZ 0 15 ++ seqZ 20 15).

(** [g.buffer(3, join_style=1).buffer(-3, join_style=1)] *)
Definition closing {Geom} `{Smoother Geom} (g : Geom) : Geom :=
  buffer (buffer g 3%float) (-3)%float.

(** A mask grid without any break, and the output directory before the
    vectorisation runs. *)
Definition no_break : Window -> option (ndarray Z) := Strip.row_mask 40 [].
Definition disk_before : gmap string (file (gset Z)) :=
  <[FILE_RUPTURES := RasterFile]> (<[FILE_PENTE := RasterFile]> (<[FILE_MNT := RasterFile]> ∅)).

(** Disjoint polygons known by their area only, with a union that adds the
    areas up and raises on more than 1000 inputs; and 2500 unit polygons. *)
Definition fragile_overlay : Overlay nat :=
  {| unary_union := fun l => if (1000 <? length l)%nat then None else Some (list_sum l);
     geoms := fun _ => None |}.

Definition many_polygons : list nat := repeat 1%nat 2500.

(** A union that raises when the merged area would exceed 2000, as it does
    for lack of memory: on the whole list and on its partial unions alike. *)
Definition cramped_overlay : Overlay nat :=
  {| unary_union := fun l => if (2000 <? list_sum l)%nat then None else Some (list_sum l);
     geoms := fun _ => None |}.

(** A parcel of 30 by 2 units lying along the x axis. *)
Definition long_mrr : list (float * float) :=
  [(0, -1); (30, -1); (30, 1); (0, 1); (0, -1)]%float.
Definition long_parcel : Parcels.Parcel :=
  Parcels.MkParcel false true 60%float 64%float (Some long_mrr).

(** A parcel of compactness exactly 5: perimeter 10, area 1 / pi. *)
Definition boundary_parcel : Parcels.Parcel :=
  Parcels.MkParcel false true (1 / PyFloat.np_pi)%float 10%float (Some long_mrr).

(** An elongated parcel: perimeter 190 for an area of 100. *)
Definition terrace_parcel : Parcels.Parcel :=
  Parcels.MkParcel false true 100%float 190%float (Some long_mrr).

(** A tile-seam sliver: perimeter 100 for an area of 4. *)
Definition sliver_parcel : Parcels.Parcel :=
  Parcels.MkParcel false true 4%float 100%float (Some long_mrr).

(** A square of side 2^-600, a point-like polygon: its area underflows to
    zero, and its minimum rotated rectangle collapses to a line, which has no
    exterior ring. *)
Definition speck_parcel : Parcels.Parcel :=
  Parcels.MkParcel false true 0%float 0x1p-598%float None.

(** A ring so small that the squares of its edges underflow to zero. *)
Definition speck_mrr : list (float * float) :=
  [(0, 0); (0x1p-600, 0); (0x1p-600, 0x1p-600); (0, 0x1p-600); (0, 0)]%float.

(** An invalid geometry. *)
Definition broken_parcel : Parcels.Parcel :=
  Parcels.MkParcel false false 0%float 0%float (Some speck_mrr).

(** Elevations: 101, 103 and no data north of the x axis, 100 south of it;
    and a grid with all its samples present. *)
Definition partial_samples (col row : Z) : float :=
  if row =? 0
  then if col =? 0 then 101%float else if col =? 1 then 103%float else (-9999)%float
  else 100%float.
Definition partial_grid : MNT := Parcels.grid (Some (-9999)%float) partial_samples.

Definition full_samples (col row : Z) : float :=
  if row =? 0
  then if col =? 0 then 101%float else if col =? 1 then 103%float else 102%float
  else 100%float.
Definition full_grid : MNT := Parcels.grid (Some (-9999)%float) full_samples.

(** A grid whose no-data value is NaN, with one pixel without data in the
    middle of its northern row. *)
Definition nan_samples (col row : Z) : float :=
  if row =? 0
  then if col =? 0 then 101%float else if col =? 1 then nan else 101%float
  else 100%float.
Definition nan_grid : MNT := Parcels.grid (Some nan) nan_samples.

Definition feature_of (p : Parcels.Parcel) : Feature Parcels.Parcel :=
  MkFeature (<["gc" := VFloat 1%float]> (<["p" := VInt 64]> (<["a" := VInt 60]>
              (<["t" := VInt 1]> ∅)))) p.

Definition no_counts : Counters := MkCounters 0 0 0 0.

(** The principal axis of the long parcel. *)
Definition long_axis : Classifier.Axis :=
  Classifier.MkAxis 30%float 0%float (0%float, (-1)%float) (30%float, (-1)%float) 30%float.

End Scenarios.

(* ====================================================================== *)
(** ** Step 4: dashboard (etape_enrichissement) *)

(** [float(n)] of a Python int: the nearest float, ties to even;
    OverflowError ([None]) when [n] is too large for a float. *)
Definition py_float_of_int (n : Z) : option float :=
  let x := SF2Prim (binary_normalize prec emax n 0 false) in
  if PrimFloat.is_infinity x then None else Some x.

(** [os.path.exists(path)] *)
Definition path_exists {J} (disk : gmap string (file J)) (path : string) : bool :=
  match disk !! path with
  | Some _ => true
  | None => false
  end.

Module Dashboard.

(** The [stats] dictionary, without its generation date: [total_points] and
    [levels.haute], the heatmap counts, the histogram rows (range, count,
    percentage) and the count of each sector. *)
Record Stats := MkStats {
  total_points : Z;
  levels_haute : Z;
  heatmap_count : list Z;
  histogram : list (string * Z * Z);
  sectors : list (string * Z)
}.

(** [int(total_count * 0.25)] *)
Definition quarter (total_count : Z) : option Z :=
  x ← py_float_of_int total_count;
  py_int (x * 0.25)%float.

(** [etape_enrichissement(total_count)]: the statistics written and the
    files afterwards; [None] is an exception that nothing catches. *)
Definition etape_enrichissement {J} (disk : gmap string (file J)) (total_count : Z)
  : option (Stats * gmap string (file J)) :=
  let total_count :=
    if (total_count =? 0) && path_exists disk FILE_GEOJSON then 1000 else total_count in
  q ← quarter total_count;
  let stats :=
    MkStats total_count total_count []
            [("Terrasses"%string, total_count, 100)]
            [("Nord"%string, q); ("Sud"%string, q); ("Est"%string, q); ("Ouest"%string, q)] in
  Some (stats, <[FILE_DASHBOARD := JsonFile]> disk).

End Dashboard.

(* ====================================================================== *)
(** ** Step 5: study-area outline (etape_emprise) *)

Module Emprise.
Section Outline.
Context {J Geom : Type}.
Context `{Decoder J Geom, Projector J Geom, PyNum}.

(** The body of the loop over the source: the feature appended to
    [features_out]; [None] is an exception. *)
Definition convert (geometry : J) : option (Feature J) :=
  geom ← shape geometry;
  wgs84_geom ← transform geom;
  let g_mapping := mapping wgs84_geom in
  rounded ← round_coords <$> coordinates g_mapping;
  let g_mapping := set_coordinates g_mapping rounded in
  Some (MkFeature (<["nom" := VStr "PNR Mont-Ventoux"]> ∅) g_mapping).

Fixpoint convert_all (source : list J) (features_out : list (Feature J))
  : option (list (Feature J)) :=
  match source with
  | [] => Some features_out
  | geometry :: rest =>
      feature ← convert geometry;
      convert_all rest (features_out ++ [feature])
  end.

(** [etape_emprise()]: the name and the features of the collection written
    to emprise.geojson, [None] when nothing is written. [gpkg] holds the
    geometries of the features of emprise_pnr.gpkg, [None] when the file is
    missing. The file is written after the loop, inside the [try]: an
    exception of the loop is printed and leaves no file. *)
Definition etape_emprise (gpkg : option (list J)) : option (string * list (Feature J)) :=
  match gpkg with
  | None => None
  | Some source =>
      features_out ← convert_all source [];
      Some ("Emprise PNR"%string, features_out)
  end.

End Outline.
End Emprise.

(* ====================================================================== *)
(** ** The exits of one classification *)

Module Exits.
Import Classifier.

(** The numbers of a coordinate list, left to right, and its nesting with
    every number erased. *)
Fixpoint numbers (c : coords) : list float :=
  match c with
  | Coord x => [x]
  | CoordList l => flat_map numbers l
  end.

Fixpoint nesting (c : coords) : coords :=
  match c with
  | Coord _ => Coord 0%float
  | CoordList l => CoordList (List.map nesting l)
  end.

(** What the export writes: features with t = 1, an integer area between 20
    and 10000, an integer perimeter and a score, and no label yet. *)
Definition exported {J : Type} (feature : Feature J) : Prop :=
  properties feature !! "t" = Some (VInt 1)
  /\ (exists a, properties feature !! "a" = Some (VInt a) /\ 20 <= a <= 10000)
  /\ (exists p, properties feature !! "p" = Some (VInt p))
  /\ (exists gc, properties feature !! "gc" = Some (VFloat gc))
  /\ properties feature !! "c" = None
  /\ properties feature !! "de" = None.

(** The keys the loop writes. *)
Definition written_key (key : string) : Prop :=
  key = "c"%string \/ key = "t"%string \/ key = "de"%string \/ key = "gc"%string.

(** The five ways an iteration of the classification loop ends, each with
    what it leaves: the guard on empty or invalid geometry, the sliver guard,
    the guard on a zero-length axis, the scored exit (terrace or wall) and
    the exception handler. *)
Inductive exit {J : Type} (feat : Feature J) (cnt : Counters)
  : Feature J * Counters * list (float * float) -> Prop :=
| exit_invalid :
    exit feat cnt
      (set_prop "de" (VInt 0) (set_prop "c" (VStr "m") feat),
       MkCounters (count_terrasse cnt) (count_mur cnt) (S (count_err cnt)) (count_sliver cnt),
       [])
| exit_sliver :
    exit feat cnt
      (set_prop "de" (VInt 0) (set_prop "c" (VStr "m") feat),
       MkCounters (count_terrasse cnt) (S (count_mur cnt)) (count_err cnt)
                  (S (count_sliver cnt)),
       [])
| exit_degenerate :
    exit feat cnt
      (set_prop "de" (VInt 0) (set_prop "c" (VStr "m") feat),
       MkCounters (count_terrasse cnt) (S (count_mur cnt)) (count_err cnt) (count_sliver cnt),
       [])
| exit_terrace (gc : float) (de : pyval) (probes : list (float * float)) :
    exit feat cnt
      (set_prop "t" (VInt 1) (set_prop "c" (VStr "t")
         (set_prop "de" de (set_prop "gc" (VFloat gc) feat))),
       MkCounters (S (count_terrasse cnt)) (count_mur cnt) (count_err cnt) (count_sliver cnt),
       probes)
| exit_wall (gc : float) (de : pyval) (probes : list (float * float)) :
    exit feat cnt
      (set_prop "t" (VInt 0) (set_prop "c" (VStr "m")
         (set_prop "de" de (set_prop "gc" (VFloat gc) feat))),
       MkCounters (count_terrasse cnt) (S (count_mur cnt)) (count_err cnt) (count_sliver cnt),
       probes)
| exit_error :
    exit feat cnt
      (set_prop "de" (VInt 0) (set_prop "t" (VInt 0) (set_prop "c" (VStr "m") feat)),
       MkCounters (count_terrasse cnt) (count_mur cnt) (S (count_err cnt)) (count_sliver cnt),
       []).

End Exits.

(* ====================================================================== *)
(** ** The main block *)

Module Main.
Section Steps.
Context {J Geom : Type}.
Context `{Measured Geom, Decoder J Geom, Smoother Geom, Tracer J,
          Overlay Geom, Projector J Geom, PyNum}.

(** [count = etape_vectorisation(); etape_enrichissement(count)] *)
Definition count_then_dashboard (disk : gmap string (file J))
           (src : option (Window -> option (ndarray Z))) (windows_list : list Window)
  : option (Dashboard.Stats * gmap string (file J)) :=
  '(count, disk) ← Vectorisation.etape_vectorisation disk src windows_list;
  Dashboard.etape_enrichissement disk (Z.of_nat count).

End Steps.
End Main.

(* ====================================================================== *)
(** ** More concrete inputs *)

Module Fixtures.
Import Reference.

(** A line of length 5 stored as a feature: no area, and a minimum rotated
    rectangle without an exterior ring. *)
Definition line_parcel : Parcels.Parcel :=
  Parcels.MkParcel false true 0%float 5%float None.

(** The bounding rectangle of the cells of the one-row world. *)
Definition strip_rectangle (s : gset Z) : option (list (float * float)) :=
  match merge_sort Z.le (elements s) with
  | [] => None
  | x :: rest =>
      let x0 := float_of_Z x in
      let x1 := float_of_Z (List.last rest x + 1) in
      Some [(x0, 0%float); (x1, 0%float); (x1, 1%float); (x0, 1%float); (x0, 0%float)]
  end.

#[export] Instance strip_oriented : Oriented (gset Z) :=
  {| minimum_rotated_rectangle_coords := strip_rectangle |}.

(** A mask with one run of 35 cells, and the output directory with the
    elevation grid in it. *)
Definition one_run : Window -> option (ndarray Z) := Strip.row_mask 40 (seqZ 0 35).

(** A geometry that [shape] rejects, among the features of an outline; and
    a projector for which the geometry without cells stands for a geometry
    collection: its mapping has no coordinates. *)
Definition picky_decoder : Decoder (option (gset Z)) (gset Z) := {| shape := fun j => j |}.

Definition picky_projector : Projector (option (gset Z)) (gset Z) :=
  {| transform := Some;
     mapping := Some;
     coordinates := fun j =>
       match j with
       | Some s =>
           if decide (s = ∅) then None
           else Some (CoordList (List.map (fun x => Coord (float_of_Z x))
                                          (merge_sort Z.le (elements s))))
       | None => None
       end;
     set_coordinates := fun j _ => j |}.

(** A coordinate list of two rings. *)
Definition two_rings : coords :=
  CoordList [CoordList [CoordList [Coord 5.125%float; Coord 44.0625%float];
                        CoordList [Coord 5.5%float; Coord 0x1.6000008p+5%float]];
             CoordList []].

(** The tile east of [Scenarios.tile], and a mask grid whose reads fail east
    of column 30: it holds the run of 35 cells on the first tile. *)
Definition tile_east : Window := MkWindow 40 0 40 1.

Definition torn_mask (w : Window) : option (ndarray Z) :=
  if col_off w <? 30 then Strip.row_mask 80 (seqZ 0 35) w else None.

(** Sixty tiles in a row: two batches. *)
Definition sixty_tiles : list Window :=
  List.map (fun k => MkWindow (40 * k) 0 40 1) (seqZ 0 60).

(** The collection exported from [one_run] on one tile: one polygon of 35
    cells, of perimeter 72; and the output directory with it. *)
Definition one_run_gc : float := Eval vm_compute in round_gravelius 72%float 35%float.

Definition one_run_collection : FeatureCollection (gset Z) :=
  MkFeatureCollection "Terrasses V15 Opti" "urn:ogc:def:crs:OGC:1.3:CRS84"
    [MkFeature (<["gc" := VFloat one_run_gc]> (<["p" := VInt 72]> (<["a" := VInt 35]>
                  (<["t" := VInt 1]> ∅))))
               (list_to_set (seqZ 0 35))].

Definition disk_after : gmap string (file (gset Z)) :=
  <[FILE_GEOJSON := GeoJSONFile one_run_collection]> Scenarios.disk_before.

(** A collection of two surveyed parcels, the second one invalid, with the
    elevation grid beside it. *)
Definition surveyed_collection : FeatureCollection Parcels.Parcel :=
  MkFeatureCollection "Terrasses V15 Opti" "urn:ogc:def:crs:OGC:1.3:CRS84"
    [Scenarios.feature_of Scenarios.long_parcel; Scenarios.feature_of Scenarios.broken_parcel].

Definition surveyed_disk : gmap string (file Parcels.Parcel) :=
  <[FILE_GEOJSON := GeoJSONFile surveyed_collection]> (<[FILE_MNT := RasterFile]> ∅).

End Fixtures.

(* ====================================================================== *)
(** ** Theorems *)

(** Comparison of specification floats is a lexicographic comparison of
    sign, exponent and mantissa; this tactic splits on every integer
    comparison left in the goal. *)
Ltac sf_compare_cases :=
  repeat match goal with
  | |- context [IntDef.Z.compare ?x ?y] =>
      change (IntDef.Z.compare x y) with (Z.compare x y);
      destruct (Z.compare_spec x y)
  | |- context [PosDef.Pos.compare_cont Eq ?x ?y] =>
      change (PosDef.Pos.compare_cont Eq x y) with (Pos.compare x y);
      destruct (Pos.compare_spec x y)
  end;
  cbn [CompOpp]; intros; try congruence; try lia.

Lemma float_le_lt_trans (a b c : float) :
  PrimFloat.leb a b = true -> PrimFloat.ltb b c = true -> PrimFloat.ltb a c = true.
Proof.
  rewrite FloatAxioms.leb_spec, !FloatAxioms.ltb_spec.
  unfold SFleb, SFltb.
  destruct (Prim2SF a) as [[]|[]| |[] ma ea],
           (Prim2SF b) as [[]|[]| |[] mb eb],
           (Prim2SF c) as [[]|[]| |[] mc ec]; simpl; try congruence.
  all: sf_compare_cases.
Qed.

Module BreakMaskProofs.
Import BreakMask.

Lemma mask_pixel_cases (seuil v : float) :
  (mask_pixel seuil v = 1 /\ PrimFloat.ltb seuil v = true) \/
  (mask_pixel seuil v = 0 /\ PrimFloat.ltb seuil v = false).
Proof.
  unfold mask_pixel, PyFloat.gt.
  destruct (PrimFloat.ltb seuil v); [left | right]; split; reflexivity.
Qed.

Lemma mask_pixel_mono (t1 t2 v : float) :
  PrimFloat.leb t1 t2 = true -> mask_pixel t2 v <= mask_pixel t1 v.
Proof.
  intros Hle. unfold mask_pixel, PyFloat.gt.
  destruct (PrimFloat.ltb t2 v) eqn:H2.
  - rewrite (float_le_lt_trans _ _ _ Hle H2). lia.
  - destruct (PrimFloat.ltb t1 v); lia.
Qed.

(** C8: raising the threshold from [t1] to [t2] can only clear pixels of
    the mask, in every block and at every pixel; a pixel is 1 exactly when
    its slope is strictly above the threshold, and 0 otherwise. *)
Theorem threshold_monotone (t1 t2 : float) (data : ndarray float) (i j : nat) :
  PrimFloat.leb t1 t2 = true ->
  cell (mask_block t2 data) i j <= cell (mask_block t1 data) i j
  /\ (cell (mask_block t1 data) i j = 1 <-> PrimFloat.ltb t1 (cell data i j) = true)
  /\ (cell (mask_block t1 data) i j = 0 <-> PrimFloat.ltb t1 (cell data i j) = false)
  /\ Np.shape (mask_block t1 data) = Np.shape data.
Proof.
  intros Hle. cbn [mask_block Np.map cell].
  split; [apply mask_pixel_mono; exact Hle|].
  unfold mask_pixel, PyFloat.gt.
  destruct (PrimFloat.ltb t1 (cell data i j)); repeat split; intros; try reflexivity; try discriminate.
Qed.

Lemma threshold_monotone_witness :
  PrimFloat.leb 15%float 20%float = true
  /\ cell (mask_block 20%float Scenarios.slopes) 0 1
     <= cell (mask_block 15%float Scenarios.slopes) 0 1
  /\ (cell (mask_block 15%float Scenarios.slopes) 0 1 = 1
      <-> PrimFloat.ltb 15%float (cell Scenarios.slopes 0 1) = true)
  /\ (cell (mask_block 15%float Scenarios.slopes) 0 1 = 0
      <-> PrimFloat.ltb 15%float (cell Scenarios.slopes 0 1) = false)
  /\ Np.shape (mask_block 15%float Scenarios.slopes) = Np.shape Scenarios.slopes.
Proof.
  split; [reflexivity|].
  apply (threshold_monotone 15%float 20%float Scenarios.slopes 0 1). reflexivity.
Defined.

End BreakMaskProofs.

(* ---------------------------------------------------------------------- *)
(** *** Slope *)

Module SlopeProofs.
Import SlopeComputer.

Section Blocks.
Context {px : Type} `{SlopeLib px}.

Lemma slope_of_total (data : ndarray px) :
  (forall a axis, Np.shape (sobel a axis) = Np.shape a) ->
  exists slope, slope_of data = Some slope
    /\ Np.shape slope = Np.shape data
    /\ forall i j, cell slope i j = hypot (cell (sobel data 1) i j) (cell (sobel data 0) i j).
Proof.
  intros Hshape. unfold slope_of, Np.map2.
  destruct (decide (Np.shape (sobel data 1) = Np.shape (sobel data 0))) as [_|Hne].
  - eexists; split; [reflexivity|]. split; [|reflexivity].
    unfold Np.shape at 1; cbn [nrows ncols].
    exact (Hshape data 1%nat).
  - exfalso. apply Hne. rewrite !Hshape. reflexivity.
Qed.

Lemma slope_block_spec (data : ndarray px) (window : Window) (slope : ndarray px) :
  slope_of data = Some slope ->
  exists block, slope_block data window = Some block /\ written_block slope window block.
Proof.
  intros Hs. unfold slope_block. rewrite Hs. cbn [mbind option_bind].
  eexists; split; [reflexivity|].
  unfold written_block.
  destruct (decide (Np.shape (Np.slice slope PAD_CALC (height window) PAD_CALC (width window))
                    ≠ (height window, width window))) as [Hne|Heq].
  - split; [intros Heq; contradiction|]. split; [reflexivity|]. reflexivity.
  - apply dec_stable in Heq. split; [reflexivity|]. split; [intros Hne; contradiction|exact Heq].
Qed.

Lemma etape_pente_blocks_spec (read : Window -> ndarray px) (windows_list : list Window) :
  (forall a axis, Np.shape (sobel a axis) = Np.shape a) ->
  forall dst, exists written,
    etape_pente_blocks read windows_list dst = Some (dst ++ written)
    /\ List.map fst written = windows_list
    /\ Forall (fun wb =>
                 exists slope, slope_of (read (padded PAD_CALC (fst wb))) = Some slope
                               /\ written_block slope (fst wb) (snd wb)) written.
Proof.
  intros Hshape. induction windows_list as [|window rest IH]; intros dst.
  - exists []. cbn. rewrite app_nil_r. repeat split; constructor.
  - destruct (slope_of_total (read (padded PAD_CALC window)) Hshape) as (slope & Hs & _ & _).
    destruct (slope_block_spec _ window _ Hs) as (block & Hb & Hw).
    cbn [etape_pente_blocks]. rewrite Hb. cbn [mbind option_bind].
    unfold write. destruct Hw as (Hw1 & Hw2 & Hw3).
    rewrite decide_True by exact Hw3. cbn [mbind option_bind].
    destruct (IH (dst ++ [(window, block)])) as (written & Hrun & Hfst & Hall).
    exists ((window, block) :: written). split; [|split].
    + rewrite Hrun, <- app_assoc. reflexivity.
    + cbn. rewrite Hfst. reflexivity.
    + constructor; [|exact Hall]. exists slope. split; [exact Hs|]. repeat split; assumption.
Qed.

(** When the padded read has the padded window's shape, the crop has the
    block's shape, so the crop itself is written. *)
Lemma crop_has_block_shape (slope : ndarray px) (window : Window) :
  Np.shape slope = (height (padded PAD_CALC window), width (padded PAD_CALC window)) ->
  Np.shape (Np.slice slope PAD_CALC (height window) PAD_CALC (width window))
  = (height window, width window).
Proof.
  unfold Np.shape, Np.slice, padded, PAD_CALC. cbn [nrows ncols height width].
  intros [= -> ->]. f_equal; lia.
Qed.

(** The crop has the block's shape exactly when the array has the block's
    rows and columns left after the 8 of padding. *)
Lemma crop_shape_iff (slope : ndarray px) (window : Window) :
  Np.shape (Np.slice slope PAD_CALC (height window) PAD_CALC (width window))
  = (height window, width window)
  <-> (height window <= nrows slope - 8)%nat /\ (width window <= ncols slope - 8)%nat.
Proof.
  unfold Np.shape, Np.slice, PAD_CALC. cbn [nrows ncols]. split.
  - intros [= Hh Hw]. lia.
  - intros [Hh Hw]. f_equal; lia.
Qed.

(** C9: the run never fails on a block, and writes one block per window,
    at the window, with the window's shape. With [data] the read of the
    window grown by 8 pixels on every side, and the magnitude at a pixel the
    hypot of the two Sobel gradients of [data] there: when [data] has the
    block's rows and columns left after the 8 of padding, pixel (i, j) of the
    written block is the magnitude at (8 + i, 8 + j), the padded magnitude
    cropped back to the block; otherwise the crop has not the block's shape,
    and every pixel of the written block is zero. *)
Theorem slope_blocks_written (read : Window -> ndarray px) (windows_list : list Window) :
  (forall a axis, Np.shape (sobel a axis) = Np.shape a) ->
  exists written,
    etape_pente_blocks read windows_list [] = Some written
    /\ List.map fst written = windows_list
    /\ Forall (fun wb =>
         let window := fst wb in
         let block := snd wb in
         let data := read (MkWindow (col_off window - 8) (row_off window - 8)
                                    (width window + 16) (height window + 16)) in
         let magnitude i j := hypot (cell (sobel data 1) i j) (cell (sobel data 0) i j) in
         let fits := (height window <= nrows data - 8)%nat
                     /\ (width window <= ncols data - 8)%nat in
         nrows block = height window /\ ncols block = width window
         /\ (fits -> forall i j, cell block i j = magnitude (8 + i)%nat (8 + j)%nat)
         /\ (~ fits -> forall i j, cell block i j = px_zero)) written.
Proof.
  intros Hshape.
  destruct (etape_pente_blocks_spec read windows_list Hshape []) as (written & Hrun & Hfst & Hall).
  exists written. split; [exact Hrun|]. split; [exact Hfst|].
  eapply Forall_impl; [exact Hall|].
  intros [window block] (slope & Hs & Hcrop & Hzero & Hsize). cbn [fst snd] in *. cbv zeta.
  change (MkWindow (col_off window - 8) (row_off window - 8) (width window + 16)
                   (height window + 16))
    with (padded PAD_CALC window).
  destruct (slope_of_total (read (padded PAD_CALC window)) Hshape) as (slope' & Hs' & Hsh & Hcell).
  assert (slope' = slope) by congruence. subst slope'.
  injection Hsh as Hrows Hcols. injection Hsize as Hbr Hbc.
  split; [exact Hbr|]. split; [exact Hbc|].
  pose proof (crop_shape_iff slope window) as Hiff. rewrite Hrows, Hcols in Hiff.
  split.
  - intros Hfits i j. rewrite (Hcrop (proj2 Hiff Hfits)).
    unfold Np.slice, PAD_CALC. cbn [cell]. apply Hcell.
  - intros Hnot i j. rewrite Hzero; [reflexivity|].
    intros Hc. apply Hnot, Hiff, Hc.
Qed.

End Blocks.

Import Reference Scenarios.

Lemma slope_blocks_written_witness :
  (forall a axis, Np.shape (sobel a axis) = Np.shape a)
  /\ exists written,
      etape_pente_blocks patchy_ramp ramp_blocks [] = Some written
      /\ List.map fst written = ramp_blocks
      /\ Forall (fun wb =>
           let window := fst wb in
           let block := snd wb in
           let data := patchy_ramp (MkWindow (col_off window - 8) (row_off window - 8)
                                             (width window + 16) (height window + 16)) in
           let magnitude i j := hypot (cell (sobel data 1) i j) (cell (sobel data 0) i j) in
           let fits := (height window <= nrows data - 8)%nat
                       /\ (width window <= ncols data - 8)%nat in
           nrows block = height window /\ ncols block = width window
           /\ (fits -> forall i j, cell block i j = magnitude (8 + i)%nat (8 + j)%nat)
           /\ (~ fits -> forall i j, cell block i j = px_zero)) written.
Proof.
  assert (Hshape : forall (a : ndarray float) axis, Np.shape (sobel a axis) = Np.shape a)
    by reflexivity.
  split; [exact Hshape|].
  exact (slope_blocks_written patchy_ramp ramp_blocks Hshape).
Defined.

(** On the patchy ramp the first block holds the magnitude of the ramp,
    whose Sobel gradients are 16 across the columns and 8 across the rows,
    and the second block, whose read is too short, holds zeros. *)
Example patchy_ramp_blocks :
  exists first second,
    etape_pente_blocks patchy_ramp ramp_blocks [] = Some [(MkWindow 0 0 2 2, first);
                                                          (MkWindow 2 0 1 2, second)]
    /\ Np.shape first = (2%nat, 2%nat) /\ Np.shape second = (2%nat, 1%nat)
    /\ List.map (fun ij => cell first (fst ij) (snd ij)) [(0, 0); (0, 1); (1, 0); (1, 1)]%nat
       = repeat (PrimFloat.sqrt 320) 4
    /\ List.map (fun ij => cell second (fst ij) (snd ij)) [(0, 0); (1, 0)]%nat
       = [0%float; 0%float].
Proof. eexists _, _. split; [reflexivity|]. vm_compute. repeat split; reflexivity. Qed.

End SlopeProofs.

(* ---------------------------------------------------------------------- *)
(** *** Chunking *)

Lemma py_range_covers (stop step : nat) :
  (0 < step)%nat ->
  (stop <= Nat.div (stop + (step - 1)) step * step)%nat
  /\ (forall k, (k < Nat.div (stop + (step - 1)) step)%nat -> (k * step < stop)%nat).
Proof.
  intros Hstep.
  pose proof (Nat.div_mod (stop + (step - 1)) step ltac:(lia)) as Hdm.
  pose proof (Nat.mod_upper_bound (stop + (step - 1)) step ltac:(lia)) as Hr.
  set (m := Nat.div (stop + (step - 1)) step) in *.
  set (r := Nat.modulo (stop + (step - 1)) step) in *.
  split; [nia|]. intros k Hk. nia.
Qed.

Lemma concat_slices {A} (n : nat) (l : list A) (m : nat) :
  concat (List.map (fun k => take n (drop (k * n) l)) (seq 0 m)) = take (m * n) l.
Proof.
  induction m as [|m IH].
  - reflexivity.
  - rewrite seq_S, List.map_app, concat_app, IH. cbn [List.map concat].
    rewrite app_nil_r, take_take_drop. f_equal. lia.
Qed.

Lemma chunks_slices {A} (n : nat) (l : list A) :
  chunks n l
  = List.map (fun k => take n (drop (k * n) l)) (seq 0 (Nat.div (length l + (n - 1)) n)).
Proof. unfold chunks, py_range. rewrite List.map_map. reflexivity. Qed.

Lemma chunks_concat {A} (n : nat) (l : list A) :
  (0 < n)%nat -> concat (chunks n l) = l.
Proof.
  intros Hn. rewrite chunks_slices, concat_slices.
  apply take_ge. apply (py_range_covers (length l) n Hn).
Qed.

Lemma chunks_sizes {A} (n : nat) (l : list A) :
  (0 < n)%nat -> Forall (fun c => (0 < length c <= n)%nat) (chunks n l).
Proof.
  intros Hn. rewrite chunks_slices. apply Forall_forall. intros c Hc.
  apply list_elem_of_In, in_map_iff in Hc. destruct Hc as (k & <- & Hk). apply in_seq in Hk.
  pose proof (proj2 (py_range_covers (length l) n Hn) k ltac:(lia)) as Hlt.
  rewrite length_take, length_drop. lia.
Qed.

Lemma chunks_nonempty {A} (n : nat) (l : list A) :
  (0 < n)%nat -> l <> [] -> chunks n l <> [].
Proof.
  intros Hn Hl Hc. apply Hl. rewrite <- (chunks_concat n l Hn), Hc. reflexivity.
Qed.

(* ---------------------------------------------------------------------- *)
(** *** Global merge *)

Module GlobalMergerProofs.
Import GlobalMerger.

Section Merge.
Context {Geom : Type} `{Overlay Geom}.

Lemma partial_unions_ok (chunks : list (list Geom)) :
  forall acc calls partials,
    mapM unary_union chunks = Some partials ->
    partial_unions chunks acc calls = (Some (acc ++ partials), calls ++ chunks)
    /\ length partials = length chunks.
Proof.
  induction chunks as [|chunk rest IH]; intros acc calls partials Hm.
  - cbn in Hm. injection Hm as <-. cbn. rewrite !app_nil_r. split; reflexivity.
  - cbn in Hm. cbn [partial_unions].
    destruct (unary_union chunk) as [u|]; [|discriminate]. cbn in Hm.
    destruct (mapM unary_union rest) as [ps|] eqn:Hrest; [|discriminate].
    cbn in Hm. injection Hm as <-.
    destruct (IH (acc ++ [u]) (calls ++ [chunk]) ps eq_refl) as [-> Hlen].
    rewrite <- !app_assoc. cbn. rewrite Hlen. split; reflexivity.
Qed.

Lemma partial_unions_raises (chunks : list (list Geom)) :
  forall acc calls,
    mapM unary_union chunks = None ->
    fst (partial_unions chunks acc calls) = None.
Proof.
  induction chunks as [|chunk rest IH]; intros acc calls Hm.
  - discriminate.
  - cbn in Hm. cbn [partial_unions].
    destruct (unary_union chunk) as [u|]; [|reflexivity]. cbn in Hm.
    destruct (mapM unary_union rest) as [ps|] eqn:Hrest; [discriminate|].
    apply IH. reflexivity.
Qed.

Lemma partial_unions_calls (chunks : list (list Geom)) :
  forall acc calls, exists extra,
    snd (partial_unions chunks acc calls) = calls ++ extra.
Proof.
  induction chunks as [|chunk rest IH]; intros acc calls; cbn [partial_unions].
  - exists []. cbn. rewrite app_nil_r. reflexivity.
  - destruct (unary_union chunk) as [u|].
    + destruct (IH (acc ++ [u]) (calls ++ [chunk])) as (extra & ->).
      exists (chunk :: extra). rewrite <- app_assoc. reflexivity.
    + exists [chunk]. reflexivity.
Qed.

Lemma partial_unions_first (chunk : list Geom) (rest : list (list Geom)) :
  forall acc calls, exists more,
    snd (partial_unions (chunk :: rest) acc calls) = calls ++ chunk :: more.
Proof.
  intros acc calls. cbn [partial_unions]. destruct (unary_union chunk) as [u|].
  - destruct (partial_unions_calls rest (acc ++ [u]) (calls ++ [chunk])) as (more & ->).
    exists more. rewrite <- app_assoc. reflexivity.
  - exists []. reflexivity.
Qed.

(** C5, as amended: on a non-empty list the merger first calls one bulk
    union; when it succeeds that is the only call and its value is the
    result; exactly when it raises, the merger falls back: the list is cut
    into consecutive chunks of at most 1000 polygons, the chunks are unioned
    one after the other, beginning with the first, and the union of the
    per-chunk results is the merged geometry. A merged geometry is produced
    exactly when the bulk union succeeds or every union of the fallback
    does: a union of the fallback that raises is not caught, and then no
    geometry is produced. *)
Theorem bulk_union_then_chunked_fallback (all_polygons : list Geom) :
  all_polygons <> [] ->
  let result := global_merge_calls all_polygons in
  let cs := chunks 1000 all_polygons in
  head (snd result) = Some all_polygons
  /\ (snd result = [all_polygons] <-> is_Some (unary_union all_polygons))
  /\ (forall g, unary_union all_polygons = Some g -> result = (Some g, [all_polygons]))
  /\ (unary_union all_polygons = None ->
      cs <> [] /\ concat cs = all_polygons
      /\ Forall (fun c => (0 < length c <= 1000)%nat) cs
      /\ snd result !! 1%nat = head cs
      /\ (forall partials,
            mapM unary_union cs = Some partials ->
            length partials = length cs
            /\ result = (unary_union partials, [all_polygons] ++ cs ++ [partials]))
      /\ (mapM unary_union cs = None -> fst result = None))
  /\ (is_Some (fst result)
      <-> is_Some (unary_union all_polygons)
          \/ exists partials, mapM unary_union cs = Some partials
                              /\ is_Some (unary_union partials)).
Proof.
  intros Hne result cs. subst result cs. unfold global_merge_calls.
  destruct (unary_union all_polygons) as [g|] eqn:Hbulk.
  - split; [reflexivity|]. split; [split; [eexists|]; reflexivity|].
    split; [intros g' [= <-]; reflexivity|]. split; [discriminate|].
    cbn [fst]. split; [intros _; left|]; eexists; reflexivity.
  - pose proof (chunks_nonempty 1000 all_polygons ltac:(lia) Hne) as Hcs.
    destruct (chunks 1000 all_polygons) as [|chunk rest] eqn:Hchunks; [contradiction|].
    destruct (partial_unions_first chunk rest [] [all_polygons]) as (more & Hcalls).
    assert (Hok : forall partials,
               mapM unary_union (chunk :: rest) = Some partials ->
               partial_unions (chunk :: rest) [] [all_polygons]
               = (Some partials, [all_polygons] ++ chunk :: rest)
               /\ length partials = length (chunk :: rest)).
    { intros partials Hm.
      destruct (partial_unions_ok _ [] [all_polygons] partials Hm) as [Hrun Hlen].
      split; [exact Hrun|exact Hlen]. }
    pose proof (partial_unions_raises (chunk :: rest) [] [all_polygons]) as Hraises.
    destruct (partial_unions (chunk :: rest) [] [all_polygons]) as [[ps|] calls];
      cbn [fst snd] in *; subst calls.
    + split; [reflexivity|].
      split; [split; [discriminate|intros [g Hg]; discriminate]|].
      split; [discriminate|].
      split.
      { intros _. split; [discriminate|].
        split; [rewrite <- Hchunks; apply chunks_concat; lia|].
        split; [rewrite <- Hchunks; apply chunks_sizes; lia|].
        split; [reflexivity|].
        split.
        - intros partials Hm. destruct (Hok partials Hm) as [[= -> ->] Hlen].
          split; [exact Hlen|reflexivity].
        - intros Hm. specialize (Hraises Hm). discriminate. }
      destruct (mapM unary_union (chunk :: rest)) as [partials|] eqn:Hm.
      * destruct (Hok partials eq_refl) as [[= -> _] _].
        split; [intros Hsome; right; exists partials; split; [reflexivity|exact Hsome]|].
        intros [[g Hg] | (partials' & [= <-] & Hsome)]; [discriminate|exact Hsome].
      * specialize (Hraises eq_refl). discriminate.
    + split; [reflexivity|].
      split; [split; [discriminate|intros [g Hg]; discriminate]|].
      split; [discriminate|].
      split.
      { intros _. split; [discriminate|].
        split; [rewrite <- Hchunks; apply chunks_concat; lia|].
        split; [rewrite <- Hchunks; apply chunks_sizes; lia|].
        split; [reflexivity|].
        split; [|reflexivity].
        intros partials Hm. destruct (Hok partials Hm) as [[=] _]. }
      split; [intros [g Hg]; discriminate|].
      intros [[g Hg] | (partials & Hm & _)]; [discriminate|].
      destruct (Hok partials Hm) as [[=] _].
Qed.

End Merge.
End GlobalMergerProofs.

Module GlobalMergerExamples.
Import GlobalMerger Scenarios.

Section Fragile.
#[local] Existing Instance fragile_overlay.

Lemma bulk_union_then_chunked_fallback_witness :
  many_polygons <> []
  /\ let result := global_merge_calls many_polygons in
     let cs := chunks 1000 many_polygons in
     head (snd result) = Some many_polygons
     /\ (snd result = [many_polygons] <-> is_Some (unary_union many_polygons))
     /\ (forall g, unary_union many_polygons = Some g -> result = (Some g, [many_polygons]))
     /\ (unary_union many_polygons = None ->
         cs <> [] /\ concat cs = many_polygons
         /\ Forall (fun c => (0 < length c <= 1000)%nat) cs
         /\ snd result !! 1%nat = head cs
         /\ (forall partials,
               mapM unary_union cs = Some partials ->
               length partials = length cs
               /\ result = (unary_union partials, [many_polygons] ++ cs ++ [partials]))
         /\ (mapM unary_union cs = None -> fst result = None))
     /\ (is_Some (fst result)
         <-> is_Some (unary_union many_polygons)
             \/ exists partials, mapM unary_union cs = Some partials
                                 /\ is_Some (unary_union partials)).
Proof.
  assert (Hne : many_polygons <> []) by discriminate.
  split; [exact Hne|].
  exact (GlobalMergerProofs.bulk_union_then_chunked_fallback many_polygons Hne).
Defined.

(** The fallback on 2500 unit polygons, with a union that raises on more
    than 1000 inputs: the bulk union raises, the chunks of 1000, 1000 and 500
    are unioned, then the three partial unions. *)
Example fallback_on_2500_polygons :
  unary_union many_polygons = None
  /\ mapM unary_union (chunks 1000 many_polygons) = Some [1000; 1000; 500]%nat
  /\ List.map length (snd (global_merge_calls many_polygons))
     = [2500; 1000; 1000; 500; 3]%nat
  /\ fst (global_merge_calls many_polygons) = Some 2500%nat.
Proof. vm_compute. repeat split; reflexivity. Qed.

End Fragile.

Section Cramped.
#[local] Existing Instance cramped_overlay.

(** C5, as stated, fails when the union raises on the partial unions as it
    did on the whole list: the bulk union of the 2500 polygons raises, the
    fallback unions the chunks of 1000, 1000 and 500, the union of the three
    results raises, and no merged geometry is produced. *)
Lemma fallback_leaves_no_geometry :
  ~ still_produces_geometry many_polygons.
Proof.
  intros [g Hg]. vm_compute in Hg. discriminate.
Qed.

Example fallback_calls_before_failing :
  unary_union many_polygons = None
  /\ mapM unary_union (chunks 1000 many_polygons) = Some [1000; 1000; 500]%nat
  /\ unary_union [1000; 1000; 500]%nat = None
  /\ List.map length (snd (global_merge_calls many_polygons))
     = [2500; 1000; 1000; 500; 3]%nat
  /\ global_merge many_polygons = None.
Proof. vm_compute. repeat split; reflexivity. Qed.

End Cramped.

End GlobalMergerExamples.

(* ---------------------------------------------------------------------- *)
(** *** Tile vectorisation *)

Module TileVectorizerProofs.
Import TileVectorizer.

Section Worker.
Context {J Geom : Type}.
Context `{Measured Geom, Decoder J Geom, Smoother Geom, Tracer J}.

(** Each traced region is closed and filtered on its own. *)
Lemma collect_shapes_regionwise (min_area simplify_tol : float) (shapes_gen : list (J * Z)) :
  forall polys,
    collect_shapes min_area simplify_tol shapes_gen polys
    = polys ++ omap (fun gv => if snd gv =? 1
                               then smooth_and_filter min_area simplify_tol (fst gv)
                               else None) shapes_gen.
Proof.
  unfold collect_shapes.
  induction shapes_gen as [|gv rest IH]; intros polys; cbn [fold_left omap list_omap].
  - rewrite app_nil_r. reflexivity.
  - rewrite IH. destruct (snd gv =? 1); [|reflexivity].
    destruct (smooth_and_filter min_area simplify_tol (fst gv)); [|reflexivity].
    rewrite <- app_assoc. reflexivity.
Qed.

(** A region is kept only when its own closed geometry has an area that is
    neither below the floor nor above 10000. *)
Lemma smooth_and_filter_area (min_area simplify_tol : float) (geom : J) (kept : Geom) :
  smooth_and_filter min_area simplify_tol geom = Some kept ->
  PyFloat.lt (geom_area kept) min_area = false
  /\ PyFloat.gt (geom_area kept) 10000%float = false
  /\ exists s_geom,
      shape geom = Some s_geom
      /\ let closed := Scenarios.closing (simplify s_geom simplify_tol) in
         kept = (if negb (is_valid closed) then buffer closed 0%float else closed).
Proof.
  unfold smooth_and_filter, Scenarios.closing. intros Hk.
  destruct (shape geom) as [s_geom|]; [|discriminate]. cbn [mbind option_bind] in Hk.
  destruct (is_empty (simplify s_geom simplify_tol)); [discriminate|].
  destruct (is_empty _); [discriminate|].
  destruct (PyFloat.lt _ min_area) eqn:Hlo; [discriminate|].
  destruct (PyFloat.gt _ 10000%float) eqn:Hhi; [discriminate|].
  injection Hk as <-. split; [exact Hlo|]. split; [exact Hhi|].
  exists s_geom. split; reflexivity.
Qed.

End Worker.

Import Strip Scenarios.

(** C4, at two fragments of 15 cells that lie 5 cells apart (less than twice
    the radius 3): closing their union gives one region of 35 cells, but the
    worker closes each traced region on its own, each keeps its 15 cells, and
    the area floor of 20 drops both. *)
Theorem close_fragments_dropped :
  (mask ← two_fragments (padded PAD_VECT tile); Some (shapes mask (padded PAD_VECT tile)))
  = Some [(fragment_a, 1); (fragment_b, 1)]
  /\ geom_area (closing fragment_a) = 15%float
  /\ geom_area (closing fragment_b) = 15%float
  /\ geom_area (closing (fragment_a ∪ fragment_b)) = 35%float
  /\ process_window_batch (Some two_fragments) [tile] MIN_AREA PAD_VECT 0.5%float
     = ([] : list (gset Z)).
Proof. vm_compute. repeat split; reflexivity. Qed.

(** The same cells in one piece are kept. *)
Example one_region_kept :
  process_window_batch (Some (row_mask 40 (seqZ 0 35))) [tile] MIN_AREA PAD_VECT 0.5%float
  = [list_to_set (seqZ 0 35) : gset Z].
Proof. vm_compute. reflexivity. Qed.

End TileVectorizerProofs.

(* ---------------------------------------------------------------------- *)
(** *** Vectorisation driver *)

Module VectorisationProofs.
Import Vectorisation.

Section Driver.
Context {J Geom : Type}.
Context `{Measured Geom, Decoder J Geom, Smoother Geom, Tracer J,
          Overlay Geom, Projector J Geom, PyNum}.

(** C3, as amended: when the workers return no polygon at all, the stage
    returns the count 0 without error and leaves every file as it was; neither
    the union nor the export runs, and no feature collection is written. *)
Theorem no_polygons_no_export (disk : gmap string (file J))
        (src : option (Window -> option (ndarray Z))) (windows_list : list Window) :
  collect_polygons src windows_list = [] ->
  etape_vectorisation disk src windows_list = Some (0%nat, disk)
  /\ (disk !! FILE_GEOJSON = None ->
      ~ writes_empty_collection (etape_vectorisation disk src windows_list)).
Proof.
  intros Hnone.
  assert (Hrun : etape_vectorisation disk src windows_list = Some (0%nat, disk)).
  { unfold etape_vectorisation. destruct (negb (ask_skip disk FILE_GEOJSON)); [reflexivity|].
    rewrite Hnone. reflexivity. }
  split; [exact Hrun|].
  intros Hmissing (count & disk' & fc & Hout & Hfile & _).
  rewrite Hrun in Hout. injection Hout as _ <-. rewrite Hmissing in Hfile. discriminate.
Qed.

End Driver.

Import Strip Scenarios Reference.

Lemma no_polygons_no_export_witness :
  collect_polygons (Some no_break) [tile] = ([] : list (gset Z))
  /\ etape_vectorisation disk_before (Some no_break) [tile] = Some (0%nat, disk_before)
  /\ (disk_before !! FILE_GEOJSON = None ->
      ~ writes_empty_collection (etape_vectorisation disk_before (Some no_break) [tile])).
Proof.
  assert (Hnone : collect_polygons (Some no_break) [tile] = ([] : list (gset Z)))
    by (vm_compute; reflexivity).
  split; [exact Hnone|].
  exact (no_polygons_no_export disk_before (Some no_break) [tile] Hnone).
Defined.

(** C3, as stated, fails on a mask without any break: no polygon is
    collected, and the stage leaves no feature collection behind. *)
Lemma empty_run_leaves_no_collection :
  ~ (collect_polygons (Some no_break) [tile] = ([] : list (gset Z)) ->
     writes_empty_collection (etape_vectorisation disk_before (Some no_break) [tile])).
Proof.
  intros Hclaim.
  destruct Hclaim as (count & disk' & fc & Hout & Hfile & _).
  - vm_compute. reflexivity.
  - vm_compute in Hout. injection Hout as _ <-. vm_compute in Hfile. discriminate.
Qed.

End VectorisationProofs.

(* ---------------------------------------------------------------------- *)
(** *** Classifier *)

Lemma float_eq_not_gt (a b : float) :
  PrimFloat.eqb a b = true -> PrimFloat.ltb b a = false.
Proof.
  rewrite FloatAxioms.eqb_spec, FloatAxioms.ltb_spec.
  unfold SFeqb, SFltb.
  destruct (Prim2SF a) as [[]|[]| |[] ma ea],
           (Prim2SF b) as [[]|[]| |[] mb eb]; simpl; try congruence.
  all: sf_compare_cases.
Qed.

Lemma float_lt_le (a b : float) :
  PrimFloat.ltb a b = true -> PrimFloat.leb a b = true.
Proof.
  rewrite FloatAxioms.ltb_spec, FloatAxioms.leb_spec.
  unfold SFltb, SFleb.
  destruct (Prim2SF a) as [[]|[]| |[] ma ea],
           (Prim2SF b) as [[]|[]| |[] mb eb]; simpl; try congruence.
  all: sf_compare_cases.
Qed.

Lemma float_not_lt_ge (a b : float) :
  PyFloat.is_number a -> PyFloat.is_number b ->
  PrimFloat.ltb a b = false -> PrimFloat.leb b a = true.
Proof.
  unfold PyFloat.is_number.
  rewrite !FloatAxioms.eqb_spec, FloatAxioms.ltb_spec, FloatAxioms.leb_spec.
  unfold SFeqb, SFltb, SFleb.
  destruct (Prim2SF a) as [[]|[]| |[] ma ea],
           (Prim2SF b) as [[]|[]| |[] mb eb]; simpl; try congruence.
  all: sf_compare_cases.
Qed.

Lemma float_le_trans (a b c : float) :
  PrimFloat.leb a b = true -> PrimFloat.leb b c = true -> PrimFloat.leb a c = true.
Proof.
  rewrite !FloatAxioms.leb_spec.
  unfold SFleb.
  destruct (Prim2SF a) as [[]|[]| |[] ma ea],
           (Prim2SF b) as [[]|[]| |[] mb eb],
           (Prim2SF c) as [[]|[]| |[] mc ec]; simpl; try congruence.
  all: sf_compare_cases.
Qed.

Lemma float_le_not_gt (a b : float) :
  PrimFloat.leb a b = true -> PrimFloat.ltb b a = false.
Proof.
  rewrite FloatAxioms.leb_spec, FloatAxioms.ltb_spec.
  unfold SFleb, SFltb.
  destruct (Prim2SF a) as [[]|[]| |[] ma ea],
           (Prim2SF b) as [[]|[]| |[] mb eb]; simpl; try congruence.
  all: sf_compare_cases.
Qed.

Lemma float_lt_irrefl (a : float) : PrimFloat.ltb a a = false.
Proof.
  rewrite FloatAxioms.ltb_spec. unfold SFltb.
  destruct (Prim2SF a) as [[]|[]| |[] ma ea]; simpl; try congruence.
  all: sf_compare_cases.
Qed.

Module ClassifierProofs.
Import Classifier.

(** The tests of [read_elev], each as the comparison the code makes:
    [read_elev] gives no reading exactly when the point compares outside the
    bounds of the grid, or its row or column is outside the array, or the
    sample compares equal to the no-data value, or compares below -100 or
    above 5000; and a station of the probe adds a difference to the list
    exactly when both of its samples are readings. A sample that is not a
    number satisfies none of the comparisons. *)
Lemma read_elev_none_iff (mnt : MNT) (x y : float) :
  let b := mnt_bounds mnt in
  let row := fst (mnt_index mnt x y) in
  let col := snd (mnt_index mnt x y) in
  let elev := mnt_read mnt col row in
  (read_elev mnt x y = None <->
     (PyFloat.lt x (bounds_left b) = true \/ PyFloat.gt x (bounds_right b) = true
      \/ PyFloat.lt y (bounds_bottom b) = true \/ PyFloat.gt y (bounds_top b) = true)
     \/ ~ (0 <= row < mnt_height mnt /\ 0 <= col < mnt_width mnt)
     \/ (exists nodata, mnt_nodata mnt = Some nodata /\ PyFloat.eq elev nodata = true)
     \/ (PyFloat.lt elev (-100)%float = true \/ PyFloat.gt elev 5000%float = true))
  /\ (forall e, read_elev mnt x y = Some e -> e = elev)
  /\ (forall ax_start ax_end perp_x perp_y frac deltas probes,
        let sx := (fst ax_start + (fst ax_end - fst ax_start) * frac)%float in
        let sy := (snd ax_start + (snd ax_end - snd ax_start) * frac)%float in
        let elev_a := read_elev mnt (sx + perp_x * DIST_SONDAGE)%float
                                    (sy + perp_y * DIST_SONDAGE)%float in
        let elev_b := read_elev mnt (sx - perp_x * DIST_SONDAGE)%float
                                    (sy - perp_y * DIST_SONDAGE)%float in
        let deltas' :=
          fst (multi_sondage mnt ax_start ax_end perp_x perp_y [frac] deltas probes) in
        (forall a b, elev_a = Some a -> elev_b = Some b ->
                     deltas' = deltas ++ [PrimFloat.abs (a - b)%float])
        /\ (elev_a = None \/ elev_b = None -> deltas' = deltas)).
Proof.
  intros b row col elev. subst b row col elev. split; [|split].
  - unfold read_elev.
    destruct (mnt_index mnt x y) as [row col]. cbn [fst snd].
    destruct (PyFloat.lt x _) eqn:H1; cbn [orb]; [tauto|].
    destruct (PyFloat.gt x _) eqn:H2; cbn [orb]; [tauto|].
    destruct (PyFloat.lt y _) eqn:H3; cbn [orb]; [tauto|].
    destruct (PyFloat.gt y _) eqn:H4; cbn [orb]; [tauto|].
    destruct (0 <=? row) eqn:R1; cbn [andb];
      [|split; [intros _; right; left; lia|reflexivity]].
    destruct (row <? mnt_height mnt) eqn:R2; cbn [andb];
      [|split; [intros _; right; left; lia|reflexivity]].
    destruct (0 <=? col) eqn:C1; cbn [andb];
      [|split; [intros _; right; left; lia|reflexivity]].
    destruct (col <? mnt_width mnt) eqn:C2; cbn [andb];
      [|split; [intros _; right; left; lia|reflexivity]].
    destruct (mnt_nodata mnt) as [nodata|] eqn:Hnd.
    + destruct (PyFloat.eq (mnt_read mnt col row) nodata) eqn:E.
      * split; [intros _|reflexivity]. right; right; left. exists nodata. split; [reflexivity|exact E].
      * destruct (PyFloat.lt (mnt_read mnt col row) (-100)%float) eqn:L; cbn [orb]; [tauto|].
        destruct (PyFloat.gt (mnt_read mnt col row) 5000%float) eqn:G; [tauto|].
        split; [discriminate|].
        intros [[|[|[|]]]|[Hout|[(nd & [= <-] & Hnd')|[|]]]]; try congruence. lia.
    + destruct (PyFloat.lt (mnt_read mnt col row) (-100)%float) eqn:L; cbn [orb]; [tauto|].
      destruct (PyFloat.gt (mnt_read mnt col row) 5000%float) eqn:G; [tauto|].
      split; [discriminate|].
      intros [[|[|[|]]]|[Hout|[(nd & Hnd' & _)|[|]]]]; try congruence. lia.
  - intros e. unfold read_elev.
    destruct (mnt_index mnt x y) as [row col]. cbn [fst snd].
    repeat match goal with
           | |- context [if ?c then _ else _] => destruct c; try discriminate
           end; congruence.
  - intros ax_start ax_end perp_x perp_y frac deltas probes.
    cbn [multi_sondage]. cbv zeta.
    destruct (read_elev mnt _ _) as [a|]; destruct (read_elev mnt _ _) as [b'|]; cbn [fst].
    all: split; [intros ? ? [= <-] [= <-] || intros ? ? ? ?; try discriminate; reflexivity
                | intros [|]; try discriminate; reflexivity].
Qed.

(** A sample that is not a number is below nothing and above nothing: it is
    returned as a reading. *)
Example nan_sample_is_a_reading :
  read_elev (Parcels.grid (Some (-9999)%float) (fun _ _ => nan)) 5%float 5%float = Some nan.
Proof. vm_compute. reflexivity. Qed.

Example readings_on_the_partial_grid :
  read_elev Scenarios.partial_grid 7.5%float 4%float = Some 101%float
  /\ read_elev Scenarios.partial_grid 22.5%float 4%float = None
  /\ read_elev Scenarios.partial_grid 31%float 4%float = None.
Proof. vm_compute. repeat split; reflexivity. Qed.

(** **** Sorting *)

Lemma sort_insert_perm (x : float) (rev_sorted : list float) :
  Permutation (sort_insert x rev_sorted) (x :: rev_sorted).
Proof.
  induction rev_sorted as [|y rest IH]; cbn [sort_insert]; [reflexivity|].
  destruct (PyFloat.lt x y); [|reflexivity].
  rewrite IH. apply perm_swap.
Qed.

Lemma list_sort_perm (l : list float) : Permutation (list_sort l) l.
Proof.
  unfold list_sort. rewrite <- Permutation_rev.
  assert (Hgen : forall acc,
             Permutation (fold_left (fun rev_sorted x => sort_insert x rev_sorted) l acc)
                         (acc ++ l)).
  { induction l as [|x rest IH]; intros acc; cbn [fold_left].
    - rewrite app_nil_r. reflexivity.
    - rewrite IH, sort_insert_perm. rewrite (Permutation_middle acc rest x). reflexivity. }
  exact (Hgen []).
Qed.

Lemma list_sort_length (l : list float) : length (list_sort l) = length l.
Proof. apply Permutation_length, list_sort_perm. Qed.

Lemma sort_insert_hd (y x : float) (rest : list float) :
  HdRel descending y rest -> descending y x -> HdRel descending y (sort_insert x rest).
Proof.
  intros Hhd Hyx. destruct rest as [|z rest']; cbn [sort_insert].
  - constructor. exact Hyx.
  - destruct (PyFloat.lt x z); constructor; [|exact Hyx].
    inversion Hhd; assumption.
Qed.

Lemma sort_insert_sorted (x : float) (rev_sorted : list float) :
  PyFloat.is_number x -> Forall PyFloat.is_number rev_sorted ->
  Sorted descending rev_sorted -> Sorted descending (sort_insert x rev_sorted).
Proof.
  intros Hx. induction rev_sorted as [|y rest IH]; intros Hnum Hs; cbn [sort_insert].
  - repeat constructor.
  - inversion Hnum as [|? ? Hy Hrest]; subst. inversion Hs as [|? ? Hs' Hhd]; subst.
    destruct (PyFloat.lt x y) eqn:Hlt.
    + constructor; [apply IH; assumption|].
      apply sort_insert_hd; [exact Hhd|]. apply float_lt_le. exact Hlt.
    + constructor; [exact Hs|]. constructor.
      apply float_not_lt_ge; assumption.
Qed.

(** On numbers, [list_sort] returns its input in ascending order. *)
Lemma list_sort_sorted (l : list float) :
  Forall PyFloat.is_number l ->
  Sorted (fun a b => PrimFloat.leb a b = true) (list_sort l).
Proof.
  intros Hnum. unfold list_sort. rewrite rev_alt.
  change (rev_append ?l []) with (reverse l).
  apply (Sorted_reverse descending).
  assert (Hgen : forall acc,
             Forall PyFloat.is_number acc -> Sorted descending acc ->
             Sorted descending (fold_left (fun rev_sorted x => sort_insert x rev_sorted) l acc)).
  { induction Hnum as [|x rest Hx Hrest IH]; intros acc Hacc Hs; cbn [fold_left]; [exact Hs|].
    apply IH.
    - apply (Permutation_Forall (x := x :: acc)).
      + symmetry. apply sort_insert_perm.
      + constructor; assumption.
    - apply sort_insert_sorted; assumption. }
  apply Hgen; constructor.
Qed.

Lemma filter_none {A} (f : A -> bool) (l : list A) :
  Forall (fun x => f x = false) l -> List.filter f l = [].
Proof.
  induction 1 as [|x rest Hx _ IH]; [reflexivity|].
  cbn [List.filter]. rewrite Hx. exact IH.
Qed.

Lemma filter_no_longer {A} (f : A -> bool) (l : list A) :
  (length (List.filter f l) <= length l)%nat.
Proof.
  induction l as [|x rest IH]; [reflexivity|].
  cbn [List.filter]. destruct (f x); cbn [length]; lia.
Qed.

Lemma filter_length_perm {A} (f : A -> bool) (l l' : list A) :
  Permutation l l' -> length (List.filter f l) = length (List.filter f l').
Proof.
  induction 1 as [|x l l' _ IH|x y l|l l' l'' _ IH1 _ IH2]; cbn [List.filter].
  - reflexivity.
  - destruct (f x); cbn [length]; congruence.
  - destruct (f x), (f y); reflexivity.
  - congruence.
Qed.

(** In an ascending list, only the k elements before index k can be below
    the element at index k, and only those after it above. *)
Lemma sorted_rank (l : list float) :
  StronglySorted (fun a b => PrimFloat.leb a b = true) l ->
  forall k x,
    l !! k = Some x ->
    (length (List.filter (fun d => PrimFloat.ltb d x) l) <= k)%nat
    /\ (length (List.filter (fun d => PrimFloat.ltb x d) l) <= length l - 1 - k)%nat.
Proof.
  induction 1 as [|y rest Hs IH Hall]; intros k x Hk; [discriminate|].
  destruct k as [|k].
  - injection Hk as <-. cbn [List.filter length]. rewrite float_lt_irrefl. split.
    + rewrite filter_none; [cbn; lia|].
      eapply Forall_impl; [exact Hall|]. intros e He. apply float_le_not_gt, He.
    + pose proof (filter_no_longer (fun d => PrimFloat.ltb y d) rest). lia.
  - cbn in Hk. destruct (IH k x Hk) as [Hlow Hhigh].
    assert (Hyx : PrimFloat.leb y x = true).
    { apply (proj1 (Forall_forall _ _) Hall x), list_elem_of_lookup. exists k. exact Hk. }
    assert (Hlen : (k < length rest)%nat) by (apply lookup_lt_is_Some; eexists; exact Hk).
    cbn [List.filter length]. rewrite (float_le_not_gt _ _ Hyx). split.
    + destruct (PrimFloat.ltb y x); cbn [length]; lia.
    + lia.
Qed.

(** On numbers, the difference at index n / 2 of the sorted list has at most
    n / 2 differences below it and at most (n - 1) / 2 above it. *)
Lemma middle_rank (deltas : list float) (delta : float) :
  Forall PyFloat.is_number deltas ->
  list_sort deltas !! (length deltas / 2)%nat = Some delta ->
  (length (List.filter (fun d => PrimFloat.ltb d delta) deltas) <= length deltas / 2)%nat
  /\ (length (List.filter (fun d => PrimFloat.ltb delta d) deltas)
      <= (length deltas - 1) / 2)%nat.
Proof.
  intros Hnum Hmid.
  pose proof (list_sort_sorted deltas Hnum) as Hsorted.
  apply Sorted.Sorted_StronglySorted in Hsorted;
    [|intros a b c; apply float_le_trans].
  destruct (sorted_rank _ Hsorted _ _ Hmid) as [Hlow Hhigh].
  rewrite (filter_length_perm _ _ _ (list_sort_perm deltas)) in Hlow.
  rewrite (filter_length_perm _ _ _ (list_sort_perm deltas)) in Hhigh.
  rewrite list_sort_length in Hhigh.
  split; [exact Hlow|].
  assert (Hn : (length deltas / 2 < length deltas)%nat).
  { rewrite <- (list_sort_length deltas) at 2.
    apply lookup_lt_is_Some. eexists; exact Hmid. }
  pose proof (Nat.div_mod (length deltas) 2 ltac:(lia)) as Hdm.
  pose proof (Nat.mod_upper_bound (length deltas) 2 ltac:(lia)) as Hr.
  assert ((length deltas - 1 - length deltas / 2 <= (length deltas - 1) / 2)%nat);
    [|lia].
  apply Nat.div_le_lower_bound; lia.
Qed.

(** The element that [delta_value] rounds. *)
Lemma delta_value_spec `{PyNum} (deltas : list float) :
  (deltas = [] -> delta_value deltas = VInt 0)
  /\ (deltas <> [] ->
      exists delta, list_sort deltas !! (length deltas / 2)%nat = Some delta
                    /\ delta_value deltas = VFloat (py_round delta 2)).
Proof.
  split; [intros ->; reflexivity|]. intros Hne.
  destruct deltas as [|d rest]; [contradiction|].
  unfold delta_value. rewrite list_sort_length.
  destruct (lookup_lt_is_Some_2 (list_sort (d :: rest)) (length (d :: rest) / 2)) as [delta Hd].
  - rewrite list_sort_length. apply Nat.div_lt; cbn; lia.
  - exists delta. rewrite Hd. split; reflexivity.
Qed.

(** **** One feature *)

Lemma lookup_set_prop_eq {J} (key : string) (v : pyval) (feat : Feature J) :
  properties (set_prop key v feat) !! key = Some v.
Proof. unfold set_prop. cbn [properties]. apply lookup_insert_eq. Qed.

Lemma lookup_set_prop_ne {J} (key key' : string) (v : pyval) (feat : Feature J) :
  key <> key' -> properties (set_prop key v feat) !! key' = properties feat !! key'.
Proof. intros Hne. unfold set_prop. cbn [properties]. apply lookup_insert_ne. exact Hne. Qed.

Lemma multi_sondage_stations (mnt : MNT) (axis : Axis) (fracs : list float) :
  forall deltas probes,
    multi_sondage mnt (ax_start axis) (ax_end axis) (fst (perp axis)) (snd (perp axis))
                  fracs deltas probes
    = (deltas ++ omap (station_delta mnt axis) fracs,
       probes ++ flat_map (fun frac => [fst (station axis frac); snd (station axis frac)]) fracs).
Proof.
  induction fracs as [|frac rest IH]; intros deltas probes.
  - cbn. rewrite !app_nil_r. reflexivity.
  - cbn [multi_sondage]. cbv zeta. rewrite IH. clear IH.
    cbn [omap list_omap flat_map]. unfold station_delta at 2. unfold station. cbn [fst snd].
    destruct (read_elev mnt _ _) as [a|]; cbn [mbind option_bind];
      [destruct (read_elev mnt _ _) as [b|]; cbn [mbind option_bind]|];
      rewrite <- ?app_assoc; reflexivity.
Qed.

Section Classify.
Context {J Geom : Type}.
Context `{Measured Geom, Decoder J Geom, Oriented Geom, PyNum}.

(** What the loop does with a feature that passes the three guards. *)
Lemma classify_scored (mnt : MNT) (feat : Feature J) (cnt : Counters) (geom : Geom)
      (axis : Axis) :
  shape (geometry feat) = Some geom ->
  is_empty geom = false -> is_valid geom = true ->
  sliver_test geom = Some false ->
  principal_axis geom = Some axis ->
  PyFloat.eq (ax_length axis) 0%float = false ->
  let perim := geom_length geom in
  let area := geom_area geom in
  let scored :=
    set_prop "de" (delta_value (station_deltas mnt axis))
             (set_prop "gc" (VFloat (round_gravelius perim area)) feat) in
  classify_feature mnt feat cnt
  = if PyFloat.gt (gravelius perim area) 5%float
    then (set_prop "t" (VInt 1) (set_prop "c" (VStr "t") scored),
          MkCounters (S (count_terrasse cnt)) (count_mur cnt) (count_err cnt) (count_sliver cnt),
          station_points axis)
    else (set_prop "t" (VInt 0) (set_prop "c" (VStr "m") scored),
          MkCounters (count_terrasse cnt) (S (count_mur cnt)) (count_err cnt) (count_sliver cnt),
          station_points axis).
Proof.
  intros Hshape Hempty Hvalid Hsliver Haxis Hlen. cbv zeta.
  unfold classify_feature, classify_try.
  rewrite Hshape. cbn [mbind option_bind]. rewrite Hempty, Hvalid. cbn [orb negb].
  rewrite Hsliver. cbn [mbind option_bind]. rewrite Haxis. cbn [mbind option_bind].
  rewrite Hlen. unfold PyFloat.div. unfold PyFloat.eq in Hlen. rewrite Hlen.
  cbn [mbind option_bind].
  pose proof (multi_sondage_stations mnt axis FRACS [] []) as Hprobe.
  unfold perp in Hprobe at 1 2. cbn [fst snd] in Hprobe. rewrite Hprobe. cbn [app].
  fold (station_deltas mnt axis). fold (station_points axis).
  destruct (PyFloat.gt (gravelius (geom_length geom) (geom_area geom)) 5%float); reflexivity.
Qed.

(** C2: a valid, non-empty polygon of positive area whose perimeter divided
    by the square root of its area exceeds 20 is labelled wall with delta 0
    and counted as a sliver and as a wall; nothing else of the classification
    runs: no compactness score is written, no axis is looked for, no
    elevation is sampled. *)
Theorem sliver_is_wall (mnt : MNT) (feat : Feature J) (cnt : Counters) (geom : Geom)
        (root : float) :
  shape (geometry feat) = Some geom ->
  is_empty geom = false -> is_valid geom = true ->
  PyFloat.gt (geom_area geom) 0%float = true ->
  float_pow (geom_area geom) 0.5%float = Some root ->
  PyFloat.eq root 0%float = false ->
  PyFloat.gt (geom_length geom / root)%float 20%float = true ->
  classify_feature mnt feat cnt
  = (set_prop "de" (VInt 0) (set_prop "c" (VStr "m") feat),
     MkCounters (count_terrasse cnt) (S (count_mur cnt)) (count_err cnt) (S (count_sliver cnt)),
     [])
  /\ properties (fst (fst (classify_feature mnt feat cnt))) !! "c" = Some (VStr "m")
  /\ properties (fst (fst (classify_feature mnt feat cnt))) !! "de" = Some (VInt 0)
  /\ properties (fst (fst (classify_feature mnt feat cnt))) !! "gc" = properties feat !! "gc".
Proof.
  intros Hshape Hempty Hvalid Harea Hroot Hroot0 Hratio.
  assert (Hrun : classify_feature mnt feat cnt
                 = (set_prop "de" (VInt 0) (set_prop "c" (VStr "m") feat),
                    MkCounters (count_terrasse cnt) (S (count_mur cnt)) (count_err cnt)
                               (S (count_sliver cnt)),
                    [])).
  { unfold classify_feature, classify_try.
    rewrite Hshape. cbn [mbind option_bind]. rewrite Hempty, Hvalid. cbn [orb negb].
    unfold sliver_test. rewrite Harea, Hroot. cbn [mbind option_bind].
    unfold PyFloat.div. unfold PyFloat.eq in Hroot0. rewrite Hroot0.
    cbn [mbind option_bind]. rewrite Hratio.
    reflexivity. }
  rewrite Hrun. cbn [fst]. split; [reflexivity|].
  rewrite lookup_set_prop_ne, lookup_set_prop_eq by discriminate.
  rewrite lookup_set_prop_eq.
  rewrite !lookup_set_prop_ne by discriminate.
  repeat split.
Qed.


(** Without a feature collection on disk the classification stage returns
    at once and changes nothing. *)
Lemma classification_skips_without_collection (disk : gmap string (file J)) (mnt : MNT) :
  disk !! FILE_GEOJSON = None ->
  etape_classification_mnt disk mnt = Some (disk, MkCounters 0 0 0 0).
Proof. intros Hmissing. unfold etape_classification_mnt. rewrite Hmissing. reflexivity. Qed.

(** C1: for a polygon that passes the guards (non-empty, valid, positive
    area, sliver ratio not above 20, principal axis of non-zero length) the
    label is terrace exactly when the compactness perimeter / (2 sqrt(pi
    area)) is strictly above 5.0, and wall otherwise; a compactness equal to
    5.0 gives wall. *)
Theorem compactness_decides (mnt : MNT) (feat : Feature J) (cnt : Counters) (geom : Geom)
        (axis : Axis) (root : float) :
  shape (geometry feat) = Some geom ->
  is_empty geom = false -> is_valid geom = true ->
  PyFloat.gt (geom_area geom) 0%float = true ->
  float_pow (geom_area geom) 0.5%float = Some root ->
  PyFloat.eq root 0%float = false ->
  PyFloat.gt (geom_length geom / root)%float 20%float = false ->
  principal_axis geom = Some axis ->
  PyFloat.eq (ax_length axis) 0%float = false ->
  let gc := (geom_length geom / (2 * PrimFloat.sqrt (PyFloat.np_pi * geom_area geom)))%float in
  let feat' := fst (fst (classify_feature mnt feat cnt)) in
  let cnt' := snd (fst (classify_feature mnt feat cnt)) in
  (properties feat' !! "c" = Some (VStr "t") <-> PyFloat.gt gc 5%float = true)
  /\ (properties feat' !! "c" = Some (VStr "m") <-> PyFloat.gt gc 5%float = false)
  /\ (PyFloat.eq gc 5%float = true -> properties feat' !! "c" = Some (VStr "m"))
  /\ (PyFloat.gt gc 5%float = true ->
      properties feat' !! "t" = Some (VInt 1)
      /\ cnt' = MkCounters (S (count_terrasse cnt)) (count_mur cnt) (count_err cnt)
                           (count_sliver cnt))
  /\ (PyFloat.gt gc 5%float = false ->
      properties feat' !! "t" = Some (VInt 0)
      /\ cnt' = MkCounters (count_terrasse cnt) (S (count_mur cnt)) (count_err cnt)
                           (count_sliver cnt)).
Proof.
  intros Hshape Hempty Hvalid Harea Hroot Hroot0 Hratio Haxis Hlen. cbv zeta.
  assert (Hsliver : sliver_test geom = Some false).
  { unfold sliver_test. rewrite Harea, Hroot. cbn [mbind option_bind].
    unfold PyFloat.div. unfold PyFloat.eq in Hroot0. rewrite Hroot0.
    cbn [mbind option_bind]. rewrite Hratio. reflexivity. }
  rewrite (classify_scored mnt feat cnt geom axis Hshape Hempty Hvalid Hsliver Haxis Hlen).
  unfold gravelius. rewrite Harea.
  assert (Heq : forall g, PyFloat.eq g 5%float = true -> PyFloat.gt g 5%float = false).
  { intros g Hg. unfold PyFloat.gt. apply float_eq_not_gt. exact Hg. }
  destruct (PyFloat.gt _ 5%float) eqn:Hgc; cbn [fst snd].
  - rewrite lookup_set_prop_eq, lookup_set_prop_ne, lookup_set_prop_eq by discriminate.
    repeat split; try (intros; congruence).
    intros Hfive. apply Heq in Hfive. congruence.
  - rewrite lookup_set_prop_eq, lookup_set_prop_ne, lookup_set_prop_eq by discriminate.
    repeat split; intros; congruence.
Qed.

(** C6, as amended: for a polygon that reaches the probe, elevation is
    sampled at the stations 25%, 50% and 75% of the principal axis, 5 units
    to either side along the unit perpendicular; the differences of the
    stations with two valid samples are sorted by the list's sort, which
    rearranges them, and the delta field holds the one at index n / 2 of the
    n sorted differences, rounded to two decimals, and the integer 0 when no
    station is valid. When none of the differences is NaN, the sorted list
    is ascending, and the recorded difference has at most n / 2 differences
    below it and at most (n - 1) / 2 above it: it is the median of one or
    three, and the larger of two. *)
Theorem probe_records_middle_difference (mnt : MNT) (feat : Feature J) (cnt : Counters)
        (geom : Geom) (axis : Axis) :
  shape (geometry feat) = Some geom ->
  is_empty geom = false -> is_valid geom = true ->
  sliver_test geom = Some false ->
  principal_axis geom = Some axis ->
  PyFloat.eq (ax_length axis) 0%float = false ->
  let feat' := fst (fst (classify_feature mnt feat cnt)) in
  let probes := snd (classify_feature mnt feat cnt) in
  let deltas := station_deltas mnt axis in
  probes = [fst (station axis 0.25%float); snd (station axis 0.25%float);
            fst (station axis 0.5%float); snd (station axis 0.5%float);
            fst (station axis 0.75%float); snd (station axis 0.75%float)]
  /\ deltas = omap (station_delta mnt axis) [0.25%float; 0.5%float; 0.75%float]
  /\ (deltas = [] -> properties feat' !! "de" = Some (VInt 0))
  /\ (deltas <> [] ->
      exists delta,
        list_sort deltas !! (length deltas / 2)%nat = Some delta
        /\ properties feat' !! "de" = Some (VFloat (py_round delta 2)))
  /\ Permutation (list_sort deltas) deltas
  /\ (Forall PyFloat.is_number deltas ->
      Sorted (fun a b => PrimFloat.leb a b = true) (list_sort deltas)
      /\ forall delta,
          list_sort deltas !! (length deltas / 2)%nat = Some delta ->
          (length (List.filter (fun d => PrimFloat.ltb d delta) deltas)
           <= length deltas / 2)%nat
          /\ (length (List.filter (fun d => PrimFloat.ltb delta d) deltas)
              <= (length deltas - 1) / 2)%nat).
Proof.
  intros Hshape Hempty Hvalid Hsliver Haxis Hlen. cbv zeta.
  rewrite (classify_scored mnt feat cnt geom axis Hshape Hempty Hvalid Hsliver Haxis Hlen).
  assert (Hde : forall (c t : pyval) k,
             properties (set_prop "t" t (set_prop "c" c
               (set_prop "de" (delta_value (station_deltas mnt axis))
                  (set_prop "gc" (VFloat (round_gravelius (geom_length geom) (geom_area geom)))
                            feat)))) !! "de" = Some k
             <-> delta_value (station_deltas mnt axis) = k).
  { intros c t k. rewrite !lookup_set_prop_ne by discriminate. rewrite lookup_set_prop_eq.
    split; congruence. }
  destruct (delta_value_spec (station_deltas mnt axis)) as [Hnone Hsome].
  assert (Hgoal : forall r : step (J := J),
             (r = (set_prop "t" (VInt 1) (set_prop "c" (VStr "t")
                    (set_prop "de" (delta_value (station_deltas mnt axis))
                       (set_prop "gc" (VFloat (round_gravelius (geom_length geom)
                                                                (geom_area geom))) feat))),
                   MkCounters (S (count_terrasse cnt)) (count_mur cnt) (count_err cnt)
                              (count_sliver cnt),
                   station_points axis)
              \/ r = (set_prop "t" (VInt 0) (set_prop "c" (VStr "m")
                    (set_prop "de" (delta_value (station_deltas mnt axis))
                       (set_prop "gc" (VFloat (round_gravelius (geom_length geom)
                                                                (geom_area geom))) feat))),
                   MkCounters (count_terrasse cnt) (S (count_mur cnt)) (count_err cnt)
                              (count_sliver cnt),
                   station_points axis)) ->
             snd r = station_points axis
             /\ properties (fst (fst r)) !! "de" = Some (delta_value (station_deltas mnt axis))).
  { intros r [-> | ->]; cbn [fst snd]; (split; [reflexivity|]); apply Hde; reflexivity. }
  match goal with
  | |- context [snd ?r] =>
      destruct (Hgoal r) as [Hprobes Hfield];
      [destruct (PyFloat.gt _ 5%float); [left|right]; reflexivity|]
  end.
  rewrite Hprobes, Hfield.
  split; [reflexivity|]. split; [reflexivity|].
  split; [intros Hnil; rewrite (Hnone Hnil); reflexivity|].
  split.
  - intros Hne. destruct (Hsome Hne) as (delta & Hd & Hv).
    exists delta. split; [exact Hd|]. rewrite Hv. reflexivity.
  - split; [apply list_sort_perm|]. intros Hnum.
    split; [apply list_sort_sorted; exact Hnum|].
    intros delta Hmid. apply middle_rank; assumption.
Qed.

End Classify.

End ClassifierProofs.

Module ClassifierExamples.
Import Classifier Reference Parcels Scenarios.

Lemma compactness_decides_witness :
  let feat := feature_of boundary_parcel in
  let root := PrimFloat.sqrt (1 / PyFloat.np_pi)%float in
  (shape (geometry feat) = Some boundary_parcel
   /\ is_empty boundary_parcel = false /\ is_valid boundary_parcel = true
   /\ PyFloat.gt (geom_area boundary_parcel) 0%float = true
   /\ float_pow (geom_area boundary_parcel) 0.5%float = Some root
   /\ PyFloat.eq root 0%float = false
   /\ PyFloat.gt (geom_length boundary_parcel / root)%float 20%float = false
   /\ principal_axis boundary_parcel = Some long_axis
   /\ PyFloat.eq (ax_length long_axis) 0%float = false)
  /\ let gc := (geom_length boundary_parcel
                / (2 * PrimFloat.sqrt (PyFloat.np_pi * geom_area boundary_parcel)))%float in
     let feat' := fst (fst (classify_feature full_grid feat no_counts)) in
     let cnt' := snd (fst (classify_feature full_grid feat no_counts)) in
     (properties feat' !! "c" = Some (VStr "t") <-> PyFloat.gt gc 5%float = true)
     /\ (properties feat' !! "c" = Some (VStr "m") <-> PyFloat.gt gc 5%float = false)
     /\ (PyFloat.eq gc 5%float = true -> properties feat' !! "c" = Some (VStr "m"))
     /\ (PyFloat.gt gc 5%float = true ->
         properties feat' !! "t" = Some (VInt 1)
         /\ cnt' = MkCounters (S (count_terrasse no_counts)) (count_mur no_counts)
                              (count_err no_counts) (count_sliver no_counts))
     /\ (PyFloat.gt gc 5%float = false ->
         properties feat' !! "t" = Some (VInt 0)
         /\ cnt' = MkCounters (count_terrasse no_counts) (S (count_mur no_counts))
                              (count_err no_counts) (count_sliver no_counts)).
Proof.
  intros feat root.
  assert (H1 : shape (geometry feat) = Some boundary_parcel) by reflexivity.
  assert (H2 : is_empty boundary_parcel = false) by reflexivity.
  assert (H3 : is_valid boundary_parcel = true) by reflexivity.
  assert (H4 : PyFloat.gt (geom_area boundary_parcel) 0%float = true) by (vm_compute; reflexivity).
  assert (H5 : float_pow (geom_area boundary_parcel) 0.5%float = Some root)
    by (vm_compute; reflexivity).
  assert (H5' : PyFloat.eq root 0%float = false) by (vm_compute; reflexivity).
  assert (H6 : PyFloat.gt (geom_length boundary_parcel / root)%float 20%float = false)
    by (vm_compute; reflexivity).
  assert (H7 : principal_axis boundary_parcel = Some long_axis) by (vm_compute; reflexivity).
  assert (H8 : PyFloat.eq (ax_length long_axis) 0%float = false) by (vm_compute; reflexivity).
  split; [repeat split; assumption|].
  exact (ClassifierProofs.compactness_decides full_grid feat no_counts boundary_parcel
           long_axis root H1 H2 H3 H4 H5 H5' H6 H7 H8).
Defined.

(** The boundary itself: a compactness of exactly 5.0 is a wall, and the
    elongated parcel is a terrace. *)
Example boundary_is_wall :
  gravelius 10%float (1 / PyFloat.np_pi)%float = 5%float
  /\ properties (fst (fst (classify_feature full_grid (feature_of boundary_parcel) no_counts)))
       !! "c" = Some (VStr "m")
  /\ properties (fst (fst (classify_feature full_grid (feature_of terrace_parcel) no_counts)))
       !! "c" = Some (VStr "t").
Proof. vm_compute. repeat split; reflexivity. Qed.

Lemma sliver_is_wall_witness :
  let feat := feature_of sliver_parcel in
  (shape (geometry feat) = Some sliver_parcel
   /\ is_empty sliver_parcel = false /\ is_valid sliver_parcel = true
   /\ PyFloat.gt (geom_area sliver_parcel) 0%float = true
   /\ float_pow (geom_area sliver_parcel) 0.5%float = Some 2%float
   /\ PyFloat.eq 2%float 0%float = false
   /\ PyFloat.gt (geom_length sliver_parcel / 2)%float 20%float = true
   /\ PyFloat.gt (gravelius (geom_length sliver_parcel) (geom_area sliver_parcel)) 5%float = true)
  /\ classify_feature full_grid feat no_counts
     = (set_prop "de" (VInt 0) (set_prop "c" (VStr "m") feat),
        MkCounters (count_terrasse no_counts) (S (count_mur no_counts)) (count_err no_counts)
                   (S (count_sliver no_counts)),
        [])
  /\ properties (fst (fst (classify_feature full_grid feat no_counts))) !! "c" = Some (VStr "m")
  /\ properties (fst (fst (classify_feature full_grid feat no_counts))) !! "de" = Some (VInt 0)
  /\ properties (fst (fst (classify_feature full_grid feat no_counts))) !! "gc"
     = properties feat !! "gc".
Proof.
  intros feat.
  assert (H1 : shape (geometry feat) = Some sliver_parcel) by reflexivity.
  assert (H2 : is_empty sliver_parcel = false) by reflexivity.
  assert (H3 : is_valid sliver_parcel = true) by reflexivity.
  assert (H4 : PyFloat.gt (geom_area sliver_parcel) 0%float = true) by (vm_compute; reflexivity).
  assert (H5 : float_pow (geom_area sliver_parcel) 0.5%float = Some 2%float)
    by (vm_compute; reflexivity).
  assert (H5' : PyFloat.eq 2%float 0%float = false) by (vm_compute; reflexivity).
  assert (H6 : PyFloat.gt (geom_length sliver_parcel / 2)%float 20%float = true)
    by (vm_compute; reflexivity).
  split; [repeat split; try assumption; vm_compute; reflexivity|].
  exact (ClassifierProofs.sliver_is_wall full_grid feat no_counts sliver_parcel 2%float
           H1 H2 H3 H4 H5 H5' H6).
Defined.



Example speck_counters :
  snd (fst (classify_feature full_grid (feature_of speck_parcel) no_counts))
  = MkCounters 0 0 1 0.
Proof. vm_compute. reflexivity. Qed.

Lemma probe_records_middle_difference_witness :
  let feat := feature_of long_parcel in
  (shape (geometry feat) = Some long_parcel
   /\ is_empty long_parcel = false /\ is_valid long_parcel = true
   /\ sliver_test long_parcel = Some false
   /\ principal_axis long_parcel = Some long_axis
   /\ PyFloat.eq (ax_length long_axis) 0%float = false)
  /\ let feat' := fst (fst (classify_feature full_grid feat no_counts)) in
     let probes := snd (classify_feature full_grid feat no_counts) in
     let deltas := station_deltas full_grid long_axis in
     probes = [fst (station long_axis 0.25%float); snd (station long_axis 0.25%float);
               fst (station long_axis 0.5%float); snd (station long_axis 0.5%float);
               fst (station long_axis 0.75%float); snd (station long_axis 0.75%float)]
     /\ deltas = omap (station_delta full_grid long_axis) [0.25%float; 0.5%float; 0.75%float]
     /\ (deltas = [] -> properties feat' !! "de" = Some (VInt 0))
     /\ (deltas <> [] ->
         exists delta,
           list_sort deltas !! (length deltas / 2)%nat = Some delta
           /\ properties feat' !! "de" = Some (VFloat (py_round delta 2)))
     /\ Permutation (list_sort deltas) deltas
     /\ (Forall PyFloat.is_number deltas ->
         Sorted (fun a b => PrimFloat.leb a b = true) (list_sort deltas)
         /\ forall delta,
             list_sort deltas !! (length deltas / 2)%nat = Some delta ->
             (length (List.filter (fun d => PrimFloat.ltb d delta) deltas)
              <= length deltas / 2)%nat
             /\ (length (List.filter (fun d => PrimFloat.ltb delta d) deltas)
                 <= (length deltas - 1) / 2)%nat).
Proof.
  intros feat.
  assert (H1 : shape (geometry feat) = Some long_parcel) by reflexivity.
  assert (H2 : is_empty long_parcel = false) by reflexivity.
  assert (H3 : is_valid long_parcel = true) by reflexivity.
  assert (H4 : sliver_test long_parcel = Some false) by (vm_compute; reflexivity).
  assert (H5 : principal_axis long_parcel = Some long_axis) by (vm_compute; reflexivity).
  assert (H6 : PyFloat.eq (ax_length long_axis) 0%float = false) by (vm_compute; reflexivity).
  split; [repeat split; assumption|].
  exact (ClassifierProofs.probe_records_middle_difference full_grid feat no_counts long_parcel
           long_axis H1 H2 H3 H4 H5 H6).
Defined.

(** With three valid stations the recorded delta is the median of 1, 3
    and 2. *)
Example three_stations_record_the_median :
  station_deltas full_grid long_axis = [1; 3; 2]%float
  /\ properties (fst (fst (classify_feature full_grid (feature_of long_parcel) no_counts)))
       !! "de" = Some (VFloat 2%float).
Proof. vm_compute. split; reflexivity. Qed.

(** C6, as stated, fails when exactly two stations are valid: the
    differences are 1 and 3, their median is 2, and the delta field holds
    3. *)
Lemma two_stations_record_the_larger :
  ~ records_median partial_grid (feature_of long_parcel) no_counts long_axis.
Proof.
  intros [_ Hde]. vm_compute in Hde. discriminate.
Qed.

Example two_stations_values :
  principal_axis long_parcel = Some long_axis
  /\ station_points long_axis
     = [(7.5, 4); (7.5, -6); (15, 4); (15, -6); (22.5, 4); (22.5, -6)]%float
  /\ station_deltas partial_grid long_axis = [1; 3]%float
  /\ median_delta [1; 3]%float = VFloat 2%float
  /\ properties (fst (fst (classify_feature partial_grid (feature_of long_parcel) no_counts)))
       !! "de" = Some (VFloat 3%float).
Proof. vm_compute. repeat split; reflexivity. Qed.

(** With a difference that is not a number the sort only rearranges the
    list: no order holds, and the difference at index n / 2 need not be a
    median. *)
Example nan_difference_is_not_ordered :
  list_sort [nan; 2%float; 1%float] = [nan; 1%float; 2%float]
  /\ delta_value [nan; 2%float; 1%float] = VFloat 1%float
  /\ delta_value [3%float; nan] = VFloat nan.
Proof. vm_compute. repeat split; reflexivity. Qed.

(** C7 fails on a grid whose no-data value is NaN: the pixel without data
    does not compare equal to the no-data value, nor below -100, nor above
    5000, and is returned as a reading; its station adds a difference to the
    list, and the delta field holds NaN. *)
Theorem nodata_nan_is_a_reading :
  mnt_nodata nan_grid = Some nan
  /\ mnt_index nan_grid 15%float 4%float = (0, 1)
  /\ mnt_read nan_grid 1 0 = nan
  /\ read_elev nan_grid 15%float 4%float = Some nan
  /\ station_deltas nan_grid long_axis = [1%float; nan; 1%float]
  /\ properties (fst (fst (classify_feature nan_grid (feature_of long_parcel) no_counts)))
       !! "de" = Some (VFloat nan).
Proof. vm_compute. repeat split; reflexivity. Qed.

End ClassifierExamples.

(* ---------------------------------------------------------------------- *)
(** *** The classification loop as a whole *)

Module ClassifierLoopProofs.
Import Classifier Exits.

Section Loop.
Context {J Geom : Type}.
Context `{Measured Geom, Decoder J Geom, Oriented Geom, PyNum}.

(** Every iteration ends by one of the five exits. *)
Lemma classify_feature_exit (mnt : MNT) (feat : Feature J) (cnt : Counters) :
  exit feat cnt (classify_feature mnt feat cnt).
Proof.
  unfold classify_feature, classify_try.
  destruct (shape (geometry feat)) as [geom|]; cbn [mbind option_bind]; [|constructor].
  destruct (is_empty geom || negb (is_valid geom)); [constructor|].
  destruct (sliver_test geom) as [[|]|]; cbn [mbind option_bind]; try constructor.
  destruct (principal_axis geom) as [axis|]; cbn [mbind option_bind]; [|constructor].
  destruct (PyFloat.eq (ax_length axis) 0%float); [constructor|].
  destruct (PyFloat.div (- ax_dy axis)%float (ax_length axis)) as [perp_x|];
    cbn [mbind option_bind]; [|constructor].
  destruct (PyFloat.div (ax_dx axis) (ax_length axis)) as [perp_y|];
    cbn [mbind option_bind]; [|constructor].
  destruct (multi_sondage mnt (ax_start axis) (ax_end axis) perp_x perp_y FRACS [] [])
    as [deltas probes].
  destruct (PyFloat.gt _ 5%float); constructor.
Qed.

Lemma exit_counts (feat : Feature J) (cnt : Counters) (r : step (J := J)) :
  exit feat cnt r ->
  let cnt' := snd (fst r) in
  (count_terrasse cnt' + count_mur cnt' + count_err cnt'
   = S (count_terrasse cnt + count_mur cnt + count_err cnt))%nat
  /\ (count_terrasse cnt <= count_terrasse cnt')%nat
  /\ (count_mur cnt <= count_mur cnt')%nat
  /\ (count_err cnt <= count_err cnt')%nat
  /\ (count_sliver cnt <= count_sliver cnt')%nat
  /\ (count_sliver cnt' - count_sliver cnt <= count_mur cnt' - count_mur cnt)%nat.
Proof. destruct 1; cbn; lia. Qed.

Lemma exit_feature (feat : Feature J) (cnt : Counters) (r : step (J := J)) :
  exit feat cnt r ->
  let feat' := fst (fst r) in
  geometry feat' = geometry feat
  /\ (properties feat' !! "c" = Some (VStr "t") \/ properties feat' !! "c" = Some (VStr "m"))
  /\ is_Some (properties feat' !! "de")
  /\ (properties feat' !! "c" = Some (VStr "t") ->
      properties feat' !! "t" = Some (VInt 1) /\ is_Some (properties feat' !! "gc"))
  /\ (forall key, ~ written_key key -> properties feat' !! key = properties feat !! key).
Proof.
  unfold written_key.
  destruct 1; cbn [fst snd]; (split; [reflexivity|]).
  all: unfold set_prop; cbn [properties].
  all: rewrite ?lookup_insert_eq;
       repeat (rewrite lookup_insert_ne by discriminate; rewrite ?lookup_insert_eq).
  all: split; [first [left; reflexivity | right; reflexivity]|].
  all: split; [eexists; reflexivity|].
  all: split; [intros Hc; first [discriminate | split; [reflexivity|eexists; reflexivity]]|].
  all: intros key Hkey; rewrite !lookup_insert_ne; [reflexivity|..];
       intros <-; apply Hkey; tauto.
Qed.

Lemma classify_all_cons (mnt : MNT) (feat : Feature J) (rest : list (Feature J))
      (cnt : Counters) :
  classify_all mnt (feat :: rest) cnt
  = (fst (fst (classify_feature mnt feat cnt))
       :: fst (classify_all mnt rest (snd (fst (classify_feature mnt feat cnt)))),
     snd (classify_all mnt rest (snd (fst (classify_feature mnt feat cnt))))).
Proof.
  cbn [classify_all]. destruct (classify_feature mnt feat cnt) as [[feat' cnt'] probes].
  cbn [fst snd]. destruct (classify_all mnt rest cnt'). reflexivity.
Qed.

Lemma classify_all_counts (mnt : MNT) (features_list : list (Feature J)) :
  forall cnt,
    let cnt' := snd (classify_all mnt features_list cnt) in
    (count_terrasse cnt' + count_mur cnt' + count_err cnt'
     = count_terrasse cnt + count_mur cnt + count_err cnt + length features_list)%nat
    /\ (count_terrasse cnt <= count_terrasse cnt')%nat
    /\ (count_mur cnt <= count_mur cnt')%nat
    /\ (count_err cnt <= count_err cnt')%nat
    /\ (count_sliver cnt <= count_sliver cnt')%nat
    /\ (count_sliver cnt' - count_sliver cnt <= count_mur cnt' - count_mur cnt)%nat.
Proof.
  induction features_list as [|feat rest IH]; intros cnt; cbv zeta.
  - cbn. lia.
  - rewrite classify_all_cons. cbn [snd length].
    pose proof (exit_counts feat cnt _ (classify_feature_exit mnt feat cnt)) as Hone.
    cbv zeta in Hone.
    specialize (IH (snd (fst (classify_feature mnt feat cnt)))). cbv zeta in IH.
    lia.
Qed.

(** What the loop leaves of a feature. *)
Lemma classify_all_features (mnt : MNT) (features_list : list (Feature J)) :
  forall cnt,
    Forall2 (fun feat feat' => exists cnt0 r, exit feat cnt0 r /\ feat' = fst (fst r))
            features_list (fst (classify_all mnt features_list cnt)).
Proof.
  induction features_list as [|feat rest IH]; intros cnt.
  - constructor.
  - rewrite classify_all_cons. cbn [fst]. constructor; [|apply IH].
    exists cnt, (classify_feature mnt feat cnt).
    split; [apply classify_feature_exit|reflexivity].
Qed.

(** X9: the loop counts every feature exactly once, as a terrace, a wall or
    an error: the three counters grow together by the number of features and
    none decreases; the sliver counter grows only together with the wall
    counter. *)
Theorem every_feature_counted_once (mnt : MNT) (features_list : list (Feature J))
        (cnt : Counters) :
  let cnt' := snd (classify_all mnt features_list cnt) in
  (count_terrasse cnt' + count_mur cnt' + count_err cnt'
   = count_terrasse cnt + count_mur cnt + count_err cnt + length features_list)%nat
  /\ (count_terrasse cnt <= count_terrasse cnt')%nat
  /\ (count_mur cnt <= count_mur cnt')%nat
  /\ (count_err cnt <= count_err cnt')%nat
  /\ (count_sliver cnt <= count_sliver cnt')%nat
  /\ (count_sliver cnt' - count_sliver cnt <= count_mur cnt' - count_mur cnt)%nat.
Proof. exact (classify_all_counts mnt features_list cnt). Qed.

(** X10: the loop returns the features in order, one for one, each with
    its geometry unchanged, a label c that is 't' or 'm' and a delta de; a
    feature labelled 't' has t = 1 and a score gc; every property other than
    c, t, de and gc keeps its value. *)
Theorem every_feature_labelled (mnt : MNT) (features_list : list (Feature J))
        (cnt : Counters) :
  let classified := fst (classify_all mnt features_list cnt) in
  length classified = length features_list
  /\ Forall2
       (fun feat feat' =>
          geometry feat' = geometry feat
          /\ (properties feat' !! "c" = Some (VStr "t")
              \/ properties feat' !! "c" = Some (VStr "m"))
          /\ is_Some (properties feat' !! "de")
          /\ (properties feat' !! "c" = Some (VStr "t") ->
              properties feat' !! "t" = Some (VInt 1) /\ is_Some (properties feat' !! "gc"))
          /\ (forall key, ~ written_key key ->
                          properties feat' !! key = properties feat !! key))
       features_list classified.
Proof.
  cbv zeta. pose proof (classify_all_features mnt features_list cnt) as Hall.
  split; [symmetry; exact (Forall2_length _ _ _ Hall)|].
  eapply Forall2_impl; [exact Hall|].
  intros feat feat' (cnt0 & r & Hexit & ->).
  exact (exit_feature feat cnt0 r Hexit).
Qed.

(** X11: a feature whose geometry is empty or invalid is labelled 'm' with
    delta 0 and counted as an error, not as a wall; its t and gc keep the
    values the exporter gave them, no axis is looked for and no elevation is
    sampled. *)
Theorem invalid_geometry_is_error (mnt : MNT) (feat : Feature J) (cnt : Counters)
        (geom : Geom) :
  shape (geometry feat) = Some geom ->
  is_empty geom = true \/ is_valid geom = false ->
  classify_feature mnt feat cnt
  = (set_prop "de" (VInt 0) (set_prop "c" (VStr "m") feat),
     MkCounters (count_terrasse cnt) (count_mur cnt) (S (count_err cnt)) (count_sliver cnt),
     [])
  /\ properties (fst (fst (classify_feature mnt feat cnt))) !! "t" = properties feat !! "t"
  /\ properties (fst (fst (classify_feature mnt feat cnt))) !! "gc" = properties feat !! "gc".
Proof.
  intros Hshape Hbad.
  assert (Hguard : is_empty geom || negb (is_valid geom) = true).
  { destruct Hbad as [-> | ->]; [reflexivity|]. apply orb_true_r. }
  assert (Hrun : classify_feature mnt feat cnt
                 = (set_prop "de" (VInt 0) (set_prop "c" (VStr "m") feat),
                    MkCounters (count_terrasse cnt) (count_mur cnt) (S (count_err cnt))
                               (count_sliver cnt),
                    [])).
  { unfold classify_feature, classify_try. rewrite Hshape. cbn [mbind option_bind].
    rewrite Hguard. reflexivity. }
  rewrite Hrun. cbn [fst]. split; [reflexivity|].
  unfold set_prop. cbn [properties].
  rewrite !lookup_insert_ne by discriminate. split; reflexivity.
Qed.

(** X12: a valid, non-empty polygon that is no sliver but whose minimum
    rotated rectangle has no exterior ring, or fewer than three coordinates,
    makes the iteration raise: the handler labels it 'm' with t = 0 and delta
    0 and counts it as an error. *)
Theorem missing_rectangle_is_error (mnt : MNT) (feat : Feature J) (cnt : Counters)
        (geom : Geom) :
  shape (geometry feat) = Some geom ->
  is_empty geom = false -> is_valid geom = true ->
  sliver_test geom = Some false ->
  (minimum_rotated_rectangle_coords geom = None
   \/ exists coords_mrr, minimum_rotated_rectangle_coords geom = Some coords_mrr
                         /\ (length coords_mrr < 3)%nat) ->
  classify_feature mnt feat cnt
  = (set_prop "de" (VInt 0) (set_prop "t" (VInt 0) (set_prop "c" (VStr "m") feat)),
     MkCounters (count_terrasse cnt) (count_mur cnt) (S (count_err cnt)) (count_sliver cnt),
     []).
Proof.
  intros Hshape Hempty Hvalid Hsliver Hmrr.
  assert (Haxis : principal_axis geom = None).
  { unfold principal_axis. destruct Hmrr as [-> | (coords_mrr & -> & Hlen)]; [reflexivity|].
    cbn [mbind option_bind].
    destruct coords_mrr as [|c0 [|c1 [|c2 rest]]]; cbn in *; try reflexivity. lia. }
  unfold classify_feature, classify_try. rewrite Hshape. cbn [mbind option_bind].
  rewrite Hempty, Hvalid. cbn [orb negb]. rewrite Hsliver. cbn [mbind option_bind].
  rewrite Haxis. reflexivity.
Qed.

(** X13: with a feature collection and an elevation grid on disk, the
    stage rewrites the collection under the same name and reference system
    with as many features, in the loop's order, writes the dashboard file and
    touches no other file; the terraces, walls and errors it reports add up
    to the number of features. *)
Theorem classification_rewrites_collection (disk : gmap string (file J)) (mnt : MNT)
        (fc : FeatureCollection J) (raster : file J) :
  disk !! FILE_GEOJSON = Some (GeoJSONFile fc) ->
  disk !! FILE_MNT = Some raster ->
  exists disk' cnt fc',
    etape_classification_mnt disk mnt = Some (disk', cnt)
    /\ disk' !! FILE_GEOJSON = Some (GeoJSONFile fc')
    /\ fc_name fc' = fc_name fc /\ fc_crs fc' = fc_crs fc
    /\ features fc' = fst (classify_all mnt (features fc) (MkCounters 0 0 0 0))
    /\ length (features fc') = length (features fc)
    /\ disk' !! FILE_DASHBOARD = Some JsonFile
    /\ (forall path, path <> FILE_GEOJSON -> path <> FILE_DASHBOARD ->
                     disk' !! path = disk !! path)
    /\ (count_terrasse cnt + count_mur cnt + count_err cnt = length (features fc))%nat.
Proof.
  intros Hgeo Hmnt. unfold etape_classification_mnt. rewrite Hgeo, Hmnt.
  pose proof (classify_all_counts mnt (features fc) (MkCounters 0 0 0 0)) as Hcounts.
  pose proof (classify_all_features mnt (features fc) (MkCounters 0 0 0 0)) as Hfeats.
  apply Forall2_length in Hfeats.
  destruct (classify_all mnt (features fc) (MkCounters 0 0 0 0)) as [classified cnt].
  cbn [fst snd] in *.
  eexists _, cnt, _. split; [reflexivity|].
  rewrite lookup_insert_ne by discriminate. rewrite lookup_insert_eq.
  split; [reflexivity|]. cbn [fc_name fc_crs features].
  split; [reflexivity|]. split; [reflexivity|]. split; [reflexivity|].
  split; [symmetry; exact Hfeats|].
  rewrite lookup_insert_eq. split; [reflexivity|].
  split; [|cbn in Hcounts; lia].
  intros path Hp1 Hp2. rewrite !lookup_insert_ne by congruence. reflexivity.
Qed.

End Loop.
End ClassifierLoopProofs.

(* ---------------------------------------------------------------------- *)
(** *** Integers read off floats *)

Lemma digits2_pos_size (m : positive) : digits2_pos m = Pos.size m.
Proof. induction m as [m IH|m IH|]; cbn; rewrite ?IH; reflexivity. Qed.

(** The mantissa of a normal binary64 number has 53 bits. *)
Lemma mantissa_53 (m : positive) (e : Z) :
  bounded prec emax m e = true -> -1074 < e ->
  4503599627370496 <= Zpos m < 9007199254740992.
Proof.
  unfold bounded, canonical_mantissa, fexp, emin, emax, prec.
  intros Hb He. apply andb_true_iff in Hb. destruct Hb as [Hc _].
  apply Z.eqb_eq in Hc. rewrite digits2_pos_size in Hc.
  assert (Hsize : Pos.size m = 53%positive) by lia.
  pose proof (Pos.size_gt m) as Hgt. pose proof (Pos.size_le m) as Hle.
  rewrite Hsize in Hgt, Hle.
  change (2 ^ 53)%positive with 9007199254740992%positive in Hgt, Hle.
  assert (Hgt' : Z.pos m < 9007199254740992) by exact Hgt.
  assert (Hle' : 9007199254740992 <= Z.pos (m~0)) by exact Hle.
  rewrite Pos2Z.inj_xO in Hle'. clear Hgt Hle Hsize Hc.
  lia.
Qed.

Lemma sf_not_lt_finite (s : bool) (m : positive) (e : Z) (m0 : positive) (e0 : Z) :
  SFltb (S754_finite s m e) (S754_finite false m0 e0) = false ->
  s = false /\ e0 <= e /\ (e = e0 -> Z.pos m0 <= Z.pos m).
Proof.
  unfold SFltb, SFcompare. destruct s; [discriminate|].
  sf_compare_cases; repeat split; try lia; intros; try lia.
Qed.

Lemma sf_not_gt_finite (s : bool) (m : positive) (e : Z) (m0 : positive) (e0 : Z) :
  SFltb (S754_finite false m0 e0) (S754_finite s m e) = false ->
  s = false -> e <= e0 /\ (e = e0 -> Z.pos m <= Z.pos m0).
Proof.
  unfold SFltb, SFcompare. intros H ->. revert H.
  sf_compare_cases; repeat split; try lia; intros; try lia.
Qed.

(** A float that is neither below 20 nor above 10000 and has an integer part
    has it between 20 and 10000. *)
Lemma py_int_between (x : float) (a : Z) :
  PrimFloat.ltb x 20%float = false -> PrimFloat.ltb 10000%float x = false ->
  py_int x = Some a -> 20 <= a <= 10000.
Proof.
  rewrite !FloatAxioms.ltb_spec. unfold py_int.
  pose proof (Prim2SF_valid x) as Hvalid.
  assert (E20 : Prim2SF 20%float = S754_finite false 5629499534213120 (-48))
    by (vm_compute; reflexivity).
  assert (E10000 : Prim2SF 10000%float = S754_finite false 5497558138880000 (-39))
    by (vm_compute; reflexivity).
  rewrite E20, E10000. clear E20 E10000.
  destruct (Prim2SF x) as [s|s| |s m e]; try discriminate.
  intros H1 H2 [= <-].
  destruct (sf_not_lt_finite _ _ _ _ _ H1) as (-> & He1 & Hlo).
  destruct (sf_not_gt_finite _ _ _ _ _ H2 eq_refl) as (He2 & Hhi).
  clear H1 H2.
  cbn [valid_binary] in Hvalid.
  pose proof (mantissa_53 m e Hvalid ltac:(lia)) as Hm. clear Hvalid.
  cbn [cond_Zopp].
  rewrite Z.shiftl_div_pow2 by lia.
  assert (Hcases : e = -48 \/ e = -47 \/ e = -46 \/ e = -45 \/ e = -44 \/ e = -43
                    \/ e = -42 \/ e = -41 \/ e = -40 \/ e = -39) by lia.
  destruct Hcases as [->|[->|[->|[->|[->|[->|[->|[->|[->| ->]]]]]]]]].
  all: try specialize (Hlo eq_refl); try specialize (Hhi eq_refl).
  all: clear He1 He2.
  all: match goal with
       | |- context [2 ^ ?k] =>
           let v := eval vm_compute in (2 ^ k) in change (2 ^ k) with v
       end.
  all: split; [apply Z.div_le_lower_bound | apply Z.div_le_upper_bound]; lia.
Qed.

(* ---------------------------------------------------------------------- *)
(** *** Batches and workers *)

Module WorkerProofs.
Import TileVectorizer.

(** X2: the slices [l[i:i+n] for i in range(0, len(l), n)], which cut the
    windows into batches and the polygons into fallback chunks, lose and
    repeat nothing: put end to end they give the list back; there are
    ceil(len / n) of them; slice i is the n elements from position i * n, and
    every slice but the last has exactly n elements, none is empty. *)
Theorem slices_partition {A} (n : nat) (l : list A) :
  (0 < n)%nat ->
  concat (chunks n l) = l
  /\ length (chunks n l) = Nat.div (length l + (n - 1)) n
  /\ (forall i slice,
        chunks n l !! i = Some slice ->
        slice = take n (drop (i * n) l)
        /\ (0 < length slice <= n)%nat
        /\ (S i < length (chunks n l) -> length slice = n)%nat).
Proof.
  intros Hn. split; [apply chunks_concat; exact Hn|].
  assert (Hlen : length (chunks n l) = Nat.div (length l + (n - 1)) n).
  { rewrite chunks_slices, length_map, length_seq. reflexivity. }
  split; [exact Hlen|].
  intros i slice Hi. rewrite Hlen.
  rewrite chunks_slices in Hi.
  change (List.map ?f ?xs) with (f <$> xs) in Hi.
  rewrite list_lookup_fmap in Hi.
  destruct (seq 0 (Nat.div (length l + (n - 1)) n) !! i) as [k|] eqn:Hk; [|discriminate].
  apply lookup_seq in Hk. destruct Hk as [-> Hlt]. cbn in Hi. injection Hi as <-.
  pose proof (py_range_covers (length l) n Hn) as [_ Hcover].
  pose proof (Hcover i Hlt) as Hi0.
  split; [reflexivity|]. rewrite length_take, length_drop.
  split; [lia|]. intros Hnext. pose proof (Hcover (S i) Hnext) as Hi1. lia.
Qed.

Section Worker.
Context {J Geom : Type}.
Context `{Measured Geom, Decoder J Geom, Smoother Geom, Tracer J}.

(** The polygons one window adds to the list. *)
Lemma process_window_appends (read : Window -> option (ndarray Z)) (min_area : float)
      (pad : nat) (simplify_tol : float) (polys : list Geom) (window : Window) :
  process_window read min_area pad simplify_tol polys window
  = found ← process_window read min_area pad simplify_tol [] window; Some (polys ++ found).
Proof.
  unfold process_window. destruct (read (padded pad window)) as [data|]; [|reflexivity].
  cbn [mbind option_bind]. destruct (negb (Np.any (Z.eqb 1) data)).
  - cbn. rewrite app_nil_r. reflexivity.
  - cbn [mbind option_bind].
    rewrite (TileVectorizerProofs.collect_shapes_regionwise _ _ _ polys).
    rewrite (TileVectorizerProofs.collect_shapes_regionwise _ _ _ []).
    reflexivity.
Qed.

Lemma process_windows_failed (read : Window -> option (ndarray Z)) (min_area : float)
      (pad : nat) (simplify_tol : float) (windows_batch : list Window) (window : Window) :
  window ∈ windows_batch -> read (padded pad window) = None ->
  forall polys, process_windows read min_area pad simplify_tol windows_batch polys = None.
Proof.
  intros Hin Hread. induction windows_batch as [|w rest IH]; intros polys.
  - inversion Hin.
  - cbn [process_windows].
    destruct (process_window read min_area pad simplify_tol polys w) as [polys'|] eqn:Hw;
      cbn [mbind option_bind]; [|reflexivity].
    apply elem_of_cons in Hin. destruct Hin as [->|Hin]; [|apply IH; exact Hin].
    unfold process_window in Hw. rewrite Hread in Hw. discriminate.
Qed.

Lemma process_windows_ok (read : Window -> option (ndarray Z)) (min_area : float)
      (pad : nat) (simplify_tol : float) (windows_batch : list Window) :
  (forall window, window ∈ windows_batch -> is_Some (read (padded pad window))) ->
  forall polys,
    process_windows read min_area pad simplify_tol windows_batch polys
    = Some (polys ++ concat
              (List.map (fun window =>
                           process_window_batch (Some read) [window] min_area pad simplify_tol)
                        windows_batch)).
Proof.
  induction windows_batch as [|w rest IH]; intros Hreads polys.
  - cbn. rewrite app_nil_r. reflexivity.
  - cbn [process_windows List.map concat].
    assert (Hw : exists found, process_window read min_area pad simplify_tol [] w = Some found).
    { unfold process_window. destruct (Hreads w ltac:(left)) as [data ->].
      cbn [mbind option_bind]. destruct (negb _); eexists; reflexivity. }
    destruct Hw as [found Hw].
    rewrite process_window_appends, Hw. cbn [mbind option_bind].
    rewrite IH by (intros w' Hw'; apply Hreads; right; exact Hw').
    unfold process_window_batch at 2. cbn [process_windows]. rewrite Hw.
    cbn [mbind option_bind]. rewrite app_assoc. reflexivity.
Qed.

Lemma process_windows_areas (read : Window -> option (ndarray Z)) (min_area : float)
      (pad : nat) (simplify_tol : float) (windows_batch : list Window) :
  let within (g : Geom) :=
    PyFloat.lt (geom_area g) min_area = false /\ PyFloat.gt (geom_area g) 10000%float = false in
  forall polys polys',
    Forall within polys ->
    process_windows read min_area pad simplify_tol windows_batch polys = Some polys' ->
    Forall within polys'.
Proof.
  intros within. induction windows_batch as [|w rest IH]; intros polys polys' Hpolys Hrun.
  - cbn in Hrun. injection Hrun as <-. exact Hpolys.
  - cbn [process_windows] in Hrun.
    destruct (process_window read min_area pad simplify_tol polys w) as [polys1|] eqn:Hw;
      [|discriminate].
    cbn [mbind option_bind] in Hrun. apply (IH polys1 polys'); [|exact Hrun].
    unfold process_window in Hw. destruct (read (padded pad w)) as [data|]; [|discriminate].
    cbn [mbind option_bind] in Hw. destruct (negb _).
    + injection Hw as <-. exact Hpolys.
    + injection Hw as <-. rewrite TileVectorizerProofs.collect_shapes_regionwise.
      apply Forall_app. split; [exact Hpolys|].
      apply Forall_forall. intros g Hg. apply list_elem_of_omap in Hg.
      destruct Hg as ([geom val] & _ & Hg). cbn [fst snd] in Hg.
      destruct (val =? 1); [|discriminate].
      destruct (TileVectorizerProofs.smooth_and_filter_area _ _ _ _ Hg) as (Hlo & Hhi & _).
      split; assumption.
Qed.

(** X3: a batch whose grid cannot be opened returns no polygon, and so does
    a batch in which the read of any one window raises: the polygons the
    other windows of the batch gave are dropped with it. *)
Theorem failed_read_empties_batch (read : Window -> option (ndarray Z))
        (windows_batch : list Window) (min_area : float) (pad : nat) (simplify_tol : float)
        (window : Window) :
  window ∈ windows_batch ->
  read (padded pad window) = None ->
  process_window_batch (Some read) windows_batch min_area pad simplify_tol = ([] : list Geom)
  /\ process_window_batch None windows_batch min_area pad simplify_tol = ([] : list Geom).
Proof.
  intros Hin Hread. split; [|reflexivity].
  unfold process_window_batch.
  rewrite (process_windows_failed read min_area pad simplify_tol windows_batch window Hin Hread).
  reflexivity.
Qed.

(** X4: no polygon returned by a batch has an area below the floor or above
    10000. *)
Theorem batch_areas_within_bounds (src : option (Window -> option (ndarray Z)))
        (windows_batch : list Window) (min_area : float) (pad : nat) (simplify_tol : float) :
  Forall (fun g : Geom =>
            PyFloat.lt (geom_area g) min_area = false
            /\ PyFloat.gt (geom_area g) 10000%float = false)
         (process_window_batch src windows_batch min_area pad simplify_tol).
Proof.
  unfold process_window_batch. destruct src as [read|]; [|constructor].
  destruct (process_windows read min_area pad simplify_tol windows_batch []) as [polys|] eqn:Hrun;
    [|constructor].
  apply (process_windows_areas read min_area pad simplify_tol windows_batch [] polys);
    [constructor|exact Hrun].
Qed.

End Worker.
End WorkerProofs.

(* ---------------------------------------------------------------------- *)
(** *** Export *)

Module ExporterProofs.
Import Exporter Exits.

Section ExportLoop.
Context {J Geom : Type}.
Context `{Measured Geom, Smoother Geom, Projector J Geom, PyNum}.

Lemma export_feature_properties (poly : Geom) (feature : Feature J) :
  export_feature poly = Some feature ->
  exists a p,
    py_int (geom_area (simplify poly 0.5%float)) = Some a
    /\ py_int (geom_length (simplify poly 0.5%float)) = Some p
    /\ 20 <= a <= 10000
    /\ properties feature
       = <["gc" := VFloat (round_gravelius (geom_length (simplify poly 0.5%float))
                                            (geom_area (simplify poly 0.5%float)))]>
           (<["p" := VInt p]> (<["a" := VInt a]> (<["t" := VInt 1]> ∅))).
Proof.
  unfold export_feature. intros He.
  destruct (PyFloat.lt _ MIN_AREA) eqn:Hlo; [discriminate|].
  destruct (PyFloat.gt _ MAX_AREA) eqn:Hhi; [discriminate|].
  destruct (transform _) as [wgs84_poly|]; [|discriminate]. cbn [mbind option_bind] in He.
  destruct (coordinates (mapping wgs84_poly)) as [coordinates_list|]; [|discriminate].
  cbn [fmap option_fmap option_map mbind option_bind] in He.
  destruct (py_int (geom_area _)) as [a|] eqn:Ha; [|discriminate].
  cbn [mbind option_bind] in He.
  destruct (py_int (geom_length _)) as [p|] eqn:Hp; [|discriminate].
  cbn [mbind option_bind] in He. injection He as <-.
  exists a, p. split; [reflexivity|]. split; [reflexivity|].
  split; [|reflexivity].
  exact (py_int_between _ a Hlo Hhi Ha).
Qed.

Lemma omap_no_longer {A B} (f : A -> option B) (l : list A) :
  (length (omap f l) <= length l)%nat.
Proof.
  induction l as [|x rest IH]; [reflexivity|].
  cbn [omap list_omap]. destruct (f x); cbn [length]; lia.
Qed.

Lemma export_exported (final_geoms : list Geom) :
  Forall exported (features (fst (export final_geoms))).
Proof.
  unfold export. cbn [fst features]. apply Forall_forall. intros feature Hin.
  apply list_elem_of_omap in Hin. destruct Hin as (poly & _ & He).
  destruct (export_feature_properties poly feature He) as (a & p & _ & _ & Ha & Hprops).
  unfold exported. rewrite Hprops.
  rewrite !lookup_insert_ne by discriminate.
  split; [apply lookup_insert_eq|].
  split; [exists a; split; [|exact Ha]|].
  { rewrite !lookup_insert_ne by discriminate. apply lookup_insert_eq. }
  split; [exists p; rewrite lookup_insert_ne by discriminate; apply lookup_insert_eq|].
  split; [eexists; apply lookup_insert_eq|].
  split; reflexivity.
Qed.

(** X7: the count the export returns is the number of features it wrote,
    at most one per merged polygon; every feature written has t = 1, an
    integer area a between 20 and 10000, an integer perimeter p and a score
    gc, and neither a label c nor a delta de. *)
Theorem export_writes_bounded_features (final_geoms : list Geom) :
  let fc := fst (export final_geoms) in
  let count_saved := snd (export final_geoms) in
  count_saved = length (features fc)
  /\ (count_saved <= length final_geoms)%nat
  /\ Forall
       (fun feature =>
          properties feature !! "t" = Some (VInt 1)
          /\ (exists a, properties feature !! "a" = Some (VInt a) /\ 20 <= a <= 10000)
          /\ (exists p, properties feature !! "p" = Some (VInt p))
          /\ (exists gc, properties feature !! "gc" = Some (VFloat gc))
          /\ properties feature !! "c" = None
          /\ properties feature !! "de" = None)
       (features fc).
Proof.
  cbv zeta. split; [reflexivity|]. split; [apply omap_no_longer|].
  exact (export_exported final_geoms).
Qed.

End ExportLoop.
End ExporterProofs.

(* ---------------------------------------------------------------------- *)
(** *** The driver and what follows it *)

Module DriverProofs.
Import Vectorisation Exits.

Lemma concat_map_concat {A B} (f : A -> list B) (ls : list (list A)) :
  concat (List.map (fun l => concat (List.map f l)) ls) = concat (List.map f (concat ls)).
Proof.
  induction ls as [|l rest IH]; [reflexivity|].
  cbn [List.map concat]. rewrite IH, List.map_app, concat_app. reflexivity.
Qed.

Section Driver.
Context {J Geom : Type}.
Context `{Measured Geom, Decoder J Geom, Smoother Geom, Tracer J,
          Overlay Geom, Projector J Geom, PyNum}.

(** The two ways a run returns: skipped or without polygon, with nothing
    written; or with the collection of the export written. *)
Lemma etape_vectorisation_cases (disk : gmap string (file J))
      (src : option (Window -> option (ndarray Z))) (windows_list : list Window)
      (count : nat) (disk' : gmap string (file J)) :
  etape_vectorisation disk src windows_list = Some (count, disk') ->
  (disk' = disk /\ count = 0%nat
   /\ (is_Some (disk !! FILE_GEOJSON) \/ collect_polygons src windows_list = []))
  \/ (disk !! FILE_GEOJSON = None
      /\ collect_polygons src windows_list <> []
      /\ exists merged_geom,
          GlobalMerger.global_merge (collect_polygons src windows_list) = Some merged_geom
          /\ disk' = <[FILE_GEOJSON :=
                         GeoJSONFile (fst (Exporter.export
                                             (GlobalMerger.final_geoms_of merged_geom)))]> disk
          /\ count = length (features (fst (Exporter.export
                                              (GlobalMerger.final_geoms_of merged_geom))))).
Proof.
  unfold etape_vectorisation, ask_skip. intros Hrun.
  destruct (disk !! FILE_GEOJSON) as [existing|] eqn:Hfile; cbn [negb] in Hrun.
  - injection Hrun as <- <-. left. split; [reflexivity|]. split; [reflexivity|].
    left. eexists. reflexivity.
  - destruct (collect_polygons src windows_list) as [|poly polys] eqn:Hpolys.
    + injection Hrun as <- <-. left. split; [reflexivity|]. split; [reflexivity|].
      right. reflexivity.
    + right. split; [reflexivity|]. split; [discriminate|].
      destruct (GlobalMerger.global_merge (poly :: polys)) as [merged_geom|]; [|discriminate].
      cbn [mbind option_bind] in Hrun. exists merged_geom. split; [reflexivity|].
      unfold Exporter.export in *. cbn [fst features]. injection Hrun as <- <-.
      split; reflexivity.
Qed.

(** X5: when every window can be read, the polygons collected do not depend
    on how the windows are cut into batches: they are the polygons of the
    first window, then those of the second, and so on, as if each window
    were a batch of its own. *)
Theorem batching_does_not_matter (read : Window -> option (ndarray Z))
        (windows_list : list Window) :
  (forall window, window ∈ windows_list -> is_Some (read (padded PAD_VECT window))) ->
  collect_polygons (Some read) windows_list
  = concat (List.map
              (fun window =>
                 TileVectorizer.process_window_batch (Some read) [window] MIN_AREA PAD_VECT
                                                     0.5%float)
              windows_list).
Proof.
  intros Hreads. unfold collect_polygons.
  pose proof (chunks_concat BATCH_SIZE windows_list ltac:(unfold BATCH_SIZE; lia)) as Hcat.
  assert (Hbatch : forall batch,
             batch ∈ chunks BATCH_SIZE windows_list ->
             TileVectorizer.process_window_batch (Some read) batch MIN_AREA PAD_VECT 0.5%float
             = concat (List.map
                         (fun window =>
                            TileVectorizer.process_window_batch (Some read) [window] MIN_AREA
                                                                PAD_VECT 0.5%float) batch)).
  { intros batch Hin. unfold TileVectorizer.process_window_batch at 1.
    rewrite WorkerProofs.process_windows_ok; [reflexivity|].
    intros window Hw. apply Hreads. rewrite <- Hcat.
    apply list_elem_of_In, in_concat. exists batch.
    split; apply list_elem_of_In; assumption. }
  rewrite <- Hcat at 2. rewrite <- concat_map_concat. f_equal.
  apply map_ext_in. intros batch Hin. apply Hbatch, list_elem_of_In, Hin.
Qed.

(** X6: a run that returns touches no file but the feature collection, and
    when it writes one, the count it returns is the number of its features.
    Once a collection exists every later run is skipped: it returns 0 and
    changes nothing, whatever the mask grid holds. With no collection
    afterwards, nothing was written and the count is 0. *)
Theorem rerun_is_skipped (disk : gmap string (file J))
        (src : option (Window -> option (ndarray Z))) (windows_list : list Window)
        (count : nat) (disk' : gmap string (file J)) :
  etape_vectorisation disk src windows_list = Some (count, disk') ->
  (forall path, path <> FILE_GEOJSON -> disk' !! path = disk !! path)
  /\ (disk' !! FILE_GEOJSON = None -> disk' = disk /\ count = 0%nat)
  /\ (disk !! FILE_GEOJSON = None ->
      forall fc, disk' !! FILE_GEOJSON = Some (GeoJSONFile fc) ->
                 length (features fc) = count /\ Forall exported (features fc))
  /\ (is_Some (disk' !! FILE_GEOJSON) ->
      forall src' windows_list',
        etape_vectorisation disk' src' windows_list' = Some (0%nat, disk')).
Proof.
  intros Hrun.
  assert (Hskip : is_Some (disk' !! FILE_GEOJSON) ->
                  forall src' windows_list',
                    etape_vectorisation disk' src' windows_list' = Some (0%nat, disk')).
  { intros [f Hf] src' windows_list'. unfold etape_vectorisation, ask_skip.
    rewrite Hf. reflexivity. }
  destruct (etape_vectorisation_cases _ _ _ _ _ Hrun)
    as [(-> & -> & _) | (Hnew & _ & merged_geom & _ & -> & ->)].
  - split; [reflexivity|]. split; [intros _; split; reflexivity|].
    split; [|exact Hskip]. intros Hnone fc Hfc. rewrite Hnone in Hfc. discriminate.
  - split; [intros path Hpath; apply lookup_insert_ne; congruence|].
    split; [rewrite lookup_insert_eq; discriminate|].
    split; [|exact Hskip].
    intros _ fc Hfc. rewrite lookup_insert_eq in Hfc. injection Hfc as <-.
    split; [reflexivity|apply ExporterProofs.export_exported].
Qed.

(** X8: when a feature collection already exists, the vectorisation is
    skipped with the count 0 and the dashboard written next reports 1000
    features, 250 in each sector, whatever the collection holds. *)
Theorem rerun_reports_1000 (disk : gmap string (file J))
        (src : option (Window -> option (ndarray Z))) (windows_list : list Window) :
  is_Some (disk !! FILE_GEOJSON) ->
  exists stats,
    Main.count_then_dashboard disk src windows_list
    = Some (stats, <[FILE_DASHBOARD := JsonFile]> disk)
    /\ Dashboard.total_points stats = 1000
    /\ Dashboard.levels_haute stats = 1000
    /\ Dashboard.histogram stats = [("Terrasses"%string, 1000, 100)]
    /\ Dashboard.sectors stats
       = [("Nord"%string, 250); ("Sud"%string, 250); ("Est"%string, 250); ("Ouest"%string, 250)].
Proof.
  intros [f Hf]. unfold Main.count_then_dashboard, etape_vectorisation, ask_skip.
  rewrite Hf. cbn [negb mbind option_bind].
  unfold Dashboard.etape_enrichissement, path_exists. rewrite Hf.
  change (Z.of_nat 0 =? 0) with true. cbn [andb].
  assert (Hq : Dashboard.quarter 1000 = Some 250) by (vm_compute; reflexivity).
  rewrite Hq. cbn [mbind option_bind].
  eexists. split; [reflexivity|]. repeat split.
Qed.

(** X18: on a mask without any break pixel and with no collection yet, no
    polygon is collected and no collection is written; the dashboard
    written next reports 0 features, and the classification that follows is
    skipped: it counts nothing and changes no file. *)
Theorem blank_mask_pipeline (disk : gmap string (file J))
        (read : Window -> option (ndarray Z)) (windows_list : list Window) (mnt : MNT)
        `{Oriented Geom} :
  disk !! FILE_GEOJSON = None ->
  (forall window,
      window ∈ windows_list ->
      exists data, read (padded PAD_VECT window) = Some data
                   /\ Np.any (Z.eqb 1) data = false) ->
  collect_polygons (Some read) windows_list = []
  /\ etape_vectorisation disk (Some read) windows_list = Some (0%nat, disk)
  /\ exists stats,
      Main.count_then_dashboard disk (Some read) windows_list
      = Some (stats, <[FILE_DASHBOARD := JsonFile]> disk)
      /\ Dashboard.total_points stats = 0
      /\ Dashboard.sectors stats
         = [("Nord"%string, 0); ("Sud"%string, 0); ("Est"%string, 0); ("Ouest"%string, 0)]
      /\ Classifier.etape_classification_mnt (<[FILE_DASHBOARD := JsonFile]> disk) mnt
         = Some (<[FILE_DASHBOARD := JsonFile]> disk, MkCounters 0 0 0 0).
Proof.
  intros Hnew Hblank.
  assert (Hnone : collect_polygons (Some read) windows_list = []).
  { unfold collect_polygons.
    pose proof (chunks_concat BATCH_SIZE windows_list ltac:(unfold BATCH_SIZE; lia)) as Hcat.
    apply concat_nil_Forall, Forall_forall. intros polys Hin.
    apply list_elem_of_In, in_map_iff in Hin. destruct Hin as (batch & <- & Hbatch).
    unfold TileVectorizer.process_window_batch.
    rewrite WorkerProofs.process_windows_ok.
    - cbn [app]. apply concat_nil_Forall, Forall_forall. intros found Hfound.
      apply list_elem_of_In, in_map_iff in Hfound. destruct Hfound as (window & <- & Hw).
      destruct (Hblank window) as (data & Hread & Hany).
      { rewrite <- Hcat. apply list_elem_of_In, in_concat. exists batch. split; assumption. }
      unfold TileVectorizer.process_window_batch. cbn [TileVectorizer.process_windows].
      unfold TileVectorizer.process_window. rewrite Hread. cbn [mbind option_bind].
      rewrite Hany. reflexivity.
    - intros window Hw. destruct (Hblank window) as (data & Hread & _).
      { rewrite <- Hcat. apply list_elem_of_In, in_concat. exists batch.
        split; [exact Hbatch|apply list_elem_of_In, Hw]. }
      rewrite Hread. eexists. reflexivity. }
  assert (Hrun : etape_vectorisation disk (Some read) windows_list = Some (0%nat, disk)).
  { unfold etape_vectorisation, ask_skip. rewrite Hnew, Hnone. reflexivity. }
  split; [exact Hnone|]. split; [exact Hrun|].
  unfold Main.count_then_dashboard. rewrite Hrun. cbn [mbind option_bind].
  unfold Dashboard.etape_enrichissement, path_exists. rewrite Hnew.
  change (Z.of_nat 0) with 0. change (0 =? 0) with true. cbn [andb].
  assert (Hq : Dashboard.quarter 0 = Some 0) by (vm_compute; reflexivity).
  rewrite Hq. cbn [mbind option_bind].
  eexists. split; [reflexivity|]. split; [reflexivity|]. split; [reflexivity|].
  unfold Classifier.etape_classification_mnt.
  rewrite lookup_insert_ne by discriminate. rewrite Hnew. reflexivity.
Qed.

End Driver.

Section Pipeline.
Context {J Geom : Type}.
Context `{Measured Geom, Decoder J Geom, Smoother Geom, Tracer J,
          Overlay Geom, Projector J Geom, PyNum, Oriented Geom}.

(** X14: after a first run of the vectorisation that collected polygons,
    with the elevation grid on disk and once the dashboard is written, the
    classification finds the collection and rewrites it with as many features
    as were exported; each of them still has its integer area a between 20
    and 10000 and its integer perimeter p, and now a label c, 't' or 'm', and
    a delta de; the terraces, walls and errors reported add up to the
    exported count. *)
Theorem exported_features_get_classified (disk : gmap string (file J))
        (src : option (Window -> option (ndarray Z))) (windows_list : list Window)
        (mnt : MNT) (raster : file J) (count : nat) (disk1 : gmap string (file J)) :
  disk !! FILE_GEOJSON = None ->
  disk !! FILE_MNT = Some raster ->
  collect_polygons src windows_list <> [] ->
  etape_vectorisation disk src windows_list = Some (count, disk1) ->
  exists disk2 cnt fc,
    Classifier.etape_classification_mnt (<[FILE_DASHBOARD := JsonFile]> disk1) mnt
    = Some (disk2, cnt)
    /\ disk2 !! FILE_GEOJSON = Some (GeoJSONFile fc)
    /\ length (features fc) = count
    /\ (count_terrasse cnt + count_mur cnt + count_err cnt = count)%nat
    /\ Forall
         (fun feature =>
            (exists a, properties feature !! "a" = Some (VInt a) /\ 20 <= a <= 10000)
            /\ (exists p, properties feature !! "p" = Some (VInt p))
            /\ (properties feature !! "c" = Some (VStr "t")
                \/ properties feature !! "c" = Some (VStr "m"))
            /\ is_Some (properties feature !! "de"))
         (features fc).
Proof.
  intros Hnew Hmnt Hsome Hrun.
  destruct (etape_vectorisation_cases _ _ _ _ _ Hrun)
    as [(_ & _ & [[f Hf] | Hnone]) | (_ & _ & merged_geom & _ & -> & ->)];
    [congruence | contradiction |].
  pose proof (ExporterProofs.export_exported (GlobalMerger.final_geoms_of merged_geom))
    as Hexported.
  set (fc0 := fst (Exporter.export (GlobalMerger.final_geoms_of merged_geom))) in *.
  pose proof (ClassifierLoopProofs.classify_all_counts mnt (features fc0)
                (MkCounters 0 0 0 0)) as Hcounts.
  pose proof (ClassifierLoopProofs.classify_all_features mnt (features fc0)
                (MkCounters 0 0 0 0)) as Hall.
  unfold Classifier.etape_classification_mnt.
  rewrite lookup_insert_ne by discriminate. rewrite lookup_insert_eq.
  rewrite !lookup_insert_ne by discriminate. rewrite Hmnt.
  destruct (Classifier.classify_all mnt (features fc0) (MkCounters 0 0 0 0))
    as [classified cnt].
  cbn [fst snd] in *.
  eexists _, cnt, _. split; [reflexivity|].
  rewrite lookup_insert_ne by discriminate. rewrite lookup_insert_eq.
  split; [reflexivity|]. cbn [features].
  split; [symmetry; exact (Forall2_length _ _ _ Hall)|].
  split; [cbn [count_terrasse count_mur count_err] in Hcounts; lia|].
  apply Forall_forall. intros feature Hin.
  apply list_elem_of_lookup in Hin. destruct Hin as [i Hi].
  destruct (Forall2_lookup_r _ _ _ _ _ Hall Hi) as (feat0 & Hi0 & cnt0 & r & Hexit & ->).
  pose proof (proj1 (Forall_forall _ _) Hexported feat0
                (proj2 (list_elem_of_lookup _ _) (ex_intro _ i Hi0))) as Hexp.
  destruct Hexp as (_ & (a & Ha & Hbounds) & (p & Hp) & _).
  destruct (ClassifierLoopProofs.exit_feature feat0 cnt0 r Hexit)
    as (_ & Hlabel & Hde & _ & Hkeep).
  assert (Hka : ~ written_key "a") by (unfold written_key; intros [|[|[|]]]; discriminate).
  assert (Hkp : ~ written_key "p") by (unfold written_key; intros [|[|[|]]]; discriminate).
  split; [exists a; rewrite (Hkeep _ Hka); split; assumption|].
  split; [exists p; rewrite (Hkeep _ Hkp); exact Hp|].
  split; assumption.
Qed.

End Pipeline.
End DriverProofs.

(* ---------------------------------------------------------------------- *)
(** *** The slope blocks of a boundless read *)

Module SlopeCropProofs.
Import SlopeComputer.

Section Blocks.
Context {px : Type} `{SlopeLib px}.

(** X15: a boundless read returns the padded window's shape, on the edge
    of the grid too; then no block is ever replaced by zeros: every block
    written has its window's shape, and its pixel (i, j) is the gradient
    magnitude of the padded read at (8 + i, 8 + j). *)
Theorem zero_block_never_written (read : Window -> ndarray px) (windows_list : list Window) :
  (forall a axis, Np.shape (sobel a axis) = Np.shape a) ->
  (forall window,
      window ∈ windows_list ->
      Np.shape (read (padded PAD_CALC window))
      = (height (padded PAD_CALC window), width (padded PAD_CALC window))) ->
  exists written,
    etape_pente_blocks read windows_list [] = Some written
    /\ List.map fst written = windows_list
    /\ Forall (fun wb =>
         let data := read (padded PAD_CALC (fst wb)) in
         Np.shape (snd wb) = (height (fst wb), width (fst wb))
         /\ forall i j,
             (i < height (fst wb))%nat -> (j < width (fst wb))%nat ->
             cell (snd wb) i j
             = hypot (cell (sobel data 1) (8 + i) (8 + j))
                     (cell (sobel data 0) (8 + i) (8 + j))) written.
Proof.
  intros Hshape Hread.
  destruct (SlopeProofs.etape_pente_blocks_spec read windows_list Hshape [])
    as (written & Hrun & Hfst & Hall).
  exists written. split; [exact Hrun|]. split; [exact Hfst|].
  apply Forall_forall. intros [window block] Hin. cbn [fst snd]. cbv zeta.
  assert (Hw : window ∈ windows_list).
  { rewrite <- Hfst. apply list_elem_of_In. apply list_elem_of_In in Hin.
    exact (in_map fst written (window, block) Hin). }
  pose proof (proj1 (Forall_forall _ _) Hall (window, block) Hin) as (slope & Hs & Hblock).
  cbn [fst snd] in Hs, Hblock.
  destruct (SlopeProofs.slope_of_total (read (padded PAD_CALC window)) Hshape)
    as (slope' & Hs' & Hsh & Hcell).
  assert (slope' = slope) by congruence. subst slope'.
  destruct Hblock as (Hcrop & _ & Hsize). split; [exact Hsize|].
  intros i j _ _.
  rewrite Hcrop by (apply SlopeProofs.crop_has_block_shape; rewrite Hsh; apply Hread, Hw).
  unfold Np.slice. cbn [cell]. unfold PAD_CALC. apply Hcell.
Qed.

End Blocks.
End SlopeCropProofs.

(* ---------------------------------------------------------------------- *)
(** *** The probe *)

Module ProbeProofs.
Import Classifier.

Lemma abs_not_negative (x : float) : PyFloat.lt (PrimFloat.abs x) 0%float = false.
Proof.
  unfold PyFloat.lt. rewrite FloatAxioms.ltb_spec, FloatAxioms.abs_spec.
  assert (E0 : Prim2SF 0%float = S754_zero false) by reflexivity. rewrite E0.
  destruct (Prim2SF x) as [[]|[]| |[] m e]; reflexivity.
Qed.

Lemma multi_sondage_shape (mnt : MNT) (ax_start ax_end : float * float) (perp_x perp_y : float)
      (fracs : list float) :
  forall deltas probes,
    let r := multi_sondage mnt ax_start ax_end perp_x perp_y fracs deltas probes in
    length (snd r) = (length probes + 2 * length fracs)%nat
    /\ (length deltas <= length (fst r) <= length deltas + length fracs)%nat
    /\ (Forall (fun d => PyFloat.lt d 0%float = false) deltas ->
        Forall (fun d => PyFloat.lt d 0%float = false) (fst r)).
Proof.
  induction fracs as [|frac rest IH]; intros deltas probes; cbv zeta.
  - cbn. split; [lia|]. split; [lia|]. tauto.
  - cbn [multi_sondage]. cbv zeta.
    match goal with
    | |- context [multi_sondage _ _ _ _ _ rest ?d ?p] =>
        specialize (IH d p); cbv zeta in IH; destruct IH as (Hp & Hd & Hpos);
        set (r := multi_sondage mnt ax_start ax_end perp_x perp_y rest d p) in *
    end.
    rewrite Hp, length_app. cbn [length]. split; [lia|].
    destruct (read_elev mnt _ _) as [a|]; [destruct (read_elev mnt _ _) as [b|]|].
    + rewrite length_app in Hd. cbn [length] in Hd. split; [lia|].
      intros Hall. apply Hpos, Forall_app. split; [exact Hall|].
      constructor; [apply abs_not_negative|constructor].
    + split; [lia|exact Hpos].
    + split; [lia|exact Hpos].
Qed.

(** X16: whatever the axis and the grid, the probe hands exactly six
    points to read_elev, also when earlier samples are missing, keeps at most
    three differences, and no difference it keeps is below zero. *)
Theorem probe_samples_six_points (mnt : MNT) (ax_start ax_end : float * float)
        (perp_x perp_y : float) :
  let deltas := fst (multi_sondage mnt ax_start ax_end perp_x perp_y FRACS [] []) in
  let probes := snd (multi_sondage mnt ax_start ax_end perp_x perp_y FRACS [] []) in
  length probes = 6%nat
  /\ (length deltas <= 3)%nat
  /\ Forall (fun d => PyFloat.lt d 0%float = false) deltas.
Proof.
  cbv zeta.
  pose proof (multi_sondage_shape mnt ax_start ax_end perp_x perp_y FRACS [] [])
    as (Hp & Hd & Hpos).
  cbn [length FRACS] in Hp, Hd. split; [exact Hp|]. split; [lia|].
  apply Hpos. constructor.
Qed.

End ProbeProofs.

(* ---------------------------------------------------------------------- *)
(** *** Rounded coordinates and the outline *)

Module OutlineProofs.
Import Emprise Exits.

Lemma coords_nested_ind (P : coords -> Prop) :
  (forall x, P (Coord x)) ->
  (forall l, Forall P l -> P (CoordList l)) ->
  forall c, P c.
Proof.
  intros Hc Hl. fix IH 1. intros [x|l]; [apply Hc|].
  apply Hl. induction l as [|c rest IHl]; constructor; [apply IH|exact IHl].
Qed.

(** X1: rounding the coordinates keeps the nesting of the lists and the
    order of the numbers: the result has the same shape, and its numbers are
    the numbers of the input, each rounded to 6 decimals. *)
Theorem round_coords_keeps_shape `{PyNum} (c : coords) :
  nesting (round_coords c) = nesting c
  /\ numbers (round_coords c) = List.map (fun x => py_round x 6) (numbers c).
Proof.
  induction c as [x|l IH] using coords_nested_ind; [split; reflexivity|].
  cbn [round_coords nesting numbers]. split.
  - f_equal. rewrite List.map_map. apply map_ext_in. intros c Hin.
    apply (proj1 (Forall_forall _ _) IH c), list_elem_of_In, Hin.
  - induction IH as [|c rest [_ Hc] _ IHrest]; [reflexivity|].
    cbn [List.map flat_map]. rewrite List.map_app, Hc, IHrest. reflexivity.
Qed.

Section Outline.
Context {J Geom : Type}.
Context `{Decoder J Geom, Projector J Geom, PyNum}.

Lemma convert_all_mapM (source : list J) :
  forall features_out,
    convert_all source features_out
    = converted ← mapM convert source; Some (features_out ++ converted).
Proof.
  induction source as [|geometry rest IH]; intros features_out.
  - cbn. rewrite app_nil_r. reflexivity.
  - cbn [convert_all mapM]. destruct (convert geometry) as [feature|]; [|reflexivity].
    cbn [mbind option_bind]. rewrite IH.
    destruct (mapM convert rest) as [converted|]; [|reflexivity].
    cbn. rewrite <- app_assoc. reflexivity.
Qed.

(** What the loop makes of one geometry. *)
Lemma convert_cases (geometry : J) :
  match convert geometry with
  | Some feature =>
      exists geom wgs84_geom coordinates_list,
        shape geometry = Some geom
        /\ transform geom = Some wgs84_geom
        /\ coordinates (mapping wgs84_geom) = Some coordinates_list
        /\ feature = MkFeature {["nom"%string := VStr "PNR Mont-Ventoux"]}
                               (set_coordinates (mapping wgs84_geom)
                                                (round_coords coordinates_list))
  | None =>
      shape geometry = None
      \/ exists geom,
          shape geometry = Some geom
          /\ (transform geom = None
              \/ exists wgs84_geom,
                  transform geom = Some wgs84_geom
                  /\ coordinates (mapping wgs84_geom) = None)
  end.
Proof.
  unfold convert.
  destruct (shape geometry) as [geom|]; cbn [mbind option_bind]; [|left; reflexivity].
  destruct (transform geom) as [wgs84_geom|] eqn:Ht; cbn [mbind option_bind];
    [|right; exists geom; split; [reflexivity|left; exact Ht]].
  destruct (coordinates (mapping wgs84_geom)) as [coordinates_list|] eqn:Hc;
    cbn [fmap option_fmap option_map mbind option_bind].
  - exists geom, wgs84_geom, coordinates_list.
    split; [reflexivity|]. split; [exact Ht|]. split; [exact Hc|reflexivity].
  - right. exists geom. split; [reflexivity|]. right. exists wgs84_geom.
    split; [exact Ht|exact Hc].
Qed.

(** X17: the outline is all or nothing. When the source file exists, the
    collection is written exactly when every geometry of the source decodes,
    reprojects and has a mapping with coordinates; it then holds one feature
    per source feature, in order, each named "PNR Mont-Ventoux", with the
    mapping of the reprojected geometry and its coordinates rounded. One
    geometry that cannot be decoded or reprojected, or whose mapping has no
    coordinates (a geometry collection), leaves no file at all: the features
    converted before it are lost. No file is written without the source
    file. *)
Theorem outline_all_or_nothing (source : list J) :
  let converts (geometry : J) (feature : Feature J) :=
    exists geom wgs84_geom coordinates_list,
      shape geometry = Some geom
      /\ transform geom = Some wgs84_geom
      /\ coordinates (mapping wgs84_geom) = Some coordinates_list
      /\ feature = MkFeature {["nom"%string := VStr "PNR Mont-Ventoux"]}
                             (set_coordinates (mapping wgs84_geom)
                                              (round_coords coordinates_list)) in
  let fails (geometry : J) :=
    shape geometry = None
    \/ exists geom,
        shape geometry = Some geom
        /\ (transform geom = None
            \/ exists wgs84_geom,
                transform geom = Some wgs84_geom
                /\ coordinates (mapping wgs84_geom) = None) in
  etape_emprise (J := J) None = None
  /\ (etape_emprise (Some source) = None
      <-> exists geometry, geometry ∈ source /\ fails geometry)
  /\ (forall name features_out,
         etape_emprise (Some source) = Some (name, features_out) ->
         name = "Emprise PNR"%string
         /\ length features_out = length source
         /\ Forall2 converts source features_out).
Proof.
  intros converts fails. split; [reflexivity|].
  unfold etape_emprise. rewrite convert_all_mapM.
  destruct (mapM convert source) as [converted|] eqn:Hm; cbn [mbind option_bind app].
  - apply mapM_Some in Hm. split.
    + split; [discriminate|]. intros (geometry & Hin & Hfails).
      apply list_elem_of_lookup in Hin. destruct Hin as [i Hi].
      destruct (Forall2_lookup_l _ _ _ _ _ Hm Hi) as (feature & _ & Hf).
      pose proof (convert_cases geometry) as Hcase. rewrite Hf in Hcase.
      destruct Hcase as (geom & wgs84_geom & coordinates_list & Hs & Ht & Hc & _).
      destruct Hfails as [Hnone | (geom' & Hs' & [Hnone | (wgs' & Ht' & Hnone)])];
        congruence.
    + intros name features_out [= <- <-]. split; [reflexivity|].
      split; [symmetry; exact (Forall2_length _ _ _ Hm)|].
      eapply Forall2_impl; [exact Hm|]. intros geometry feature Hf.
      pose proof (convert_cases geometry) as Hcase. rewrite Hf in Hcase. exact Hcase.
  - split; [|discriminate]. split; [|reflexivity]. intros _.
    apply mapM_None in Hm. apply Exists_exists in Hm.
    destruct Hm as (geometry & Hin & Hf). exists geometry. split; [exact Hin|].
    pose proof (convert_cases geometry) as Hcase. rewrite Hf in Hcase. exact Hcase.
Qed.

End Outline.
End OutlineProofs.

(* ---------------------------------------------------------------------- *)
(** *** The properties above on concrete inputs *)

Module WorkerExamples.
Import TileVectorizer Strip Scenarios Fixtures Reference.

Lemma slices_partition_witness :
  (0 < 2)%nat
  /\ concat (chunks 2 [tile; tile_east; tile]) = [tile; tile_east; tile]
  /\ length (chunks 2 [tile; tile_east; tile]) = Nat.div (length [tile; tile_east; tile] + (2 - 1)) 2
  /\ (forall i slice,
        chunks 2 [tile; tile_east; tile] !! i = Some slice ->
        slice = take 2 (drop (i * 2) [tile; tile_east; tile])
        /\ (0 < length slice <= 2)%nat
        /\ (S i < length (chunks 2 [tile; tile_east; tile]) -> length slice = 2)%nat).
Proof.
  split; [lia|]. apply (WorkerProofs.slices_partition 2 [tile; tile_east; tile]). lia.
Defined.

(** The first tile alone gives the polygon of the run. *)
Example first_tile_alone :
  process_window_batch (Some torn_mask) [tile] MIN_AREA PAD_VECT 0.5%float
  = [list_to_set (seqZ 0 35) : gset Z].
Proof. vm_compute. reflexivity. Qed.

Lemma failed_read_empties_batch_witness :
  tile_east ∈ [tile; tile_east]
  /\ torn_mask (padded PAD_VECT tile_east) = None
  /\ process_window_batch (Some torn_mask) [tile; tile_east] MIN_AREA PAD_VECT 0.5%float
     = ([] : list (gset Z))
  /\ process_window_batch None [tile; tile_east] MIN_AREA PAD_VECT 0.5%float
     = ([] : list (gset Z)).
Proof.
  assert (Hin : tile_east ∈ [tile; tile_east]) by (right; left).
  assert (Hread : torn_mask (padded PAD_VECT tile_east) = None) by reflexivity.
  split; [exact Hin|]. split; [exact Hread|].
  exact (WorkerProofs.failed_read_empties_batch torn_mask [tile; tile_east] MIN_AREA PAD_VECT
           0.5%float tile_east Hin Hread).
Defined.

End WorkerExamples.


Module DriverExamples.
Import Vectorisation Strip Scenarios Fixtures Reference Exits.

Lemma batching_does_not_matter_witness :
  (forall window, window ∈ sixty_tiles -> is_Some (one_run (padded PAD_VECT window)))
  /\ collect_polygons (Some one_run) sixty_tiles
     = concat (List.map
                 (fun window =>
                    TileVectorizer.process_window_batch (Some one_run) [window] MIN_AREA
                                                        PAD_VECT 0.5%float : list (gset Z))
                 sixty_tiles).
Proof.
  assert (Hreads : forall window,
             window ∈ sixty_tiles -> is_Some (one_run (padded PAD_VECT window)))
    by (intros window _; eexists; reflexivity).
  split; [exact Hreads|].
  exact (DriverProofs.batching_does_not_matter one_run sixty_tiles Hreads).
Defined.

Lemma rerun_is_skipped_witness :
  etape_vectorisation disk_before (Some one_run) [tile] = Some (1%nat, disk_after)
  /\ (forall path, path <> FILE_GEOJSON -> disk_after !! path = disk_before !! path)
  /\ (disk_after !! FILE_GEOJSON = None -> disk_after = disk_before /\ 1%nat = 0%nat)
  /\ (disk_before !! FILE_GEOJSON = None ->
      forall fc, disk_after !! FILE_GEOJSON = Some (GeoJSONFile fc) ->
                 length (features fc) = 1%nat /\ Forall exported (features fc))
  /\ (is_Some (disk_after !! FILE_GEOJSON) ->
      forall src' windows_list',
        etape_vectorisation disk_after src' windows_list' = Some (0%nat, disk_after)).
Proof.
  assert (Hrun : etape_vectorisation disk_before (Some one_run) [tile]
                 = Some (1%nat, disk_after)) by (vm_compute; reflexivity).
  split; [exact Hrun|].
  exact (DriverProofs.rerun_is_skipped disk_before (Some one_run) [tile] 1%nat disk_after Hrun).
Defined.

Lemma rerun_reports_1000_witness :
  is_Some (disk_after !! FILE_GEOJSON)
  /\ exists stats,
      Main.count_then_dashboard disk_after (Some one_run) [tile]
      = Some (stats, <[FILE_DASHBOARD := JsonFile]> disk_after)
      /\ Dashboard.total_points stats = 1000
      /\ Dashboard.levels_haute stats = 1000
      /\ Dashboard.histogram stats = [("Terrasses"%string, 1000, 100)]
      /\ Dashboard.sectors stats
         = [("Nord"%string, 250); ("Sud"%string, 250); ("Est"%string, 250);
            ("Ouest"%string, 250)].
Proof.
  assert (Hfile : is_Some (disk_after !! FILE_GEOJSON)) by (eexists; reflexivity).
  split; [exact Hfile|].
  exact (DriverProofs.rerun_reports_1000 disk_after (Some one_run) [tile] Hfile).
Defined.

Lemma blank_mask_pipeline_witness :
  disk_before !! FILE_GEOJSON = None
  /\ (forall window,
         window ∈ [tile] ->
         exists data, no_break (padded PAD_VECT window) = Some data
                      /\ Np.any (Z.eqb 1) data = false)
  /\ collect_polygons (Some no_break) [tile] = ([] : list (gset Z))
  /\ etape_vectorisation disk_before (Some no_break) [tile] = Some (0%nat, disk_before)
  /\ exists stats,
      Main.count_then_dashboard disk_before (Some no_break) [tile]
      = Some (stats, <[FILE_DASHBOARD := JsonFile]> disk_before)
      /\ Dashboard.total_points stats = 0
      /\ Dashboard.sectors stats
         = [("Nord"%string, 0); ("Sud"%string, 0); ("Est"%string, 0); ("Ouest"%string, 0)]
      /\ Classifier.etape_classification_mnt (<[FILE_DASHBOARD := JsonFile]> disk_before)
                                             full_grid
         = Some (<[FILE_DASHBOARD := JsonFile]> disk_before, MkCounters 0 0 0 0).
Proof.
  assert (Hnew : disk_before !! FILE_GEOJSON = None) by reflexivity.
  assert (Hblank : forall window,
             window ∈ [tile] ->
             exists data, no_break (padded PAD_VECT window) = Some data
                          /\ Np.any (Z.eqb 1) data = false).
  { intros window Hw. apply list_elem_of_singleton in Hw. subst window.
    eexists. split; [reflexivity|]. vm_compute. reflexivity. }
  split; [exact Hnew|]. split; [exact Hblank|].
  exact (DriverProofs.blank_mask_pipeline disk_before no_break [tile] full_grid Hnew Hblank).
Defined.

Lemma exported_features_get_classified_witness :
  disk_before !! FILE_GEOJSON = None
  /\ disk_before !! FILE_MNT = Some RasterFile
  /\ collect_polygons (Some one_run) [tile] <> ([] : list (gset Z))
  /\ etape_vectorisation disk_before (Some one_run) [tile] = Some (1%nat, disk_after)
  /\ exists disk2 cnt fc,
      Classifier.etape_classification_mnt (<[FILE_DASHBOARD := JsonFile]> disk_after) full_grid
      = Some (disk2, cnt)
      /\ disk2 !! FILE_GEOJSON = Some (GeoJSONFile fc)
      /\ length (features fc) = 1%nat
      /\ (count_terrasse cnt + count_mur cnt + count_err cnt = 1)%nat
      /\ Forall
           (fun feature =>
              (exists a, properties feature !! "a" = Some (VInt a) /\ 20 <= a <= 10000)
              /\ (exists p, properties feature !! "p" = Some (VInt p))
              /\ (properties feature !! "c" = Some (VStr "t")
                  \/ properties feature !! "c" = Some (VStr "m"))
              /\ is_Some (properties feature !! "de"))
           (features fc).
Proof.
  assert (Hnew : disk_before !! FILE_GEOJSON = None) by reflexivity.
  assert (Hmnt : disk_before !! FILE_MNT = Some RasterFile) by reflexivity.
  assert (Hsome : collect_polygons (Some one_run) [tile] <> ([] : list (gset Z)))
    by (vm_compute; discriminate).
  assert (Hrun : etape_vectorisation disk_before (Some one_run) [tile]
                 = Some (1%nat, disk_after)) by (vm_compute; reflexivity).
  split; [exact Hnew|]. split; [exact Hmnt|]. split; [exact Hsome|]. split; [exact Hrun|].
  exact (DriverProofs.exported_features_get_classified disk_before (Some one_run) [tile]
           full_grid RasterFile 1%nat disk_after Hnew Hmnt Hsome Hrun).
Defined.

(** The exported run is classified as a wall: its compactness is 3.43. *)
Example one_run_is_a_wall :
  exists disk2,
    Classifier.etape_classification_mnt (<[FILE_DASHBOARD := JsonFile]> disk_after) full_grid
    = Some (disk2, MkCounters 0 1 0 0).
Proof. eexists. vm_compute. reflexivity. Qed.

End DriverExamples.

Module ClassifierLoopExamples.
Import Classifier Reference Parcels Scenarios Fixtures.

Lemma invalid_geometry_is_error_witness :
  shape (geometry (feature_of broken_parcel)) = Some broken_parcel
  /\ (is_empty broken_parcel = true \/ is_valid broken_parcel = false)
  /\ classify_feature full_grid (feature_of broken_parcel) no_counts
     = (set_prop "de" (VInt 0) (set_prop "c" (VStr "m") (feature_of broken_parcel)),
        MkCounters (count_terrasse no_counts) (count_mur no_counts)
                   (S (count_err no_counts)) (count_sliver no_counts),
        [])
  /\ properties (fst (fst (classify_feature full_grid (feature_of broken_parcel) no_counts)))
       !! "t" = properties (feature_of broken_parcel) !! "t"
  /\ properties (fst (fst (classify_feature full_grid (feature_of broken_parcel) no_counts)))
       !! "gc" = properties (feature_of broken_parcel) !! "gc".
Proof.
  assert (Hshape : shape (geometry (feature_of broken_parcel)) = Some broken_parcel)
    by reflexivity.
  assert (Hbad : is_empty broken_parcel = true \/ is_valid broken_parcel = false)
    by (right; reflexivity).
  split; [exact Hshape|]. split; [exact Hbad|].
  exact (ClassifierLoopProofs.invalid_geometry_is_error full_grid (feature_of broken_parcel)
           no_counts broken_parcel Hshape Hbad).
Defined.

Lemma missing_rectangle_is_error_witness :
  shape (geometry (feature_of line_parcel)) = Some line_parcel
  /\ is_empty line_parcel = false
  /\ is_valid line_parcel = true
  /\ sliver_test line_parcel = Some false
  /\ (minimum_rotated_rectangle_coords line_parcel = None
      \/ exists coords_mrr, minimum_rotated_rectangle_coords line_parcel = Some coords_mrr
                            /\ (length coords_mrr < 3)%nat)
  /\ classify_feature full_grid (feature_of line_parcel) no_counts
     = (set_prop "de" (VInt 0) (set_prop "t" (VInt 0) (set_prop "c" (VStr "m")
                                                          (feature_of line_parcel))),
        MkCounters (count_terrasse no_counts) (count_mur no_counts)
                   (S (count_err no_counts)) (count_sliver no_counts),
        []).
Proof.
  assert (Hshape : shape (geometry (feature_of line_parcel)) = Some line_parcel) by reflexivity.
  assert (Hempty : is_empty line_parcel = false) by reflexivity.
  assert (Hvalid : is_valid line_parcel = true) by reflexivity.
  assert (Hsliver : sliver_test line_parcel = Some false) by (vm_compute; reflexivity).
  assert (Hmrr : minimum_rotated_rectangle_coords line_parcel = None
                 \/ exists coords_mrr,
                     minimum_rotated_rectangle_coords line_parcel = Some coords_mrr
                     /\ (length coords_mrr < 3)%nat) by (left; reflexivity).
  split; [exact Hshape|]. split; [exact Hempty|]. split; [exact Hvalid|].
  split; [exact Hsliver|]. split; [exact Hmrr|].
  exact (ClassifierLoopProofs.missing_rectangle_is_error full_grid (feature_of line_parcel)
           no_counts line_parcel Hshape Hempty Hvalid Hsliver Hmrr).
Defined.

Lemma classification_rewrites_collection_witness :
  surveyed_disk !! FILE_GEOJSON = Some (GeoJSONFile surveyed_collection)
  /\ surveyed_disk !! FILE_MNT = Some RasterFile
  /\ exists disk' cnt fc',
      etape_classification_mnt surveyed_disk full_grid = Some (disk', cnt)
      /\ disk' !! FILE_GEOJSON = Some (GeoJSONFile fc')
      /\ fc_name fc' = fc_name surveyed_collection /\ fc_crs fc' = fc_crs surveyed_collection
      /\ features fc'
         = fst (classify_all full_grid (features surveyed_collection) (MkCounters 0 0 0 0))
      /\ length (features fc') = length (features surveyed_collection)
      /\ disk' !! FILE_DASHBOARD = Some JsonFile
      /\ (forall path, path <> FILE_GEOJSON -> path <> FILE_DASHBOARD ->
                       disk' !! path = surveyed_disk !! path)
      /\ (count_terrasse cnt + count_mur cnt + count_err cnt
          = length (features surveyed_collection))%nat.
Proof.
  assert (Hgeo : surveyed_disk !! FILE_GEOJSON = Some (GeoJSONFile surveyed_collection))
    by reflexivity.
  assert (Hmnt : surveyed_disk !! FILE_MNT = Some RasterFile) by reflexivity.
  split; [exact Hgeo|]. split; [exact Hmnt|].
  exact (ClassifierLoopProofs.classification_rewrites_collection surveyed_disk full_grid
           surveyed_collection RasterFile Hgeo Hmnt).
Defined.

(** The two surveyed parcels: one wall, one error. *)
Example surveyed_counts :
  snd (classify_all full_grid (features surveyed_collection) no_counts)
  = MkCounters 0 1 1 0.
Proof. vm_compute. reflexivity. Qed.

End ClassifierLoopExamples.

Module SlopeCropExamples.
Import SlopeComputer Reference Scenarios.

Lemma zero_block_never_written_witness :
  (forall a axis, Np.shape (sobel a axis) = Np.shape a)
  /\ (forall window,
         window ∈ ramp_blocks ->
         Np.shape (ramp (padded PAD_CALC window))
         = (height (padded PAD_CALC window), width (padded PAD_CALC window)))
  /\ exists written,
      etape_pente_blocks ramp ramp_blocks [] = Some written
      /\ List.map fst written = ramp_blocks
      /\ Forall (fun wb =>
           let data := ramp (padded PAD_CALC (fst wb)) in
           Np.shape (snd wb) = (height (fst wb), width (fst wb))
           /\ forall i j,
               (i < height (fst wb))%nat -> (j < width (fst wb))%nat ->
               cell (snd wb) i j
               = hypot (cell (sobel data 1) (8 + i) (8 + j))
                       (cell (sobel data 0) (8 + i) (8 + j))) written.
Proof.
  assert (Hshape : forall (a : ndarray float) axis, Np.shape (sobel a axis) = Np.shape a)
    by reflexivity.
  assert (Hread : forall window,
             window ∈ ramp_blocks ->
             Np.shape (ramp (padded PAD_CALC window))
             = (height (padded PAD_CALC window), width (padded PAD_CALC window)))
    by reflexivity.
  split; [exact Hshape|]. split; [exact Hread|].
  exact (SlopeCropProofs.zero_block_never_written ramp ramp_blocks Hshape Hread).
Defined.

End SlopeCropExamples.

Module OutlineExamples.
Import Emprise Exits Fixtures Reference.

(** The numbers of the two rings, rounded to 6 decimals. *)
Example two_rings_rounded :
  numbers (round_coords two_rings)
  = [5.125%float; 44.0625%float; 5.5%float; 0x1.6000008637bd0p+5%float].
Proof. vm_compute. reflexivity. Qed.

(** An outline of two features is converted; with a geometry that cannot
    be decoded between them, nothing is written. *)
Example outline_converted :
  exists features_out,
    @etape_emprise _ _ picky_decoder picky_projector _
                   (Some [Some (list_to_set [1; 2]); Some (list_to_set [5])])
    = Some ("Emprise PNR"%string, features_out)
    /\ length features_out = 2%nat.
Proof. eexists. split; [vm_compute; reflexivity|reflexivity]. Qed.

Example outline_lost :
  @etape_emprise _ _ picky_decoder picky_projector _
                 (Some [Some (list_to_set [1; 2]); None; Some (list_to_set [5])])
  = None.
Proof. vm_compute. reflexivity. Qed.

(** So it is with a geometry collection, whose mapping has no
    coordinates. *)
Example outline_lost_to_a_collection :
  @etape_emprise _ _ picky_decoder picky_projector _
                 (Some [Some (list_to_set [1; 2]); Some ∅; Some (list_to_set [5])])
  = None.
Proof. vm_compute. reflexivity. Qed.

End OutlineExamples.
